(** * UnityMiniCRM: the deal lifecycle of [backend/tasks]

    A shallow embedding of the parts of [backend/tasks/models.py],
    [backend/tasks/views.py] and [backend/tasks/serializers.py] that
    decide how a deal is saved, coded, validated, moved between stages and
    soft-deleted, followed by the properties settled on that embedding.

    Conventions.
    - A UUID is an integer ([Z]); a [datetime] is an integer number of
      seconds and a [date] an integer day number.  Only equality and order
      of these values are used by the code.
    - [DecimalField(max_digits=15, decimal_places=2)] is an integer number
      of hundredths.
    - A table is the list of its rows, in insertion order.
    - The database runs in Django's default autocommit mode: the source has
      no [transaction.atomic] block, so every [save] and every
      [objects.create] is committed when it returns.
    - Text is ASCII. *)

From Stdlib Require Import ZArith String Ascii List Lia DecimalString.
From Stdlib Require OrderedTypeEx.
From stdpp Require Import base gmap strings list.

(** ** Exceptions and results *)

Inductive Exception : Type :=
| ValidationError (fields : list string)  (* keys of the error dict *)
| DatabaseError
| IntegrityError
| ValueError
| AssertionError
| ModuleNotFoundError
| FieldError
| Http404.

Inductive Result (A : Type) : Type :=
| Ok (a : A)
| Raise (e : Exception).

Arguments Ok {A} a.
Arguments Raise {A} e.

#[global] Instance Result_ret : MRet Result := fun _ a => Ok a.
#[global] Instance Result_bind : MBind Result := fun _ _ f m =>
  match m with
  | Ok a => f a
  | Raise e => Raise e
  end.

(** What the code reads from its surroundings and does not write: the
    clock, as [timezone.now()], [timezone.now().date()] and
    [datetime.now().year], the identifier generator, and the keys of the
    rows of the tables that foreign keys are validated against. *)
Record Env : Type := mkEnv {
  timezone_now : Z;
  timezone_today : Z;
  datetime_now_year : Z;
  uuid4 : Z;                   (* what the next [uuid.uuid4()] returns *)
  user_ids : list Z;           (* auth.User *)
  company_ids : list Z;        (* Company *)
  contact_ids : list Z;        (* Contact *)
  deal_ids : list Z            (* Deal, for the models that point to it *)
}.

(** [value in keys] for integers. *)
Definition Z_in (x : Z) (xs : list Z) : bool := existsb (Z.eqb x) xs.

(** ** Python string helpers *)

Definition is_digit (c : ascii) : bool :=
  (48 <=? nat_of_ascii c)%nat && (nat_of_ascii c <=? 57)%nat.

Fixpoint all_digits (s : string) : bool :=
  match s with
  | EmptyString => true
  | String c s' => is_digit c && all_digits s'
  end.

(** [s.split('-')[-1]]: the text after the last dash, or all of [s]. *)
Fixpoint last_segment_from (acc s : string) : string :=
  match s with
  | EmptyString => acc
  | String c s' =>
      if Ascii.eqb c "-" then last_segment_from EmptyString s'
      else last_segment_from (acc +:+ String c EmptyString) s'
  end.

Definition split_dash_last (s : string) : string :=
  last_segment_from EmptyString s.

Definition digit_value (c : ascii) : Z := Z.of_nat (nat_of_ascii c) - 48.

Fixpoint int_from (acc : Z) (s : string) : Z :=
  match s with
  | EmptyString => acc
  | String c s' => int_from (10 * acc + digit_value c) s'
  end.

(** [int(s)] on a string of decimal digits; anything else is a
    [ValueError] (signs, blanks and underscores are not modelled: the only
    argument the code passes is a run of digits). *)
Definition int (s : string) : Result Z :=
  match s with
  | EmptyString => Raise ValueError
  | _ => if all_digits s then Ok (int_from 0 s) else Raise ValueError
  end.

(** [str(n)] for an integer. *)
Definition str (n : Z) : string := NilZero.string_of_int (Z.to_int n).

Fixpoint zeros (n : nat) : string :=
  match n with
  | O => EmptyString
  | S n' => String "0" (zeros n')
  end.

(** [f"{n:03d}"] for [0 <= n]: zero-padded on the left to width 3, longer
    numbers are printed in full. *)
Definition format_03d (n : Z) : string :=
  let s := str n in zeros (3 - String.length s) +:+ s.

(** ** Abstract base models

    [TimestampMixin] and [SoftDeleteMixin] contribute the same columns to
    every concrete model; [own] holds the columns the concrete model
    declares itself.  [adding] is Django's [_state.adding]: true for an
    instance built in memory, false once it has been saved or when it was
    read from the database. *)

Record Entity (F : Type) : Type := mkEntity {
  pk : Z;                      (* id = UUIDField(primary_key=True, default=uuid.uuid4) *)
  created_at : option Z;       (* auto_now_add; None before the first save *)
  updated_at : option Z;       (* auto_now *)
  is_active : bool;
  deleted_at : option Z;
  own : F;
  adding : bool
}.

Arguments mkEntity {F}.
Arguments pk {F}.
Arguments created_at {F}.
Arguments updated_at {F}.
Arguments is_active {F}.
Arguments deleted_at {F}.
Arguments own {F}.
Arguments adding {F}.

Section Model.
Context {F : Type}.

Definition set_created_at (v : option Z) (e : Entity F) : Entity F :=
  mkEntity (pk e) v (updated_at e) (is_active e) (deleted_at e) (own e) (adding e).
Definition set_updated_at (v : option Z) (e : Entity F) : Entity F :=
  mkEntity (pk e) (created_at e) v (is_active e) (deleted_at e) (own e) (adding e).
Definition set_is_active (v : bool) (e : Entity F) : Entity F :=
  mkEntity (pk e) (created_at e) (updated_at e) v (deleted_at e) (own e) (adding e).
Definition set_deleted_at (v : option Z) (e : Entity F) : Entity F :=
  mkEntity (pk e) (created_at e) (updated_at e) (is_active e) v (own e) (adding e).
Definition set_own (v : F) (e : Entity F) : Entity F :=
  mkEntity (pk e) (created_at e) (updated_at e) (is_active e) (deleted_at e) v (adding e).
Definition set_adding (v : bool) (e : Entity F) : Entity F :=
  mkEntity (pk e) (created_at e) (updated_at e) (is_active e) (deleted_at e) (own e) v.

(** How a concrete model copies one of its own columns, by name, from
    an instance into a stored row; [None] when the model has no concrete
    field of that name. *)
Variable assign_own : string -> F -> F -> option F.

(** One [SET col = value] of an [UPDATE]: the stored [row] takes column
    [c] from the in-memory instance [self].  The primary key is not among
    the names [update_fields] admits. *)
Definition assign_column (c : string) (self row : Entity F) : option (Entity F) :=
  if String.eqb c "created_at" then Some (set_created_at (created_at self) row)
  else if String.eqb c "updated_at" then Some (set_updated_at (updated_at self) row)
  else if String.eqb c "is_active" then Some (set_is_active (is_active self) row)
  else if String.eqb c "deleted_at" then Some (set_deleted_at (deleted_at self) row)
  else own' ← assign_own c (own self) (own row); Some (set_own own' row).

Definition get_row (db : list (Entity F)) (key : Z) : option (Entity F) :=
  List.find (fun r => Z.eqb (pk r) key) db.

Definition update_row (db : list (Entity F)) (row : Entity F) : list (Entity F) :=
  List.map (fun r => if Z.eqb (pk r) (pk row) then row else r) db.

(** [pre_save] of the [auto_now] column in an [UPDATE]: [updated_at]
    becomes the current time when the column is written. *)
Definition touch (env : Env) (update_fields : option (list string)) (self : Entity F)
    : Entity F :=
  match update_fields with
  | Some cols =>
      if existsb (String.eqb "updated_at") cols
      then set_updated_at (Some (timezone_now env)) self
      else self
  | None => set_updated_at (Some (timezone_now env)) self
  end.

(** The [INSERT] of an instance: every column is written, [created_at]
    and [updated_at] are set to the current time; a row with the same key
    is an [IntegrityError]. *)
Definition insert_row (db : list (Entity F)) (env : Env) (self : Entity F)
    : Result (list (Entity F) * Entity F) :=
  match get_row db (pk self) with
  | Some _ => Raise IntegrityError
  | None =>
      let self' := set_adding false
                     (set_created_at (Some (timezone_now env))
                        (set_updated_at (Some (timezone_now env)) self)) in
      Ok (db ++ [self'], self')
  end.

(** [django.db.models.Model.save(update_fields=...)].
    - An empty [update_fields] returns at once; a name in it that is no
      concrete field of the model, or the primary key, is a [ValueError].
    - An instance that is being added is inserted without an [UPDATE]
      being tried, because the primary key has a default; this holds with
      [update_fields] too.
    - Otherwise the row of the key is updated: with [update_fields] only
      the named columns are written, and no row is a [DatabaseError];
      without, all columns are written ([updated_at] refreshed), and when
      there is no row the instance is inserted.
    - After a save the instance is no longer being added. *)
Definition Model_save (db : list (Entity F)) (env : Env) (self : Entity F)
    (update_fields : option (list string)) : Result (list (Entity F) * Entity F) :=
  match update_fields with
  | Some [] => Ok (db, self)
  | _ =>
      if negb (forallb (fun c => match assign_column c self self with
                                 | Some _ => true
                                 | None => false
                                 end) (default [] update_fields))
      then Raise ValueError
      else if adding self
      then insert_row db env self
      else
        match get_row db (pk self) with
        | Some row =>
            let self' := touch env update_fields self in
            match update_fields with
            | Some cols =>
                Ok (update_row db
                      (fold_left (fun r c => default r (assign_column c self' r)) cols row),
                    self')
            | None => Ok (update_row db self', self')
            end
        | None =>
            match update_fields with
            | Some _ => Raise DatabaseError
            | None => insert_row db env self
            end
        end
  end.

(** The part of a concrete model's [save] that runs before
    the call of the base class's [save]: it may change the instance in
    memory and may raise. *)
Variable before_super : list (Entity F) -> Env -> Entity F -> Result (Entity F).

Definition save (db : list (Entity F)) (env : Env) (self : Entity F)
    (update_fields : option (list string)) : Result (list (Entity F) * Entity F) :=
  self' ← before_super db env self;
  Model_save db env self' update_fields.

(** [SoftDeleteMixin.soft_delete] *)
Definition soft_delete (db : list (Entity F)) (env : Env) (self : Entity F)
    : Result (list (Entity F) * Entity F) :=
  let self := set_is_active false self in
  let self := set_deleted_at (Some (timezone_now env)) self in
  save db env self (Some ["is_active"; "deleted_at"]).

(** [SoftDeleteMixin.restore] *)
Definition restore (db : list (Entity F)) (env : Env) (self : Entity F)
    : Result (list (Entity F) * Entity F) :=
  let self := set_is_active true self in
  let self := set_deleted_at None self in
  save db env self (Some ["is_active"; "deleted_at"]).
End Model.

(** ** Choices and dict literals *)

(** A dict literal, looked up by key. *)
Fixpoint dict_get {V : Type} (k : string) (d : list (string * V)) : option V :=
  match d with
  | [] => None
  | (k', v) :: d' => if String.eqb k k' then Some v else dict_get k d'
  end.

(** [x in xs] for a list of strings. *)
Definition str_in (x : string) (xs : list string) : bool :=
  existsb (String.eqb x) xs.

Definition choice_values (choices : list (string * string)) : list string :=
  List.map fst choices.

Definition STAGE_CHOICES : list (string * string) :=
  [ ("lead", "Lead");
    ("qualified", "Qualified");
    ("proposal", "Proposal");
    ("negotiation", "Negotiation");
    ("closed_won", "Closed Won");
    ("closed_lost", "Closed Lost");
    ("on_hold", "On Hold") ].

Definition LOST_REASON_CHOICES : list (string * string) :=
  [ ("price", "Price");
    ("competitor", "Competitor");
    ("timing", "Timing");
    ("features", "Missing Features");
    ("other", "Other") ].

Definition CURRENCY_CHOICES : list (string * string) :=
  [ ("USD", "US Dollar");
    ("EUR", "Euro");
    ("GBP", "British Pound");
    ("JPY", "Japanese Yen");
    ("CAD", "Canadian Dollar") ].

Definition FORECAST_CATEGORY_CHOICES : list (string * string) :=
  [ ("pipeline", "Pipeline");
    ("best_case", "Best Case");
    ("commit", "Commit");
    ("closed", "Closed") ].

(** ** The Deal model *)

(** The columns [Deal] declares itself.  [notes], [last_contact_date]
    and [next_follow_up] are left out: they have no validator and are
    neither read nor written by any operation below; [team_members] is a
    many-to-many relation, stored in a table of its own. *)
Record DealColumns : Type := mkDealColumns {
  deal_code : string;
  title : string;
  amount : Z;                          (* hundredths *)
  currency : string;
  stage : string;
  probability : Z;
  expected_close_date : option Z;
  actual_close_date : option Z;
  lost_reason : string;
  lost_notes : string;
  company : Z;                         (* ForeignKey(Company) *)
  forecast_category : string;
  contact : option Z;                  (* ForeignKey(Contact, null=True, blank=True) *)
  tags : string;
  created_by : option Z;               (* ForeignKey(User, null=True) *)
  assigned_to : option Z               (* ForeignKey(User, null=True) *)
}.

Definition Deal : Type := Entity DealColumns.

Definition with_deal_code (v : string) (c : DealColumns) : DealColumns :=
  mkDealColumns
    v (title c) (amount c) (currency c) (stage c) (probability c)
    (expected_close_date c) (actual_close_date c) (lost_reason c) (lost_notes c)
    (company c) (forecast_category c) (contact c) (tags c) (created_by c)
    (assigned_to c).
Definition with_title (v : string) (c : DealColumns) : DealColumns :=
  mkDealColumns
    (deal_code c) v (amount c) (currency c) (stage c) (probability c)
    (expected_close_date c) (actual_close_date c) (lost_reason c) (lost_notes c)
    (company c) (forecast_category c) (contact c) (tags c) (created_by c)
    (assigned_to c).
Definition with_amount (v : Z) (c : DealColumns) : DealColumns :=
  mkDealColumns
    (deal_code c) (title c) v (currency c) (stage c) (probability c)
    (expected_close_date c) (actual_close_date c) (lost_reason c) (lost_notes c)
    (company c) (forecast_category c) (contact c) (tags c) (created_by c)
    (assigned_to c).
Definition with_currency (v : string) (c : DealColumns) : DealColumns :=
  mkDealColumns
    (deal_code c) (title c) (amount c) v (stage c) (probability c)
    (expected_close_date c) (actual_close_date c) (lost_reason c) (lost_notes c)
    (company c) (forecast_category c) (contact c) (tags c) (created_by c)
    (assigned_to c).
Definition with_stage (v : string) (c : DealColumns) : DealColumns :=
  mkDealColumns
    (deal_code c) (title c) (amount c) (currency c) v (probability c)
    (expected_close_date c) (actual_close_date c) (lost_reason c) (lost_notes c)
    (company c) (forecast_category c) (contact c) (tags c) (created_by c)
    (assigned_to c).
Definition with_probability (v : Z) (c : DealColumns) : DealColumns :=
  mkDealColumns
    (deal_code c) (title c) (amount c) (currency c) (stage c) v (expected_close_date c)
    (actual_close_date c) (lost_reason c) (lost_notes c) (company c)
    (forecast_category c) (contact c) (tags c) (created_by c) (assigned_to c).
Definition with_expected_close_date (v : option Z) (c : DealColumns) : DealColumns :=
  mkDealColumns
    (deal_code c) (title c) (amount c) (currency c) (stage c) (probability c) v
    (actual_close_date c) (lost_reason c) (lost_notes c) (company c)
    (forecast_category c) (contact c) (tags c) (created_by c) (assigned_to c).
Definition with_actual_close_date (v : option Z) (c : DealColumns) : DealColumns :=
  mkDealColumns
    (deal_code c) (title c) (amount c) (currency c) (stage c) (probability c)
    (expected_close_date c) v (lost_reason c) (lost_notes c) (company c)
    (forecast_category c) (contact c) (tags c) (created_by c) (assigned_to c).
Definition with_lost_reason (v : string) (c : DealColumns) : DealColumns :=
  mkDealColumns
    (deal_code c) (title c) (amount c) (currency c) (stage c) (probability c)
    (expected_close_date c) (actual_close_date c) v (lost_notes c) (company c)
    (forecast_category c) (contact c) (tags c) (created_by c) (assigned_to c).
Definition with_lost_notes (v : string) (c : DealColumns) : DealColumns :=
  mkDealColumns
    (deal_code c) (title c) (amount c) (currency c) (stage c) (probability c)
    (expected_close_date c) (actual_close_date c) (lost_reason c) v (company c)
    (forecast_category c) (contact c) (tags c) (created_by c) (assigned_to c).
Definition with_company (v : Z) (c : DealColumns) : DealColumns :=
  mkDealColumns
    (deal_code c) (title c) (amount c) (currency c) (stage c) (probability c)
    (expected_close_date c) (actual_close_date c) (lost_reason c) (lost_notes c) v
    (forecast_category c) (contact c) (tags c) (created_by c) (assigned_to c).
Definition with_forecast_category (v : string) (c : DealColumns) : DealColumns :=
  mkDealColumns
    (deal_code c) (title c) (amount c) (currency c) (stage c) (probability c)
    (expected_close_date c) (actual_close_date c) (lost_reason c) (lost_notes c)
    (company c) v (contact c) (tags c) (created_by c) (assigned_to c).
Definition with_contact (v : option Z) (c : DealColumns) : DealColumns :=
  mkDealColumns
    (deal_code c) (title c) (amount c) (currency c) (stage c) (probability c)
    (expected_close_date c) (actual_close_date c) (lost_reason c) (lost_notes c)
    (company c) (forecast_category c) v (tags c) (created_by c) (assigned_to c).
Definition with_tags (v : string) (c : DealColumns) : DealColumns :=
  mkDealColumns
    (deal_code c) (title c) (amount c) (currency c) (stage c) (probability c)
    (expected_close_date c) (actual_close_date c) (lost_reason c) (lost_notes c)
    (company c) (forecast_category c) (contact c) v (created_by c) (assigned_to c).
Definition with_created_by (v : option Z) (c : DealColumns) : DealColumns :=
  mkDealColumns
    (deal_code c) (title c) (amount c) (currency c) (stage c) (probability c)
    (expected_close_date c) (actual_close_date c) (lost_reason c) (lost_notes c)
    (company c) (forecast_category c) (contact c) (tags c) v (assigned_to c).
Definition with_assigned_to (v : option Z) (c : DealColumns) : DealColumns :=
  mkDealColumns
    (deal_code c) (title c) (amount c) (currency c) (stage c) (probability c)
    (expected_close_date c) (actual_close_date c) (lost_reason c) (lost_notes c)
    (company c) (forecast_category c) (contact c) (tags c) (created_by c) v.

(** Assignments to an attribute of a deal held in memory. *)
Definition on_own (f : DealColumns -> DealColumns) (d : Deal) : Deal :=
  set_own (f (own d)) d.

(** The column copy of [Deal] for an [UPDATE] of named columns.  A
    foreign key answers to its name and to its column name; the fields
    left out of [DealColumns] are accepted and change nothing here. *)
Definition Deal_assign_own (c : string) (self row : DealColumns) : option DealColumns :=
  if String.eqb c "deal_code" then Some (with_deal_code (deal_code self) row)
  else if String.eqb c "title" then Some (with_title (title self) row)
  else if String.eqb c "amount" then Some (with_amount (amount self) row)
  else if String.eqb c "currency" then Some (with_currency (currency self) row)
  else if String.eqb c "stage" then Some (with_stage (stage self) row)
  else if String.eqb c "probability" then Some (with_probability (probability self) row)
  else if String.eqb c "expected_close_date" then Some (with_expected_close_date (expected_close_date self) row)
  else if String.eqb c "actual_close_date" then Some (with_actual_close_date (actual_close_date self) row)
  else if String.eqb c "lost_reason" then Some (with_lost_reason (lost_reason self) row)
  else if String.eqb c "lost_notes" then Some (with_lost_notes (lost_notes self) row)
  else if String.eqb c "company" || String.eqb c "company_id" then Some (with_company (company self) row)
  else if String.eqb c "forecast_category" then Some (with_forecast_category (forecast_category self) row)
  else if String.eqb c "contact" || String.eqb c "contact_id" then Some (with_contact (contact self) row)
  else if String.eqb c "tags" then Some (with_tags (tags self) row)
  else if String.eqb c "created_by" || String.eqb c "created_by_id" then Some (with_created_by (created_by self) row)
  else if String.eqb c "assigned_to" || String.eqb c "assigned_to_id" then Some (with_assigned_to (assigned_to self) row)
  else if str_in c ["notes"; "last_contact_date"; "next_follow_up"] then Some row
  else None.

(** *** Validation: [full_clean] *)

Definition is_empty (s : string) : bool :=
  match s with EmptyString => true | _ => false end.

Definition check (name : string) (ok : bool) : list string :=
  if ok then [] else [name].

(** The validation of a foreign key that may not be left blank: the
    value is set and names a row of the related table. *)
Definition required_key (v : option Z) (keys : list Z) : bool :=
  match v with
  | Some k => Z_in k keys
  | None => false
  end.

(** The validation of a foreign key with [blank=True]: an empty value
    is skipped, a set one names a row of the related table. *)
Definition optional_key (v : option Z) (keys : list Z) : bool :=
  match v with
  | Some k => Z_in k keys
  | None => true
  end.

(** [Model.clean_fields]: the names of the fields that fail their own
    validators, in the order of the fields ([blank], [max_length],
    [choices], [MinValueValidator], [MaxValueValidator], the digits of the
    decimal, and for a foreign key that the row it names exists).
    [created_by] and [assigned_to] are declared with [null=True] and
    without [blank=True], so an empty value fails. *)
Definition Deal_clean_fields (env : Env) (self : Deal) : list string :=
  let c := own self in
  check "deal_code"
    (negb (is_empty (deal_code c)) && (String.length (deal_code c) <=? 50)%nat)
  ++ check "title"
    (negb (is_empty (title c)) && (String.length (title c) <=? 200)%nat)
  ++ check "amount" ((0 <=? amount c)%Z && (amount c <? 10 ^ 15)%Z)
  ++ check "currency" (str_in (currency c) (choice_values CURRENCY_CHOICES))
  ++ check "stage" (str_in (stage c) (choice_values STAGE_CHOICES))
  ++ check "probability" ((0 <=? probability c)%Z && (probability c <=? 100)%Z)
  ++ check "lost_reason"
    (is_empty (lost_reason c)
     || str_in (lost_reason c) (choice_values LOST_REASON_CHOICES))
  ++ check "company" (Z_in (company c) (company_ids env))
  ++ check "contact" (optional_key (contact c) (contact_ids env))
  ++ check "tags" (String.length (tags c) <=? 500)%nat
  ++ check "created_by" (required_key (created_by c) (user_ids env))
  ++ check "assigned_to" (required_key (assigned_to c) (user_ids env))
  ++ check "forecast_category"
    (str_in (forecast_category c) (choice_values FORECAST_CATEGORY_CHOICES)).

(** The dict literal of [Deal.clean]. *)
Definition stage_probability_map : list (string * (Z * Z)) :=
  [ ("lead", (0, 30));
    ("qualified", (30, 50));
    ("proposal", (50, 70));
    ("negotiation", (70, 90));
    ("closed_won", (95, 100));
    ("closed_lost", (0, 5));
    ("on_hold", (0, 100)) ]%Z.

(** [Deal.clean] *)
Definition Deal_clean (self : Deal) : Result unit :=
  let c := own self in
  _ ← match dict_get (stage c) stage_probability_map with
      | Some (min_prob, max_prob) =>
          if negb ((min_prob <=? probability c)%Z && (probability c <=? max_prob)%Z)
          then Raise (ValidationError ["probability"])
          else Ok tt
      | None => Ok tt
      end;
  match actual_close_date c, expected_close_date c with
  | Some actual, Some expected =>
      if (actual <? expected)%Z
      then Raise (ValidationError ["actual_close_date"])
      else Ok tt
  | _, _ => Ok tt
  end.

(** [Model.validate_unique] for a primary key: checked only while the
    instance is being added. *)
Definition validate_unique_pk {F : Type} (db : list (Entity F)) (self : Entity F)
    : list string :=
  if adding self
  then check "id" (negb (existsb (fun r => Z.eqb (pk r) (pk self)) db))
  else [].

(** [Model.validate_unique] for the key and for [deal_code]
    ([unique=True]): a row holds the same code, the instance's own row
    apart unless the instance is being added.  Fields that already failed
    are skipped. *)
Definition Deal_validate_unique (db : list Deal) (self : Deal)
    (exclude : list string) : list string :=
  validate_unique_pk db self
  ++ (if str_in "deal_code" exclude then []
      else check "deal_code"
             (negb (existsb (fun r => (adding self || negb (Z.eqb (pk r) (pk self)))
                                      && String.eqb (deal_code (own r))
                                                    (deal_code (own self))) db))).

Definition errors_of (r : Result unit) : list string :=
  match r with
  | Raise (ValidationError fields) => fields
  | _ => []
  end.

(** [Model.full_clean]: field validators, then [clean], then the unique
    checks; all errors are collected and raised together. *)
Definition Deal_full_clean (db : list Deal) (env : Env) (self : Deal) : Result unit :=
  let errors := Deal_clean_fields env self in
  let errors := errors ++ errors_of (Deal_clean self) in
  let errors := errors ++ Deal_validate_unique db self errors in
  match errors with
  | [] => Ok tt
  | _ => Raise (ValidationError errors)
  end.

(** *** Deal codes *)

(** [deal_code__regex=r'^DEAL-\d{4}-\d{3}$'], with [\d] an ASCII digit
    and [$] the end of the text. *)
Definition deal_code_regex (s : string) : bool :=
  (String.length s =? 13)%nat
  && String.eqb (substring 0 5 s) "DEAL-"
  && all_digits (substring 5 4 s)
  && String.eqb (substring 9 1 s) "-"
  && all_digits (substring 10 3 s).

(** [aggregate(Max(...))] over a text column: the greatest string in the
    order of the character codes, [None] for no rows.  On the codes the
    pattern selects (same length, same letters, digits) every collation
    of the database agrees with this order. *)
Definition aggregate_Max (l : list string) : option string :=
  fold_left (fun acc s =>
               match acc with
               | None => Some s
               | Some m => if String.ltb m s then Some s else Some m
               end) l None.

(** The block of [Deal.save] under [if not self.deal_code].  A code the
    pattern selects is not empty, so [if last_deal['deal_code__max']] is
    the test for a row having matched. *)
Definition auto_deal_code (db : list Deal) (env : Env) : Result string :=
  let last_deal :=
    aggregate_Max (List.filter deal_code_regex (List.map (fun r => deal_code (own r)) db)) in
  new_num ← match last_deal with
            | Some code =>
                last_num ← int (split_dash_last code);
                Ok (last_num + 1)%Z
            | None => Ok 1%Z
            end;
  let year := datetime_now_year env in
  Ok ("DEAL-" +:+ str year +:+ "-" +:+ format_03d new_num).

(** [Deal.save] up to its last line. *)
Definition Deal_before_super (db : list Deal) (env : Env) (self : Deal) : Result Deal :=
  self ← (if is_empty (deal_code (own self))
          then code ← auto_deal_code db env; Ok (on_own (with_deal_code code) self)
          else Ok self);
  _ ← Deal_full_clean db env self;
  Ok self.

(** [Deal.save] *)
Definition Deal_save (db : list Deal) (env : Env) (self : Deal)
    (update_fields : option (list string)) : Result (list Deal * Deal) :=
  save Deal_assign_own Deal_before_super db env self update_fields.

(** [Deal.is_closed] *)
Definition is_closed (self : Deal) : bool :=
  str_in (stage (own self)) ["closed_won"; "closed_lost"].

(** [Deal.close_deal] *)
Definition close_deal (db : list Deal) (env : Env) (self : Deal)
    (stage' lost_reason' lost_notes' : string) : Result (list Deal * Deal) :=
  if negb (str_in stage' ["closed_won"; "closed_lost"])
  then Raise (ValidationError ["__all__"])
  else
    let self := on_own (with_stage stage') self in
    let self := on_own (with_actual_close_date (Some (timezone_today env))) self in
    let self := on_own (with_probability
                          (if String.eqb stage' "closed_won" then 100 else 0)%Z) self in
    let self := if String.eqb stage' "closed_lost"
                then on_own (with_lost_notes lost_notes')
                       (on_own (with_lost_reason lost_reason') self)
                else self in
    Deal_save db env self None.

(** [SoftDeleteMixin] as inherited by [Deal]. *)
Definition Deal_soft_delete : list Deal -> Env -> Deal -> Result (list Deal * Deal) :=
  soft_delete Deal_assign_own Deal_before_super.
Definition Deal_restore : list Deal -> Env -> Deal -> Result (list Deal * Deal) :=
  restore Deal_assign_own Deal_before_super.

(** ** Company.active_deals

    [self.deals] is the reverse side of [Deal.company]; the exclusion
    compares [stage] with the literals of the source. *)
Definition Company_deals (deals : list Deal) (self_pk : Z) : list Deal :=
  List.filter (fun d => Z.eqb (company (own d)) self_pk) deals.

Definition Company_active_deals (deals : list Deal) (self_pk : Z) : list Deal :=
  List.filter (fun d => negb (String.eqb (stage (own d)) "won"
                              || String.eqb (stage (own d)) "lost"))
    (List.filter (fun d => is_active d) (Company_deals deals self_pk)).

(** ** DealStageHistory and the database *)

Record DealStageHistory : Type := mkDealStageHistory {
  h_pk : Z;
  h_created_at : Z;                    (* TimestampMixin *)
  h_updated_at : Z;
  deal : Z;                            (* ForeignKey(Deal) *)
  from_stage : string;
  to_stage : string;
  changed_by : Z;                      (* ForeignKey(User) *)
  changed_at : Z;                      (* auto_now_add *)
  notes : string
}.

Record Store : Type := mkStore {
  deal_table : list Deal;
  history_table : list DealStageHistory
}.

(** [DealStageHistory.objects.create(...)]: the model has no [save] of its
    own and [create] does not validate; the row is inserted. *)
Definition DealStageHistory_create (db : Store) (env : Env)
    (deal' : Z) (from_stage' to_stage' : string) (changed_by' : Z) (notes' : string)
    : Store :=
  mkStore (deal_table db)
    (history_table db ++
       [mkDealStageHistory (uuid4 env) (timezone_now env) (timezone_now env)
          deal' from_stage' to_stage' changed_by' (timezone_now env) notes']).

(** ** The view sets *)

Inductive Response : Type :=
| Response_200 (data : Deal * Z)        (* the serialized deal, with [days_in_stage] *)
| Response_400 (error : string)
| Response_404
| Uncaught (e : Exception).             (* an exception leaves the view *)

(** [GenericAPIView.get_queryset]: the framework asserts that the view
    class has a [queryset]. *)
Definition GenericAPIView_get_queryset {A : Type} (queryset : option (list A))
    : Result (list A) :=
  match queryset with
  | Some rows => Ok rows
  | None => Raise AssertionError
  end.

(** The class attribute [queryset] of a view set of [views.py], on the
    table of its model.  Every view set names its model in [model], which
    the framework does not read, and none declares [queryset]: the
    attribute is the [None] it inherits. *)
Definition ViewSet_queryset {A : Type} (table : list A) : option (list A) := None.

(** [BaseCRUDViewSet.get_queryset]; every model of the view sets has
    [is_active]. *)
Definition BaseCRUDViewSet_get_queryset {F : Type} (table : list (Entity F))
    : Result (list (Entity F)) :=
  queryset ← GenericAPIView_get_queryset (ViewSet_queryset table);
  Ok (List.filter (fun r => is_active r) queryset).

(** The query parameters [DealViewSet.get_queryset] reads, each absent
    or with its value as the filter takes it; [assigned_to] holds what
    [uuid.UUID] makes of the text, [None] where it raises [ValueError]. *)
Record QueryParams : Type := mkQueryParams {
  q_stage : option string;
  q_start_date : option Z;
  q_end_date : option Z;
  q_min_probability : option Z;
  q_max_probability : option Z;
  q_min_amount : option Z;
  q_max_amount : option Z;
  q_assigned_to : option (option Z)
}.


(** A filter applied when the parameter is there. *)
Definition filter_if {A P : Type} (p : option P) (test : P -> A -> bool) (l : list A)
    : list A :=
  match p with
  | Some v => List.filter (test v) l
  | None => l
  end.

Definition date_at_least (bound : Z) (d : option Z) : bool :=
  match d with Some v => (bound <=? v)%Z | None => false end.
Definition date_at_most (bound : Z) (d : option Z) : bool :=
  match d with Some v => (v <=? bound)%Z | None => false end.

(** [queryset.annotate(weighted_amount=F('amount') * F('probability') /
    100.0)]: the expression combines a decimal, an integer and a float
    without an [output_field], which is a [FieldError] once the query is
    run; the view sets run it right after building it. *)
Definition annotate_weighted_amount (queryset : list Deal) : Result (list Deal) :=
  Raise FieldError.

(** [DealViewSet.get_queryset] *)
Definition DealViewSet_get_queryset (db : Store) (params : QueryParams)
    : Result (list Deal) :=
  queryset ← BaseCRUDViewSet_get_queryset (deal_table db);
  let queryset :=
    match q_stage params with
    | Some s => if is_empty s then queryset
                else List.filter (fun d => String.eqb (stage (own d)) s) queryset
    | None => queryset
    end in
  let queryset :=
    filter_if (q_start_date params)
      (fun v d => date_at_least v (expected_close_date (own d))) queryset in
  let queryset :=
    filter_if (q_end_date params)
      (fun v d => date_at_most v (expected_close_date (own d))) queryset in
  let queryset :=
    filter_if (q_min_probability params)
      (fun v d => (v <=? probability (own d))%Z) queryset in
  let queryset :=
    filter_if (q_max_probability params)
      (fun v d => (probability (own d) <=? v)%Z) queryset in
  let queryset :=
    filter_if (q_min_amount params) (fun v d => (v <=? amount (own d))%Z) queryset in
  let queryset :=
    filter_if (q_max_amount params) (fun v d => (amount (own d) <=? v)%Z) queryset in
  let queryset :=
    match q_assigned_to params with
    | Some (Some user_uuid) =>
        List.filter (fun d => match assigned_to (own d) with
                              | Some u => Z.eqb u user_uuid
                              | None => false
                              end) queryset
    | _ => queryset
    end in
  annotate_weighted_amount queryset.

(** [self.get_object()] of the deal view set: the row of the key in the
    view set's queryset, read from the database; no row is [Http404]. *)
Definition DealViewSet_get_object (db : Store) (params : QueryParams) (key : Z)
    : Result Deal :=
  queryset ← DealViewSet_get_queryset db params;
  match get_row queryset key with
  | Some row => Ok (set_adding false row)
  | None => Raise Http404
  end.

Definition valid_stages : list string := choice_values STAGE_CHOICES.

(** The dict literal of [change_stage]. *)
Definition stage_default_probability : list (string * Z) :=
  [ ("lead", 20); ("qualified", 40); ("proposal", 60);
    ("negotiation", 80); ("closed_won", 100); ("closed_lost", 0);
    ("on_hold", 50) ]%Z.

(** [", ".join(xs)] *)
Definition join_comma (xs : list string) : string := String.concat ", " xs.

(** ** Deal.days_in_stage and the serializer *)

(** The modules of the package [tasks]. *)
Definition tasks_modules : list string :=
  ["admin"; "migrations"; "models"; "serializers"; "views"].

(** [from .module import name]: a module the package does not have is a
    [ModuleNotFoundError]. *)
Definition import_from (module : string) : Result unit :=
  if str_in module tasks_modules then Ok tt else Raise ModuleNotFoundError.

(** [datetime.date()] on the integer clock: the day a second falls in. *)
Definition date_of (t : Z) : Z := t / 86400.

(** [DealStageHistory.objects.filter(deal=self).order_by('-changed_at')
    .first()]: the row of this deal with the greatest [changed_at], the
    earliest stored one among equals; [None] without rows. *)
Definition latest_history (hs : list DealStageHistory) (deal_pk : Z)
    : option DealStageHistory :=
  fold_left (fun best h =>
               match best with
               | None => Some h
               | Some b => if (changed_at b <? changed_at h)%Z then Some h else Some b
               end)
    (List.filter (fun h => Z.eqb (deal h) deal_pk) hs) None.

(** [Deal.days_in_stage].  The property imports [DealStageHistory] from
    [.deal_stage_history]; the model is declared in [models.py] and the
    package has no module of that name. *)
Definition days_in_stage (db : Store) (env : Env) (self : Deal) : Result Z :=
  _ ← import_from "deal_stage_history";
  match latest_history (history_table db) (pk self) with
  | Some latest =>
      let days := (timezone_today env - date_of (changed_at latest))%Z in
      Ok (Z.max 0 days)
  | None => Ok 0%Z
  end.

(** [DealSerializer(deal).data]: the representation reads the fields of
    [Meta.fields] in turn; [days_in_stage] is the one whose value can fail
    to be read.  The columns are those of the instance. *)
Definition DealSerializer_data (db : Store) (env : Env) (instance : Deal)
    : Result (Deal * Z) :=
  days ← days_in_stage db env instance;
  Ok (instance, days).

(** ** DealViewSet.change_stage *)

(** [change_stage] from its second line on, with [deal0] the deal that
    [get_object] has returned.  [request.data] is a dict of strings,
    [request.user] the key of the caller.  The returned store is what is
    committed when the view returns or raises. *)
Definition change_stage_with (deal0 : Deal) (db : Store) (env : Env) (user : Z)
    (data : gmap string string) : Store * Response :=
  let new_stage := default EmptyString (data !! "stage") in
  let notes' := default EmptyString (data !! "notes") in
  if is_empty new_stage
  then (db, Response_400 "Stage is required")
  else if negb (str_in new_stage valid_stages)
  then (db, Response_400 ("Invalid stage. Valid stages are: "
                          +:+ join_comma valid_stages))
  else
    (* Create stage history *)
    let db := DealStageHistory_create db env (pk deal0) (stage (own deal0))
                new_stage user notes' in
    (* Update deal *)
    let deal1 := on_own (with_stage new_stage) deal0 in
    let deal1 := match dict_get new_stage stage_default_probability with
                 | Some p => on_own (with_probability p) deal1
                 | None => deal1
                 end in
    let deal1 :=
      if str_in new_stage ["closed_won"; "closed_lost"]
      then
        let deal1 := on_own (with_actual_close_date (Some (timezone_today env))) deal1 in
        if String.eqb new_stage "closed_lost"
        then on_own (with_lost_notes (default EmptyString (data !! "lost_notes")))
               (on_own (with_lost_reason (default EmptyString (data !! "lost_reason")))
                  deal1)
        else deal1
      else deal1 in
    match Deal_save (deal_table db) env deal1 None with
    | Ok (deals, saved) =>
        let db := mkStore deals (history_table db) in
        match DealSerializer_data db env saved with
        | Ok body => (db, Response_200 body)
        | Raise e => (db, Uncaught e)
        end
    | Raise e => (db, Uncaught e)
    end.

(** [DealViewSet.change_stage].  [Http404] is answered with a 404; any
    other exception leaves the view. *)
Definition change_stage (db : Store) (env : Env) (user : Z) (key : Z)
    (params : QueryParams) (data : gmap string string) : Store * Response :=
  match DealViewSet_get_object db params key with
  | Ok deal0 => change_stage_with deal0 db env user data
  | Raise Http404 => (db, Response_404)
  | Raise e => (db, Uncaught e)
  end.

(** ** Sample data *)

Definition sample_env : Env :=
  mkEnv 1718000000 19884 2024 9001 [5; 6]%Z [7; 8]%Z [] [1; 2; 3]%Z.

(** [Deal(title=..., amount=..., company=..., created_by=...,
    assigned_to=...)]: an unsaved instance with the declared defaults of
    the other fields and a fresh [id]. *)
Definition Deal_init (key : Z) (title' : string) (amount' : Z) (company' : Z)
    (created_by' assigned_to' : option Z) : Deal :=
  mkEntity key None None true None
    (mkDealColumns EmptyString title' amount' "USD" "lead" 0 None None
       EmptyString EmptyString company' "pipeline" None EmptyString
       created_by' assigned_to')
    true.

(** * Vocabulary of the statements

    Predicates the theorems are stated with, the two tables of the
    specification written out as the specification has them, and the
    sample rows of the examples. *)

(** What [Deal_clean_fields] accepts. *)
Definition fields_ok (env : Env) (c : DealColumns) : Prop :=
  negb (is_empty (deal_code c)) && (String.length (deal_code c) <=? 50)%nat = true
  /\ negb (is_empty (title c)) && (String.length (title c) <=? 200)%nat = true
  /\ (0 <=? amount c)%Z && (amount c <? 10 ^ 15)%Z = true
  /\ str_in (currency c) (choice_values CURRENCY_CHOICES) = true
  /\ str_in (stage c) (choice_values STAGE_CHOICES) = true
  /\ (0 <=? probability c)%Z && (probability c <=? 100)%Z = true
  /\ is_empty (lost_reason c)
     || str_in (lost_reason c) (choice_values LOST_REASON_CHOICES) = true
  /\ Z_in (company c) (company_ids env) = true
  /\ optional_key (contact c) (contact_ids env) = true
  /\ (String.length (tags c) <=? 500)%nat = true
  /\ required_key (created_by c) (user_ids env) = true
  /\ required_key (assigned_to c) (user_ids env) = true
  /\ str_in (forecast_category c) (choice_values FORECAST_CATEGORY_CHOICES) = true.

(** What [Deal_validate_unique] accepts: no row has the key of an
    instance that is being added, and no other row has the code. *)
Definition code_is_free (db : list Deal) (d : Deal) : Prop :=
  (adding d = true -> existsb (fun r => Z.eqb (pk r) (pk d)) db = false)
  /\ existsb (fun r => (adding d || negb (Z.eqb (pk r) (pk d)))
                       && String.eqb (deal_code (own r)) (deal_code (own d))) db = false.

(** The probability bands, as the specification tabulates them
    (stage, inclusive minimum and maximum). *)
Definition spec_probability_band (stage' : string) (p : Z) : Prop :=
  (stage' = "lead" /\ 0 <= p <= 30)%Z
  \/ (stage' = "qualified" /\ 30 <= p <= 50)%Z
  \/ (stage' = "proposal" /\ 50 <= p <= 70)%Z
  \/ (stage' = "negotiation" /\ 70 <= p <= 90)%Z
  \/ (stage' = "closed_won" /\ 95 <= p <= 100)%Z
  \/ (stage' = "closed_lost" /\ 0 <= p <= 5)%Z
  \/ (stage' = "on_hold" /\ 0 <= p <= 100)%Z.

(** The deal's probability is within the band of its stage. *)
Definition in_band (d : Deal) : Prop :=
  spec_probability_band (stage (own d)) (probability (own d)).

(** Every stored deal is within the band of its stage. *)
Definition band_invariant (deals : list Deal) : Prop := Forall in_band deals.

(** The two tests of [Deal.clean]. *)
Definition band_ok (c : DealColumns) : Prop :=
  match dict_get (stage c) stage_probability_map with
  | Some (min_prob, max_prob) => (min_prob <= probability c <= max_prob)%Z
  | None => True
  end.

Definition dates_ok (c : DealColumns) : Prop :=
  match actual_close_date c, expected_close_date c with
  | Some actual, Some expected => (expected <= actual)%Z
  | _, _ => True
  end.

(** The deal held in memory when [change_stage] reaches [deal.save()]. *)
Definition staged (env : Env) (data : gmap string string) (new_stage : string)
    (deal0 : Deal) : Deal :=
  let deal1 := on_own (with_stage new_stage) deal0 in
  let deal1 := match dict_get new_stage stage_default_probability with
               | Some p => on_own (with_probability p) deal1
               | None => deal1
               end in
  if str_in new_stage ["closed_won"; "closed_lost"]
  then
    let deal1 := on_own (with_actual_close_date (Some (timezone_today env))) deal1 in
    if String.eqb new_stage "closed_lost"
    then on_own (with_lost_notes (default EmptyString (data !! "lost_notes")))
           (on_own (with_lost_reason (default EmptyString (data !! "lost_reason")))
              deal1)
    else deal1
  else deal1.

(** The history row [change_stage] writes. *)
Definition history_row (env : Env) (user : Z) (data : gmap string string)
    (new_stage : string) (deal0 : Deal) : DealStageHistory :=
  mkDealStageHistory (uuid4 env) (timezone_now env) (timezone_now env)
    (pk deal0) (stage (own deal0)) new_stage user (timezone_now env)
    (default EmptyString (data !! "notes")).


(** The answers of the steps of [change_stage] that are given after the
    deal was saved: the exception the serializer raises, or 200. *)
Definition deal_saved (resp : Response) : Prop :=
  resp = Uncaught ModuleNotFoundError \/ exists body, resp = Response_200 body.

(** When the stored deal is valid, what can still make the save of a
    stage change fail: an expected close date after today when closing,
    and a lost reason outside the choices. *)
Definition close_date_allows (env : Env) (d0 : Deal) : Prop :=
  match expected_close_date (own d0) with
  | Some expected => (expected <= timezone_today env)%Z
  | None => True
  end.

(** The [lost_reason] column is [blank=True] with choices. *)
Definition lost_reason_accepted (r : string) : Prop :=
  is_empty r || str_in r (choice_values LOST_REASON_CHOICES) = true.

(** Stored sample deals: one won, one qualified, one lead that is
    expected to close after today. *)
Definition won_deal : Deal :=
  mkEntity 1 (Some 1717000000%Z) (Some 1717500000%Z) true None
    (mkDealColumns "DEAL-2024-001" "Annual licence" 2500000 "USD" "closed_won" 100
       (Some 19870%Z) (Some 19878%Z) EmptyString EmptyString 7 "closed"
       None EmptyString (Some 5%Z) (Some 6%Z))
    false.

Definition qualified_deal : Deal :=
  mkEntity 2 (Some 1717100000%Z) (Some 1717100000%Z) true None
    (mkDealColumns "DEAL-2024-002" "Support plan" 480000 "EUR" "qualified" 40
       None None EmptyString EmptyString 7 "pipeline"
       None EmptyString (Some 5%Z) (Some 5%Z))
    false.

Definition late_deal : Deal :=
  mkEntity 3 (Some 1717200000%Z) (Some 1717200000%Z) true None
    (mkDealColumns "DEAL-2024-003" "Pilot" 90000 "USD" "lead" 10
       (Some 19900%Z) None EmptyString EmptyString 8 "pipeline"
       None EmptyString (Some 5%Z) (Some 6%Z))
    false.

Definition sample_store : Store :=
  mkStore [won_deal; qualified_deal; late_deal] [].


(** The writes to the deal table that the source performs: a full
    [save()] of an instance with any field values (the serializer and the
    admin go through it), the view [change_stage] and its steps for
    whatever deal it holds, [close_deal], [soft_delete] and [restore].  No
    other path writes a deal; in particular no deal is written through
    [QuerySet.update], and [save] is called with [update_fields] by the
    soft-delete mixin only. *)
Inductive write : Store -> Store -> Prop :=
| write_save db env self deals saved :
    Deal_save (deal_table db) env self None = Ok (deals, saved) ->
    write db (mkStore deals (history_table db))
| write_change_stage db env user key params data :
    write db (fst (change_stage db env user key params data))
| write_change_stage_with deal0 db env user data :
    write db (fst (change_stage_with deal0 db env user data))
| write_close_deal db env self stage' reason lost_notes' deals saved :
    close_deal (deal_table db) env self stage' reason lost_notes' = Ok (deals, saved) ->
    write db (mkStore deals (history_table db))
| write_soft_delete db env self deals self' :
    Deal_soft_delete (deal_table db) env self = Ok (deals, self') ->
    write db (mkStore deals (history_table db))
| write_restore db env self deals self' :
    Deal_restore (deal_table db) env self = Ok (deals, self') ->
    write db (mkStore deals (history_table db)).

(** The stores that arise from the empty database. *)
Inductive reachable : Store -> Prop :=
| reachable_empty : reachable (mkStore [] [])
| reachable_write db db' : reachable db -> write db db' -> reachable db'.

(** The codes the allocation query selects. *)
Definition matching_codes (db : list Deal) : list string :=
  List.filter deal_code_regex (List.map (fun r => deal_code (own r)) db).

(** The code [Deal.save] gives to a deal that has none. *)
Definition continued_code (db : list Deal) (env : Env) : string :=
  "DEAL-" +:+ str (datetime_now_year env) +:+ "-"
  +:+ format_03d (match aggregate_Max (matching_codes db) with
                  | Some code => int_from 0 (substring 10 3 code) + 1
                  | None => 1
                  end)%Z.

(** The order of [Max] on the codes: the order of the character codes. *)
Definition code_le (a b : string) : Prop := String.ltb b a = false.

(** The greatest of the codes the query selects. *)
Definition greatest_code (db : list Deal) (m : string) : Prop :=
  In m (matching_codes db) /\ forall c, In c (matching_codes db) -> code_le c m.

(** The number a code ends with, [DEAL-yyyy-ddd]. *)
Definition code_suffix (code : string) : Z := int_from 0 (substring 10 3 code).

(** The code with a year and a number. *)
Definition code_of (year n : Z) : string :=
  "DEAL-" +:+ str year +:+ "-" +:+ format_03d n.

(** The stored codes of one year, [DEAL-<year>-ddd]. *)
Definition codes_of_year (db : list Deal) (year : Z) : list string :=
  List.filter (fun code => String.eqb (substring 5 4 code) (str year)) (matching_codes db).

(** A new deal of company 7, created by user 5 for user 6. *)
Definition new_lead (key : Z) (title' : string) : Deal :=
  Deal_init key title' 120000 7 (Some 5%Z) (Some 6%Z).

(** The deal [new_lead 11 "Renewal"] as its first save stores it. *)
Definition renewal_lead : Deal :=
  mkEntity 11 (Some 1718000000%Z) (Some 1718000000%Z) true None
    (mkDealColumns "DEAL-2024-001" "Renewal" 120000 "USD" "lead" 0
       None None EmptyString EmptyString 7 "pipeline"
       None EmptyString (Some 5%Z) (Some 6%Z))
    false.

(** A deal stored the year before. *)
Definition old_deal : Deal :=
  mkEntity 21 (Some 1700000000%Z) (Some 1700000000%Z) true None
    (mkDealColumns "DEAL-2023-005" "Last year" 70000 "USD" "proposal" 60
       None None EmptyString EmptyString 7 "pipeline"
       None EmptyString (Some 5%Z) (Some 6%Z))
    false.

(** A deal edited in memory and then soft-deleted: the stored title and
    probability stay, only the two columns change. *)
Definition edited_deal : Deal :=
  on_own (with_probability 45) (on_own (with_title "Edited") qualified_deal).

Definition table_after_soft_delete : list Deal :=
  [won_deal;
   mkEntity 2 (Some 1717100000%Z) (Some 1717100000%Z) false (Some 1718000000%Z)
     (own qualified_deal) false].

(** The [save] of every model of the source leaves the primary key, the
    two soft-delete attributes and the state of the instance as they
    are. *)
Definition keeps_mixin_attributes {F : Type}
    (before_super : list (Entity F) -> Env -> Entity F -> Result (Entity F)) : Prop :=
  forall db env self self',
    before_super db env self = Ok self' ->
    pk self' = pk self /\ is_active self' = is_active self
    /\ deleted_at self' = deleted_at self /\ adding self' = adding self.

(** * More of the deal model *)

(** [Deal.weighted_amount]: [(amount * probability) / 100] on decimals is
    exact here; the value is given in ten-thousandths ([amount] is in
    hundredths and the percentage contributes two more places). *)
Definition weighted_amount (self : Deal) : Z :=
  amount (own self) * probability (own self).

(** The request body that carries a lost reason and lost notes. *)
Definition closing_data (s reason lost_notes' : string) : gmap string string :=
  <[ "stage" := s ]> (<[ "lost_reason" := reason ]> {[ "lost_notes" := lost_notes' ]}).

(** * Companies and contacts *)

(** ** Text matching

    The patterns of the source are a sequence of bounded repetitions of a
    character class.  [re_repeat p rest lo hi] matches from [lo] to [hi]
    characters of class [p] and then [rest], trying every count, as the
    backtracking matcher does.  Text is ASCII. *)
Fixpoint re_repeat (p : ascii -> bool) (rest : string -> bool) (lo hi : nat)
    (s : string) : bool :=
  match hi with
  | O => (lo =? 0)%nat && rest s
  | S hi' =>
      ((lo =? 0)%nat && rest s)
      || match s with
         | String c s' => p c && re_repeat p rest (Nat.pred lo) hi' s'
         | EmptyString => false
         end
  end.

(** [$] under [re.match]: at the end of the text or before the newline
    that ends it. *)
Definition re_end (s : string) : bool :=
  match s with
  | EmptyString => true
  | String c EmptyString => Ascii.eqb c "010"
  | _ => false
  end.

(** [re.match(r'^\+?1?\d{9,15}$', s)] *)
Definition phone_pattern_match (s : string) : bool :=
  re_repeat (Ascii.eqb "+")
    (re_repeat (Ascii.eqb "1") (re_repeat is_digit re_end 9 15) 0 1) 0 1 s.

(** [s.replace(c, '')] for a single character. *)
Fixpoint remove_char (c : ascii) (s : string) : string :=
  match s with
  | EmptyString => EmptyString
  | String x s' => if Ascii.eqb x c then remove_char c s' else String x (remove_char c s')
  end.

(** [str.isspace] on one ASCII character. *)
Definition is_space (c : ascii) : bool :=
  let n := nat_of_ascii c in
  ((9 <=? n) && (n <=? 13) || (28 <=? n) && (n <=? 32))%nat.

(** [s and s.strip()] as a truth value: some character is not blank. *)
Fixpoint has_text (s : string) : bool :=
  match s with
  | EmptyString => false
  | String c s' => negb (is_space c) || has_text s'
  end.

(** [s.startswith(prefix)] *)
Definition startswith (prefix s : string) : bool := String.prefix prefix s.

(** The columns of [Company] that [Company.clean] reads or writes. *)
Record CompanyColumns : Type := mkCompanyColumns {
  name : string;
  phone : string;
  website : string
}.

(** [Company.clean]: the instance as the method leaves it, or the error
    it raises. *)
Definition Company_clean (self : CompanyColumns) : Result CompanyColumns :=
  _ ← (if has_text (phone self)
       then
         if negb (phone_pattern_match
                    (remove_char "-" (remove_char " " (phone self))))
         then Raise (ValidationError ["phone"])
         else Ok tt
       else Ok tt);
  if negb (is_empty (website self))
     && negb (startswith "http://" (website self)
              || startswith "https://" (website self))
  then Ok (mkCompanyColumns (name self) (phone self) ("https://" +:+ website self))
  else Ok self.

(** [Contact.clean] over its two phone fields, [phone] first. *)
Definition Contact_clean (contact_phone mobile : string) : Result unit :=
  _ ← (if has_text contact_phone
       then
         if negb (phone_pattern_match
                    (remove_char "-" (remove_char " " contact_phone)))
         then Raise (ValidationError ["phone"])
         else Ok tt
       else Ok tt);
  if has_text mobile
  then
    if negb (phone_pattern_match (remove_char "-" (remove_char " " mobile)))
    then Raise (ValidationError ["mobile"])
    else Ok tt
  else Ok tt.

(** A calendar date, [datetime.date]. *)
Record date : Type := mkDate {
  year : Z;
  month : Z;
  day : Z
}.

(** [(m1, d1) < (m2, d2)] on tuples. *)
Definition pair_lt (m1 d1 m2 d2 : Z) : bool :=
  (m1 <? m2)%Z || (m1 =? m2)%Z && (d1 <? d2)%Z.

(** [Contact.age], with [date.today()] passed in. *)
Definition Contact_age (today : date) (date_of_birth : option date) : option Z :=
  match date_of_birth with
  | Some born =>
      Some (year today - year born
            - (if pair_lt (month today) (day today) (month born) (day born)
               then 1 else 0))%Z
  | None => None
  end.

(** The order of dates, [a <= b]. *)
Definition date_le (a b : date) : Prop :=
  (year a < year b)%Z
  \/ (year a = year b /\ (month a < month b
                          \/ (month a = month b /\ day a <= day b)))%Z.

(** A string of characters of one class. *)
Fixpoint all_chars (p : ascii -> bool) (s : string) : bool :=
  match s with
  | EmptyString => true
  | String c s' => p c && all_chars p s'
  end.

(** A phone number as the pattern admits it: an optional plus sign, an
    optional 1, nine to fifteen digits, and possibly a final newline. *)
Definition phone_shape (s : string) : Prop :=
  exists plus one digits tail,
    s = plus +:+ one +:+ digits +:+ tail
    /\ (plus = EmptyString \/ plus = "+")
    /\ (one = EmptyString \/ one = "1")
    /\ all_chars is_digit digits = true
    /\ (9 <= String.length digits <= 15)%nat
    /\ (tail = EmptyString \/ tail = String "010" EmptyString).

(** What both [clean] methods ask of a phone field. *)
Definition phone_field_ok (s : string) : Prop :=
  has_text s = true -> phone_shape (remove_char "-" (remove_char " " s)).

(** * Tasks *)

Definition STATUS_CHOICES : list (string * string) :=
  [ ("pending", "Pending");
    ("in_progress", "In Progress");
    ("completed", "Completed");
    ("cancelled", "Cancelled");
    ("deferred", "Deferred") ].

Definition PRIORITY_CHOICES : list (string * string) :=
  [ ("low", "Low");
    ("medium", "Medium");
    ("high", "High");
    ("urgent", "Urgent") ].

Definition TASK_TYPE_CHOICES : list (string * string) :=
  [ ("call", "Phone Call");
    ("email", "Email");
    ("meeting", "Meeting");
    ("follow_up", "Follow Up");
    ("document", "Document");
    ("other", "Other") ].

(** The columns [Task] declares itself; a column whose name another
    record of this file has already is prefixed with [task_].
    [attachment] is left out: it has no validator and no method touches
    it.  Hours are in hundredths. *)
Record TaskColumns : Type := mkTaskColumns {
  task_title : string;                 (* title *)
  description : string;
  task_type : string;
  status : string;
  priority : string;
  due_date : option Z;
  completed_date : option Z;
  estimated_hours : option Z;
  actual_hours : option Z;
  task_contact : option Z;             (* contact *)
  task_deal : option Z;                (* deal *)
  task_company : option Z;             (* company *)
  task_assigned_to : option Z;         (* assigned_to *)
  task_created_by : option Z;          (* created_by *)
  recurrence_pattern : string;
  parent_task : option Z;
  task_tags : string                   (* tags *)
}.

Definition Task : Type := Entity TaskColumns.

Definition with_task_title (v : string) (c : TaskColumns) : TaskColumns :=
  mkTaskColumns
    v (description c) (task_type c) (status c) (priority c) (due_date c)
    (completed_date c) (estimated_hours c) (actual_hours c) (task_contact c)
    (task_deal c) (task_company c) (task_assigned_to c) (task_created_by c)
    (recurrence_pattern c) (parent_task c) (task_tags c).
Definition with_description (v : string) (c : TaskColumns) : TaskColumns :=
  mkTaskColumns
    (task_title c) v (task_type c) (status c) (priority c) (due_date c)
    (completed_date c) (estimated_hours c) (actual_hours c) (task_contact c)
    (task_deal c) (task_company c) (task_assigned_to c) (task_created_by c)
    (recurrence_pattern c) (parent_task c) (task_tags c).
Definition with_task_type (v : string) (c : TaskColumns) : TaskColumns :=
  mkTaskColumns
    (task_title c) (description c) v (status c) (priority c) (due_date c)
    (completed_date c) (estimated_hours c) (actual_hours c) (task_contact c)
    (task_deal c) (task_company c) (task_assigned_to c) (task_created_by c)
    (recurrence_pattern c) (parent_task c) (task_tags c).
Definition with_status (v : string) (c : TaskColumns) : TaskColumns :=
  mkTaskColumns
    (task_title c) (description c) (task_type c) v (priority c) (due_date c)
    (completed_date c) (estimated_hours c) (actual_hours c) (task_contact c)
    (task_deal c) (task_company c) (task_assigned_to c) (task_created_by c)
    (recurrence_pattern c) (parent_task c) (task_tags c).
Definition with_priority (v : string) (c : TaskColumns) : TaskColumns :=
  mkTaskColumns
    (task_title c) (description c) (task_type c) (status c) v (due_date c)
    (completed_date c) (estimated_hours c) (actual_hours c) (task_contact c)
    (task_deal c) (task_company c) (task_assigned_to c) (task_created_by c)
    (recurrence_pattern c) (parent_task c) (task_tags c).
Definition with_due_date (v : option Z) (c : TaskColumns) : TaskColumns :=
  mkTaskColumns
    (task_title c) (description c) (task_type c) (status c) (priority c) v
    (completed_date c) (estimated_hours c) (actual_hours c) (task_contact c)
    (task_deal c) (task_company c) (task_assigned_to c) (task_created_by c)
    (recurrence_pattern c) (parent_task c) (task_tags c).
Definition with_completed_date (v : option Z) (c : TaskColumns) : TaskColumns :=
  mkTaskColumns
    (task_title c) (description c) (task_type c) (status c) (priority c) (due_date c) v
    (estimated_hours c) (actual_hours c) (task_contact c) (task_deal c)
    (task_company c) (task_assigned_to c) (task_created_by c) (recurrence_pattern c)
    (parent_task c) (task_tags c).
Definition with_estimated_hours (v : option Z) (c : TaskColumns) : TaskColumns :=
  mkTaskColumns
    (task_title c) (description c) (task_type c) (status c) (priority c) (due_date c)
    (completed_date c) v (actual_hours c) (task_contact c) (task_deal c)
    (task_company c) (task_assigned_to c) (task_created_by c) (recurrence_pattern c)
    (parent_task c) (task_tags c).
Definition with_actual_hours (v : option Z) (c : TaskColumns) : TaskColumns :=
  mkTaskColumns
    (task_title c) (description c) (task_type c) (status c) (priority c) (due_date c)
    (completed_date c) (estimated_hours c) v (task_contact c) (task_deal c)
    (task_company c) (task_assigned_to c) (task_created_by c) (recurrence_pattern c)
    (parent_task c) (task_tags c).
Definition with_task_contact (v : option Z) (c : TaskColumns) : TaskColumns :=
  mkTaskColumns
    (task_title c) (description c) (task_type c) (status c) (priority c) (due_date c)
    (completed_date c) (estimated_hours c) (actual_hours c) v (task_deal c)
    (task_company c) (task_assigned_to c) (task_created_by c) (recurrence_pattern c)
    (parent_task c) (task_tags c).
Definition with_task_deal (v : option Z) (c : TaskColumns) : TaskColumns :=
  mkTaskColumns
    (task_title c) (description c) (task_type c) (status c) (priority c) (due_date c)
    (completed_date c) (estimated_hours c) (actual_hours c) (task_contact c) v
    (task_company c) (task_assigned_to c) (task_created_by c) (recurrence_pattern c)
    (parent_task c) (task_tags c).
Definition with_task_company (v : option Z) (c : TaskColumns) : TaskColumns :=
  mkTaskColumns
    (task_title c) (description c) (task_type c) (status c) (priority c) (due_date c)
    (completed_date c) (estimated_hours c) (actual_hours c) (task_contact c)
    (task_deal c) v (task_assigned_to c) (task_created_by c) (recurrence_pattern c)
    (parent_task c) (task_tags c).
Definition with_task_assigned_to (v : option Z) (c : TaskColumns) : TaskColumns :=
  mkTaskColumns
    (task_title c) (description c) (task_type c) (status c) (priority c) (due_date c)
    (completed_date c) (estimated_hours c) (actual_hours c) (task_contact c)
    (task_deal c) (task_company c) v (task_created_by c) (recurrence_pattern c)
    (parent_task c) (task_tags c).
Definition with_task_created_by (v : option Z) (c : TaskColumns) : TaskColumns :=
  mkTaskColumns
    (task_title c) (description c) (task_type c) (status c) (priority c) (due_date c)
    (completed_date c) (estimated_hours c) (actual_hours c) (task_contact c)
    (task_deal c) (task_company c) (task_assigned_to c) v (recurrence_pattern c)
    (parent_task c) (task_tags c).
Definition with_recurrence_pattern (v : string) (c : TaskColumns) : TaskColumns :=
  mkTaskColumns
    (task_title c) (description c) (task_type c) (status c) (priority c) (due_date c)
    (completed_date c) (estimated_hours c) (actual_hours c) (task_contact c)
    (task_deal c) (task_company c) (task_assigned_to c) (task_created_by c) v
    (parent_task c) (task_tags c).
Definition with_parent_task (v : option Z) (c : TaskColumns) : TaskColumns :=
  mkTaskColumns
    (task_title c) (description c) (task_type c) (status c) (priority c) (due_date c)
    (completed_date c) (estimated_hours c) (actual_hours c) (task_contact c)
    (task_deal c) (task_company c) (task_assigned_to c) (task_created_by c)
    (recurrence_pattern c) v (task_tags c).
Definition with_task_tags (v : string) (c : TaskColumns) : TaskColumns :=
  mkTaskColumns
    (task_title c) (description c) (task_type c) (status c) (priority c) (due_date c)
    (completed_date c) (estimated_hours c) (actual_hours c) (task_contact c)
    (task_deal c) (task_company c) (task_assigned_to c) (task_created_by c)
    (recurrence_pattern c) (parent_task c) v.

Definition on_task (f : TaskColumns -> TaskColumns) (t : Task) : Task :=
  set_own (f (own t)) t.

(** The column copy of [Task] for an [UPDATE] of named columns. *)
Definition Task_assign_own (c : string) (self row : TaskColumns) : option TaskColumns :=
  if String.eqb c "title" then Some (with_task_title (task_title self) row)
  else if String.eqb c "description" then Some (with_description (description self) row)
  else if String.eqb c "task_type" then Some (with_task_type (task_type self) row)
  else if String.eqb c "status" then Some (with_status (status self) row)
  else if String.eqb c "priority" then Some (with_priority (priority self) row)
  else if String.eqb c "due_date" then Some (with_due_date (due_date self) row)
  else if String.eqb c "completed_date" then Some (with_completed_date (completed_date self) row)
  else if String.eqb c "estimated_hours" then Some (with_estimated_hours (estimated_hours self) row)
  else if String.eqb c "actual_hours" then Some (with_actual_hours (actual_hours self) row)
  else if String.eqb c "contact" || String.eqb c "contact_id" then Some (with_task_contact (task_contact self) row)
  else if String.eqb c "deal" || String.eqb c "deal_id" then Some (with_task_deal (task_deal self) row)
  else if String.eqb c "company" || String.eqb c "company_id" then Some (with_task_company (task_company self) row)
  else if String.eqb c "assigned_to" || String.eqb c "assigned_to_id" then Some (with_task_assigned_to (task_assigned_to self) row)
  else if String.eqb c "created_by" || String.eqb c "created_by_id" then Some (with_task_created_by (task_created_by self) row)
  else if String.eqb c "recurrence_pattern" then Some (with_recurrence_pattern (recurrence_pattern self) row)
  else if String.eqb c "parent_task" || String.eqb c "parent_task_id" then Some (with_parent_task (parent_task self) row)
  else if String.eqb c "tags" then Some (with_task_tags (task_tags self) row)
  else if String.eqb c "attachment" then Some row
  else None.

(** The digits of [DecimalField(max_digits=5, decimal_places=2)]. *)
Definition hours_fit (h : option Z) : bool :=
  match h with
  | Some v => (Z.abs v <? 100000)%Z
  | None => true
  end.

(** [Model.clean_fields] for a task, in the order of the fields.
    [created_by] is declared with [null=True] and without [blank=True], so
    an empty value fails; the other relations may be empty. *)
Definition Task_clean_fields (db : list Task) (env : Env) (self : Task) : list string :=
  let c := own self in
  check "title"
    (negb (is_empty (task_title c)) && (String.length (task_title c) <=? 200)%nat)
  ++ check "task_type" (str_in (task_type c) (choice_values TASK_TYPE_CHOICES))
  ++ check "status" (str_in (status c) (choice_values STATUS_CHOICES))
  ++ check "priority" (str_in (priority c) (choice_values PRIORITY_CHOICES))
  ++ check "estimated_hours" (hours_fit (estimated_hours c))
  ++ check "actual_hours" (hours_fit (actual_hours c))
  ++ check "contact" (optional_key (task_contact c) (contact_ids env))
  ++ check "deal" (optional_key (task_deal c) (deal_ids env))
  ++ check "company" (optional_key (task_company c) (company_ids env))
  ++ check "assigned_to" (optional_key (task_assigned_to c) (user_ids env))
  ++ check "created_by" (required_key (task_created_by c) (user_ids env))
  ++ check "recurrence_pattern" (String.length (recurrence_pattern c) <=? 100)%nat
  ++ check "parent_task" (optional_key (parent_task c) (List.map pk db))
  ++ check "tags" (String.length (task_tags c) <=? 500)%nat.

(** The truth value of an optional decimal: set and not zero. *)
Definition decimal_truthy (h : option Z) : bool :=
  match h with
  | Some v => negb (Z.eqb v 0)
  | None => false
  end.

(** [Task.clean] *)
Definition Task_clean (env : Env) (self : Task) : Result unit :=
  let c := own self in
  _ ← match due_date c with
      | Some due =>
          if (due <? timezone_now env)%Z
          then if negb (String.eqb (status c) "completed")
               then Raise (ValidationError ["due_date"])
               else Ok tt
          else Ok tt
      | None => Ok tt
      end;
  _ ← (if decimal_truthy (estimated_hours c)
          && match estimated_hours c with Some v => (v <=? 0)%Z | None => false end
       then Raise (ValidationError ["estimated_hours"])
       else Ok tt);
  if decimal_truthy (actual_hours c)
     && match actual_hours c with Some v => (v <? 0)%Z | None => false end
  then Raise (ValidationError ["actual_hours"])
  else Ok tt.

(** [Model.full_clean] for a task; the key is the model's only unique
    column. *)
Definition Task_full_clean (db : list Task) (env : Env) (self : Task) : Result unit :=
  let errors := Task_clean_fields db env self in
  let errors := errors ++ errors_of (Task_clean env self) in
  let errors := errors ++ validate_unique_pk db self in
  match errors with
  | [] => Ok tt
  | _ => Raise (ValidationError errors)
  end.

Definition is_Some_date (d : option Z) : bool :=
  match d with Some _ => true | None => false end.

(** [Task.save] up to its last line. *)
Definition Task_before_super (db : list Task) (env : Env) (self : Task) : Result Task :=
  let self :=
    if String.eqb (status (own self)) "completed"
       && negb (is_Some_date (completed_date (own self)))
    then on_task (with_completed_date (Some (timezone_now env))) self
    else if negb (String.eqb (status (own self)) "completed")
            && is_Some_date (completed_date (own self))
    then on_task (with_completed_date None) self
    else self in
  _ ← Task_full_clean db env self;
  Ok self.

(** [Task.save] *)
Definition Task_save (db : list Task) (env : Env) (self : Task)
    (update_fields : option (list string)) : Result (list Task * Task) :=
  save Task_assign_own Task_before_super db env self update_fields.


(** [Task.is_overdue] *)
Definition is_overdue (env : Env) (self : Task) : bool :=
  match due_date (own self) with
  | Some due =>
      if negb (str_in (status (own self)) ["completed"; "cancelled"])
      then (due <? timezone_now env)%Z
      else false
  | None => false
  end.

(** [Task.days_overdue]; [timedelta.days] is the whole days of the
    difference. *)
Definition days_overdue (env : Env) (self : Task) : Z :=
  if is_overdue env self
  then match due_date (own self) with
       | Some due => Z.max 0 ((timezone_now env - due) / 86400)
       | None => 0
       end
  else 0%Z.

(** [s.endswith(suffix)] *)
Definition endswith (suffix s : string) : bool :=
  (String.length suffix <=? String.length s)%nat
  && String.eqb (substring (String.length s - String.length suffix)
                   (String.length suffix) s) suffix.

(** [f"\n\nCompletion Notes: {notes}"] *)
Definition completion_notes (notes' : string) : string :=
  String "010" (String "010" "Completion Notes: ") +:+ notes'.

(** [Task.complete_task] *)
Definition complete_task (db : list Task) (env : Env) (self : Task)
    (actual_hours' : option Z) (notes' : string) : Result (list Task * Task) :=
  let self := on_task (with_status "completed") self in
  let self := on_task (with_completed_date (Some (timezone_now env))) self in
  let self := match actual_hours' with
              | Some h => on_task (with_actual_hours (Some h)) self
              | None => self
              end in
  let self :=
    if negb (is_empty notes')
       && negb (endswith (completion_notes notes') (description (own self)))
    then on_task (with_description
                    (description (own self) +:+ completion_notes notes')) self
    else self in
  Task_save db env self None.

(** [TaskViewSet.overdue] before its [order_by]: the rows it selects. *)
Definition overdue_selected (tasks : list Task) (env : Env) : list Task :=
  List.filter (fun t => is_active t
                        && match due_date (own t) with
                           | Some due => (due <? timezone_now env)%Z
                           | None => false
                           end
                        && str_in (status (own t)) ["pending"; "in_progress"]) tasks.

(** [order_by('due_date')]: ascending, rows with equal dates in stored
    order. *)
Fixpoint insert_by_due (t : Task) (sorted : list Task) : list Task :=
  match sorted with
  | [] => [t]
  | x :: rest =>
      match due_date (own t), due_date (own x) with
      | Some a, Some b => if (a <? b)%Z then t :: sorted else x :: insert_by_due t rest
      | _, _ => x :: insert_by_due t rest
      end
  end.

Definition order_by_due_date (tasks : list Task) : list Task :=
  fold_right insert_by_due [] (rev tasks).

(** [TaskViewSet.overdue] *)
Definition TaskViewSet_overdue (tasks : list Task) (env : Env) : list Task :=
  order_by_due_date (overdue_selected tasks env).

(** A stored task that is pending and past its due date, and the same
    task in memory. *)
(** The relations and tags of the sample tasks: none but the creator. *)
Definition sample_task (key : Z) (title' description' task_type' status' priority' : string)
    (due_date' estimated_hours' : option Z) : Task :=
  mkEntity key (Some 1717000000%Z) (Some 1717000000%Z) true None
    (mkTaskColumns title' description' task_type' status' priority'
       due_date' None estimated_hours' None
       None None None None (Some 5%Z) EmptyString None EmptyString)
    false.

(** A stored task that is pending and past its due date. *)
Definition stale_task : Task :=
  sample_task 41 "Call back" "Ask about renewal" "call" "pending" "high"
    (Some 1717900000%Z) (Some 150%Z).

(** A stored task that is deferred and past its due date. *)
Definition deferred_task : Task :=
  sample_task 42 "Send offer" EmptyString "email" "deferred" "low"
    (Some 1717900000%Z) None.

(** A stored task that is pending and due later. *)
Definition planned_task : Task :=
  sample_task 40 "Prepare demo" EmptyString "meeting" "pending" "medium"
    (Some 1718300000%Z) (Some 200%Z).

(** A stored task that is pending, urgent and past its due date. *)
Definition lapsed_task : Task :=
  sample_task 44 "Renew licence" EmptyString "other" "pending" "urgent"
    (Some 1717800000%Z) None.

(** * Serializers

    [validated_data] as a record: a key that may be absent is an
    [option]; a nullable value under such a key is an [option] inside
    it, so [Some None] is the key with [null].  Only the keys the
    [validate] methods and the constructors read are kept; the required
    keys are always present (the payload of a POST or PUT). *)

(** [data.get(key)] for a nullable value: absent and [null] read alike. *)
Definition get_nullable {A : Type} (v : option (option A)) : option A :=
  match v with
  | Some (Some x) => Some x
  | _ => None
  end.

Record DealData : Type := mkDealData {
  data_title : string;
  data_amount : Z;
  data_company : Z;
  data_stage : option string;
  data_probability : option Z;
  data_expected_close_date : option (option Z);
  data_actual_close_date : option (option Z);
  data_last_contact_date : option Z
}.

(** [DealSerializer.validate]; [instance] is [self.instance]. *)
Definition DealSerializer_validate (instance : option Deal) (env : Env) (data : DealData)
    : Result DealData :=
  let stage' :=
    default (match instance with Some i => stage (own i) | None => "lead" end)
      (data_stage data) in
  let probability' :=
    default (match instance with Some i => probability (own i) | None => 0%Z end)
      (data_probability data) in
  _ ← match dict_get stage' stage_probability_map with
      | Some (min_prob, max_prob) =>
          if negb ((min_prob <=? probability')%Z && (probability' <=? max_prob)%Z)
          then Raise (ValidationError ["probability"])
          else Ok tt
      | None => Ok tt
      end;
  let expected_close := get_nullable (data_expected_close_date data) in
  let actual_close := get_nullable (data_actual_close_date data) in
  _ ← match actual_close, expected_close with
      | Some actual, Some expected =>
          if (actual <? expected)%Z
          then Raise (ValidationError ["actual_close_date"])
          else Ok tt
      | _, _ => Ok tt
      end;
  match data_stage data with
  | Some s =>
      if match instance with
         | Some i => negb (String.eqb s (stage (own i)))
         | None => true
         end
      then Ok (mkDealData (data_title data) (data_amount data) (data_company data)
                 (data_stage data) (data_probability data)
                 (data_expected_close_date data) (data_actual_close_date data)
                 (Some (timezone_today env)))
      else Ok data
  | None => Ok data
  end.

(** The [Deal] that [ModelSerializer.create] builds from
    [validated_data]: the keys given, the declared defaults for the
    rest. *)
(** The [Deal] that [ModelSerializer.create] builds from
    [validated_data]: the keys given, the declared defaults for the
    rest. *)
Definition Deal_from_data (key : Z) (data : DealData) : Deal :=
  mkEntity key None None true None
    (mkDealColumns EmptyString (data_title data) (data_amount data) "USD"
       (default "lead" (data_stage data))
       (default 0%Z (data_probability data))
       (get_nullable (data_expected_close_date data))
       (get_nullable (data_actual_close_date data))
       EmptyString EmptyString (data_company data) "pipeline"
       None EmptyString None None)
    true.

(** The [setattr] loop of [ModelSerializer.update], on the columns kept
    here. *)
Definition Deal_apply_data (data : DealData) (instance : Deal) : Deal :=
  on_own (fun c =>
            mkDealColumns (deal_code c) (data_title data) (data_amount data) (currency c)
              (default (stage c) (data_stage data))
              (default (probability c) (data_probability data))
              (default (expected_close_date c) (data_expected_close_date data))
              (default (actual_close_date c) (data_actual_close_date data))
              (lost_reason c) (lost_notes c) (data_company data) (forecast_category c)
              (contact c) (tags c) (created_by c) (assigned_to c))
    instance.

Record TaskData : Type := mkTaskData {
  data_task_title : string;
  data_description : string;
  data_task_type : option string;
  data_status : option string;
  data_priority : option string;
  data_due_date : option (option Z);
  data_estimated_hours : option (option Z);
  data_actual_hours : option (option Z)
}.

(** [TaskSerializer.validate] *)
Definition TaskSerializer_validate (instance : option Task) (env : Env) (data : TaskData)
    : Result TaskData :=
  let due_date' := get_nullable (data_due_date data) in
  let status' :=
    default (match instance with Some i => status (own i) | None => "pending" end)
      (data_status data) in
  _ ← match due_date' with
      | Some due =>
          if (due <? timezone_now env)%Z && negb (String.eqb status' "completed")
          then Raise (ValidationError ["due_date"])
          else Ok tt
      | None => Ok tt
      end;
  _ ← match get_nullable (data_estimated_hours data) with
      | Some v => if (v <=? 0)%Z then Raise (ValidationError ["estimated_hours"]) else Ok tt
      | None => Ok tt
      end;
  match get_nullable (data_actual_hours data) with
  | Some v => if (v <? 0)%Z then Raise (ValidationError ["actual_hours"]) else Ok data
  | None => Ok data
  end.

(** The [Task] built from [validated_data] on creation. *)
Definition Task_from_data (key : Z) (data : TaskData) : Task :=
  mkEntity key None None true None
    (mkTaskColumns (data_task_title data) (data_description data)
       (default "other" (data_task_type data))
       (default "pending" (data_status data))
       (default "medium" (data_priority data))
       (get_nullable (data_due_date data)) None
       (get_nullable (data_estimated_hours data))
       (get_nullable (data_actual_hours data))
       None None None None None EmptyString None EmptyString)
    true.

(** * Upcoming tasks *)

(** [timedelta(days=7)], in seconds. *)
Definition seven_days : Z := 7 * 86400.

(** [TaskViewSet.upcoming] before its [order_by]: a range test includes
    both ends. *)
Definition upcoming_selected (tasks : list Task) (env : Env) : list Task :=
  List.filter (fun t => is_active t
                        && match due_date (own t) with
                           | Some due => (timezone_now env <=? due)%Z
                                         && (due <=? timezone_now env + seven_days)%Z
                           | None => false
                           end
                        && str_in (status (own t)) ["pending"; "in_progress"]) tasks.

(** [TaskViewSet.upcoming] *)
Definition TaskViewSet_upcoming (tasks : list Task) (env : Env) : list Task :=
  order_by_due_date (upcoming_selected tasks env).

(** * Bulk deletion *)

(** The answers of [BulkDeleteView.post]. *)
Inductive BulkResponse : Type :=
| Bulk_400 (error : string)
| Bulk_200 (deleted_count : nat)
| Bulk_Uncaught (e : Exception).

Definition model_map_keys : list string :=
  ["company"; "contact"; "deal"; "task"; "interaction"].

(** The list comprehension over [uuid.UUID(id_str)].  Each element of
    [ids] is given as [uuid.UUID] reads it, [None] where it raises
    [ValueError]. *)
Fixpoint uuid_ids_of (ids : list (option Z)) : option (list Z) :=
  match ids with
  | [] => Some []
  | Some u :: rest =>
      match uuid_ids_of rest with
      | Some us => Some (u :: us)
      | None => None
      end
  | None :: _ => None
  end.

(** The order of a nullable column: the databases differ on whether
    [NULL] sorts below or above every value. *)
Definition option_lt (nulls_smallest : bool) (a b : option Z) : bool :=
  match a, b with
  | Some x, Some y => (x <? y)%Z
  | None, Some _ => nulls_smallest
  | Some _, None => negb nulls_smallest
  | None, None => false
  end.

Definition option_eqb (a b : option Z) : bool :=
  match a, b with
  | Some x, Some y => Z.eqb x y
  | None, None => true
  | _, _ => false
  end.

(** [Deal.Meta.ordering = ['-created_at', '-expected_close_date']]:
    whether [a] comes before [b]. *)
Definition Deal_Meta_ordering (nulls_smallest : bool) (a b : Deal) : bool :=
  option_lt nulls_smallest (created_at b) (created_at a)
  || option_eqb (created_at a) (created_at b)
     && option_lt nulls_smallest (expected_close_date (own b))
          (expected_close_date (own a)).

(** [Task.Meta.ordering = ['priority', 'due_date', '-created_at']];
    [priority] is compared as text. *)
Definition Task_Meta_ordering (nulls_smallest : bool) (a b : Task) : bool :=
  String.ltb (priority (own a)) (priority (own b))
  || String.eqb (priority (own a)) (priority (own b))
     && (option_lt nulls_smallest (due_date (own a)) (due_date (own b))
         || option_eqb (due_date (own a)) (due_date (own b))
            && option_lt nulls_smallest (created_at b) (created_at a)).

Section BulkDelete.
Context {F : Type}.
Variable assign_own : string -> F -> F -> option F.
Variable before_super : list (Entity F) -> Env -> Entity F -> Result (Entity F).

(** The order the model's [Meta.ordering] gives to a query set without
    [order_by]: whether a row comes before another. *)
Variable Meta_ordering : Entity F -> Entity F -> bool.

(** A query set in the order of [Meta.ordering]; rows that the ordering
    does not tell apart stay in stored order. *)
Fixpoint insert_ordered (x : Entity F) (sorted : list (Entity F)) : list (Entity F) :=
  match sorted with
  | [] => [x]
  | y :: rest => if Meta_ordering x y then x :: sorted else y :: insert_ordered x rest
  end.

Definition ordered (rows : list (Entity F)) : list (Entity F) :=
  fold_right insert_ordered [] (rev rows).

(** [model.objects.filter(id__in=uuid_ids)], as the loop reads it: in
    the order of [Meta.ordering], each row an instance that is not being
    added.  There is no test of [is_active]. *)
Definition filter_id_in (db : list (Entity F)) (uuid_ids : list Z) : list (Entity F) :=
  List.map (set_adding false)
    (ordered (List.filter (fun r => existsb (Z.eqb (pk r)) uuid_ids) db)).

(** The loop over the query set, whose rows are read when the loop
    starts.  A [soft_delete] that raises ends the loop and the request;
    what the earlier rounds wrote stays stored. *)
Fixpoint soft_delete_each (db : list (Entity F)) (env : Env) (queryset : list (Entity F))
    (deleted_count : nat) : list (Entity F) * Result nat :=
  match queryset with
  | [] => (db, Ok deleted_count)
  | item :: rest =>
      match soft_delete assign_own before_super db env item with
      | Ok (db', _) => soft_delete_each db' env rest (S deleted_count)
      | Raise e => (db, Raise e)
      end
  end.

(** [BulkDeleteView.post].  [db] is the table, [assign_own] and
    [before_super] the [save], and [Meta_ordering] the ordering of the
    model that [model_map] has for [model_type]; each of the five models
    has [soft_delete]. *)
Definition BulkDeleteView_post (db : list (Entity F)) (env : Env)
    (model_type : option string) (ids : list (option Z))
    : list (Entity F) * BulkResponse :=
  match model_type, ids with
  | None, _ | _, [] => (db, Bulk_400 "model_type and ids are required")
  | Some model_type, _ =>
      if is_empty model_type
      then (db, Bulk_400 "model_type and ids are required")
      else if negb (str_in model_type model_map_keys)
      then (db, Bulk_400 ("Invalid model_type. Valid options: "
                          +:+ join_comma model_map_keys))
      else
        match uuid_ids_of ids with
        | None => (db, Bulk_400 "Invalid UUID format in ids")
        | Some uuid_ids =>
            match soft_delete_each db env (filter_id_in db uuid_ids) 0 with
            | (db', Ok deleted_count) => (db', Bulk_200 deleted_count)
            | (db', Raise e) => (db', Bulk_Uncaught e)
            end
        end
  end.

(** A stored row once soft-deleted at the time of [env]. *)
Definition flagged (env : Env) (r : Entity F) : Entity F :=
  set_deleted_at (Some (timezone_now env)) (set_is_active false r).

(** A table with the rows of the given keys soft-deleted. *)
Definition flag_selected (env : Env) (keys : list Z) (db : list (Entity F))
    : list (Entity F) :=
  List.map (fun r => if existsb (Z.eqb (pk r)) keys then flagged env r else r) db.
End BulkDelete.
(** * Properties *)

(** ** Results *)

Lemma bind_Ok {A B : Type} (m : Result A) (k : A -> Result B) (b : B) :
  (m ≫= k) = Ok b -> exists a, m = Ok a /\ k a = Ok b.
Proof.
  destruct m as [a | e]; cbn; intros H.
  - exists a. split; [reflexivity | exact H].
  - discriminate H.
Qed.

(** ** Tables *)

Section Tables.
Context {F : Type}.
Implicit Types (db : list (Entity F)) (r row : Entity F).

Lemma get_row_Some db key r :
  get_row db key = Some r -> In r db /\ pk r = key.
Proof.
  unfold get_row. intros H. apply find_some in H. destruct H as [Hin Hpk].
  split; [exact Hin | apply Z.eqb_eq; exact Hpk].
Qed.

Lemma get_row_app_None db key r :
  get_row db key = None -> pk r = key -> get_row (db ++ [r]) key = Some r.
Proof.
  unfold get_row. induction db as [| x db IH]; cbn; intros Hnone Hpk.
  - rewrite (proj2 (Z.eqb_eq _ _) Hpk). reflexivity.
  - destruct (Z.eqb (pk x) key); [discriminate | auto].
Qed.

Lemma get_row_update_row db row r :
  get_row db (pk row) = Some r -> get_row (update_row db row) (pk row) = Some row.
Proof.
  unfold get_row, update_row. induction db as [| x db IH]; cbn; intros H.
  - discriminate.
  - destruct (Z.eqb (pk x) (pk row)) eqn:E.
    + cbn. rewrite Z.eqb_refl. reflexivity.
    + cbn. rewrite E. auto.
Qed.

Lemma get_row_filter_Some (f : Entity F -> bool) db key r :
  get_row (List.filter f db) key = Some r -> exists r', get_row db key = Some r'.
Proof.
  unfold get_row. induction db as [| x db IH]; cbn; intros H.
  - discriminate.
  - destruct (Z.eqb (pk x) key) eqn:E; [eauto |].
    destruct (f x); cbn in H; [rewrite E in H |]; auto.
Qed.

Lemma Forall_update_row (P : Entity F -> Prop) db row :
  Forall P db -> P row -> Forall P (update_row db row).
Proof.
  intros Hall Hrow. unfold update_row. induction Hall as [| x db Hx _ IH]; cbn.
  - constructor.
  - constructor; [destruct (Z.eqb (pk x) (pk row)); assumption | exact IH].
Qed.
End Tables.

(** ** Validation, read off field by field *)

Lemma check_app_nil name b (l : list string) :
  check name b ++ l = [] <-> b = true /\ l = [].
Proof.
  destruct b; cbn; split.
  - intros H; split; [reflexivity | exact H].
  - intros [_ H]; exact H.
  - discriminate.
  - intros [H _]; discriminate.
Qed.

Lemma check_nil name b : check name b = [] <-> b = true.
Proof. destruct b; cbn; split; congruence. Qed.

Lemma Deal_clean_fields_nil env (d : Deal) :
  Deal_clean_fields env d = [] <-> fields_ok env (own d).
Proof.
  unfold Deal_clean_fields, fields_ok.
  rewrite !check_app_nil, check_nil. tauto.
Qed.

Lemma Deal_clean_cases (d : Deal) :
  Deal_clean d = Ok tt \/ exists f, Deal_clean d = Raise (ValidationError [f]).
Proof.
  unfold Deal_clean.
  destruct (dict_get (stage (own d)) stage_probability_map) as [[lo hi] |]; cbn.
  - destruct (negb _); cbn; [right; eauto |].
    destruct (actual_close_date (own d)), (expected_close_date (own d)); auto.
    destruct (_ <? _)%Z; [right; eauto | auto].
  - destruct (actual_close_date (own d)), (expected_close_date (own d)); auto.
    destruct (_ <? _)%Z; [right; eauto | auto].
Qed.

Lemma validate_unique_pk_nil {F : Type} (db : list (Entity F)) (self : Entity F) :
  validate_unique_pk db self = []
  <-> (adding self = true -> existsb (fun r => Z.eqb (pk r) (pk self)) db = false).
Proof.
  unfold validate_unique_pk. destruct (adding self).
  - rewrite check_nil. destruct (existsb _ db); cbn; split; auto.
    intros H. symmetry. apply H. reflexivity.
  - split; [discriminate | reflexivity].
Qed.

Lemma app_nil_iff {A : Type} (l l' : list A) : l ++ l' = [] <-> l = [] /\ l' = [].
Proof.
  split; [apply app_eq_nil | intros [-> ->]; reflexivity].
Qed.

Lemma negb_true_false (b : bool) : negb b = true <-> b = false.
Proof. destruct b; cbn; split; congruence. Qed.

Lemma Deal_validate_unique_nil (db : list Deal) (d : Deal) :
  Deal_validate_unique db d [] = [] <-> code_is_free db d.
Proof.
  unfold Deal_validate_unique, code_is_free. cbn [str_in existsb].
  rewrite app_nil_iff, validate_unique_pk_nil, check_nil, negb_true_false. reflexivity.
Qed.

Lemma Deal_full_clean_Ok (db : list Deal) env (d : Deal) :
  Deal_full_clean db env d = Ok tt <->
  fields_ok env (own d) /\ Deal_clean d = Ok tt /\ code_is_free db d.
Proof.
  unfold Deal_full_clean. rewrite <- Deal_clean_fields_nil, <- Deal_validate_unique_nil.
  destruct (Deal_clean_fields env d) as [| f fs] eqn:Ef.
  - destruct (Deal_clean_cases d) as [Hc | [f Hc]]; rewrite Hc; cbn [errors_of app].
    + destruct (Deal_validate_unique db d []); split; try tauto; try discriminate.
      intros (_ & _ & H); discriminate.
    + split; [discriminate | intros (_ & H & _); discriminate].
  - cbn. split; [discriminate | intros (H & _); discriminate].
Qed.

(** [full_clean] raises nothing but a [ValidationError]. *)
Lemma Deal_full_clean_raises db env (d : Deal) e :
  Deal_full_clean db env d = Raise e -> exists fields, e = ValidationError fields.
Proof.
  unfold Deal_full_clean. destruct (_ ++ _); [discriminate |].
  intros H. injection H as <-. eauto.
Qed.

Lemma str_in_In (x : string) (xs : list string) : str_in x xs = true <-> In x xs.
Proof.
  unfold str_in. rewrite existsb_exists. split.
  - intros (y & Hin & Heq). apply String.eqb_eq in Heq. subst y. exact Hin.
  - intros Hin. exists x. split; [exact Hin | apply String.eqb_refl].
Qed.

(** Case analysis on a string known to be one of a few literals. *)
Ltac one_of H :=
  apply str_in_In in H; cbn in H;
  repeat (destruct H as [H | H]; [symmetry in H |]); [.. | contradiction H].

(** ** Saving a deal *)

Lemma Deal_before_super_inv db env self self1 :
  Deal_before_super db env self = Ok self1 ->
  Deal_full_clean db env self1 = Ok tt
  /\ pk self1 = pk self
  /\ created_at self1 = created_at self
  /\ updated_at self1 = updated_at self
  /\ is_active self1 = is_active self
  /\ deleted_at self1 = deleted_at self
  /\ adding self1 = adding self
  /\ (if is_empty (deal_code (own self))
      then exists code, auto_deal_code db env = Ok code
                        /\ own self1 = with_deal_code code (own self)
      else own self1 = own self).
Proof.
  unfold Deal_before_super. intros H.
  apply bind_Ok in H. destruct H as (s & Hs & H).
  apply bind_Ok in H. destruct H as ([] & Hclean & H).
  injection H as <-.
  destruct (is_empty (deal_code (own self))).
  - apply bind_Ok in Hs. destruct Hs as (code & Hcode & Hs).
    injection Hs as <-. repeat split; try assumption; try reflexivity.
    exists code. split; [exact Hcode | reflexivity].
  - injection Hs as <-. repeat split; try assumption; reflexivity.
Qed.

Lemma Deal_before_super_coded db env self :
  is_empty (deal_code (own self)) = false ->
  Deal_full_clean db env self = Ok tt ->
  Deal_before_super db env self = Ok self.
Proof.
  intros Hcode Hclean. unfold Deal_before_super.
  rewrite Hcode. cbn. rewrite Hclean. reflexivity.
Qed.

Lemma Deal_save_inv db env self uf db' d' :
  Deal_save db env self uf = Ok (db', d') ->
  exists self1, Deal_before_super db env self = Ok self1
                /\ Model_save Deal_assign_own db env self1 uf = Ok (db', d').
Proof. unfold Deal_save, save. intros H. apply bind_Ok in H. exact H. Qed.

Section ModelSave.
Context {F : Type} (assign_own : string -> F -> F -> option F).
Implicit Types (db : list (Entity F)) (self row : Entity F).

Lemma insert_row_inv db env self db' self' :
  insert_row db env self = Ok (db', self') ->
  get_row db (pk self) = None
  /\ self' = set_adding false
               (set_created_at (Some (timezone_now env))
                  (set_updated_at (Some (timezone_now env)) self))
  /\ db' = db ++ [self'].
Proof.
  unfold insert_row. destruct (get_row db (pk self)); [discriminate |].
  intros H. injection H as <- <-. repeat split; reflexivity.
Qed.

(** A full save stores the instance, with a fresh [updated_at], under
    its own key: over its row when the instance was read from the
    database and the row is there, as a new row otherwise. *)
Lemma Model_save_full_inv db env self db' self' :
  Model_save assign_own db env self None = Ok (db', self') ->
  pk self' = pk self /\ own self' = own self
  /\ is_active self' = is_active self /\ deleted_at self' = deleted_at self
  /\ adding self' = false
  /\ get_row db' (pk self) = Some self'
  /\ ((exists r, get_row db (pk self) = Some r) /\ adding self = false
      /\ self' = set_updated_at (Some (timezone_now env)) self
      /\ db' = update_row db self'
      \/ get_row db (pk self) = None /\ db' = db ++ [self']).
Proof.
  unfold Model_save. cbn [default from_option id forallb negb].
  destruct (adding self) eqn:Hadd.
  - intros H. apply insert_row_inv in H. destruct H as (Hnone & -> & ->).
    cbn. repeat split.
    + apply get_row_app_None; [exact Hnone | reflexivity].
    + right. split; [exact Hnone | reflexivity].
  - destruct (get_row db (pk self)) as [r |] eqn:Hrow; intros H.
    + injection H as <- <-. cbn [touch]. cbn. repeat split; try exact Hadd.
      * apply (get_row_update_row db (set_updated_at _ self) r). exact Hrow.
      * left. split; [eauto |]. split; [reflexivity |]. split; reflexivity.
    + apply insert_row_inv in H. destruct H as (Hnone & -> & ->).
      cbn. repeat split.
      * apply get_row_app_None; [exact Hnone | reflexivity].
      * right. split; reflexivity.
Qed.

(** A save of the two soft-delete columns by an instance that was read
    from the database rewrites exactly these two columns of the stored
    row; by an instance that is being added it inserts the instance. *)
Lemma Model_save_soft_columns_inv db env self db' self' :
  Model_save assign_own db env self (Some ["is_active"; "deleted_at"]) = Ok (db', self') ->
  (adding self = false /\ self' = self
   /\ exists row, get_row db (pk self) = Some row
      /\ db' = update_row db
                 (set_deleted_at (deleted_at self) (set_is_active (is_active self) row)))
  \/ (adding self = true /\ get_row db (pk self) = None
      /\ self' = set_adding false
                   (set_created_at (Some (timezone_now env))
                      (set_updated_at (Some (timezone_now env)) self))
      /\ db' = db ++ [self']).
Proof.
  unfold Model_save. cbn [default from_option id forallb negb assign_column String.eqb
                            Ascii.eqb Bool.eqb andb].
  destruct (adding self) eqn:Hadd; intros H.
  - right. apply insert_row_inv in H. destruct H as (Hnone & -> & ->).
    repeat split; assumption.
  - left. destruct (get_row db (pk self)) as [row |] eqn:Hrow; [| discriminate H].
    injection H as <- <-. split; [reflexivity |]. split; [reflexivity |].
    exists row. split; reflexivity.
Qed.

(** Naming the two soft-delete columns is accepted, and by an instance
    read from the database it is an update of its row. *)
Lemma Model_save_soft_columns db env self row :
  adding self = false ->
  get_row db (pk self) = Some row ->
  Model_save assign_own db env self (Some ["is_active"; "deleted_at"])
  = Ok (update_row db
          (set_deleted_at (deleted_at self) (set_is_active (is_active self) row)),
        self).
Proof.
  intros Hadd Hrow. unfold Model_save.
  cbn [default from_option id forallb negb assign_column String.eqb
         Ascii.eqb Bool.eqb andb].
  rewrite Hadd, Hrow. reflexivity.
Qed.
End ModelSave.

(** ** The probability bands, as the specification tabulates them *)

Lemma Deal_clean_band (d : Deal) :
  str_in (stage (own d)) (choice_values STAGE_CHOICES) = true ->
  Deal_clean d = Ok tt -> in_band d.
Proof.
  unfold in_band, spec_probability_band, Deal_clean. intros Hstage.
  one_of Hstage; rewrite Hstage; cbn;
    match goal with
    | |- context [negb ((?a <=? ?b)%Z && (?c <=? ?e)%Z)] =>
        destruct (Z.leb_spec a b); destruct (Z.leb_spec c e); cbn; try discriminate
    end;
    intros _;
    repeat (first [left; split; [reflexivity | lia] | right]);
    split; [reflexivity | lia].
Qed.

Lemma Deal_full_clean_band db env (d : Deal) :
  Deal_full_clean db env d = Ok tt -> in_band d.
Proof.
  rewrite Deal_full_clean_Ok. intros (Hf & Hc & _).
  apply Deal_clean_band; [apply Hf | exact Hc].
Qed.

Lemma out_of_band_rejected db env (d : Deal) :
  ~ in_band d -> exists fields, Deal_full_clean db env d = Raise (ValidationError fields).
Proof.
  intros Hout. destruct (Deal_full_clean db env d) as [[] | e] eqn:E.
  - exfalso. apply Hout. apply (Deal_full_clean_band db env). exact E.
  - apply Deal_full_clean_raises in E. destruct E as [fields ->]. eauto.
Qed.

(** ** [Deal.clean], read off *)

Lemma Deal_clean_Ok (d : Deal) :
  Deal_clean d = Ok tt <-> band_ok (own d) /\ dates_ok (own d).
Proof.
  unfold Deal_clean, band_ok, dates_ok.
  destruct (dict_get _ _) as [[lo hi] |]; cbn;
    [destruct (Z.leb_spec lo (probability (own d)));
     destruct (Z.leb_spec (probability (own d)) hi); cbn |];
    destruct (actual_close_date (own d)) as [a |];
    destruct (expected_close_date (own d)) as [e |];
    try destruct (Z.ltb_spec a e);
    (split;
     [ intros Hclean; try discriminate Hclean; repeat split; try exact I; lia
     | intros [Hb Hd]; try reflexivity; exfalso; lia ]).
Qed.

(** ** The view as shipped *)

(** No view set declares [queryset]: [get_object] raises the assertion
    of the framework before it reads a row. *)
Lemma DealViewSet_get_object_raises db params key :
  DealViewSet_get_object db params key = Raise AssertionError.
Proof. reflexivity. Qed.

Lemma change_stage_as_shipped db env user key params data :
  change_stage db env user key params data = (db, Uncaught AssertionError).
Proof. reflexivity. Qed.

(** [days_in_stage] raises on every read, and with it the serializer. *)
Lemma DealSerializer_data_raises db env (d : Deal) :
  DealSerializer_data db env d = Raise ModuleNotFoundError.
Proof. reflexivity. Qed.

(** ** The stage change, step by step *)

Lemma valid_stage_not_empty (s : string) :
  str_in s valid_stages = true -> is_empty s = false.
Proof. intros H. one_of H; rewrite H; reflexivity. Qed.

Lemma change_stage_with_valid_eq deal0 db env user data new_stage :
  data !! "stage" = Some new_stage ->
  str_in new_stage valid_stages = true ->
  change_stage_with deal0 db env user data =
  match Deal_save (deal_table db) env (staged env data new_stage deal0) None with
  | Ok (deals, saved) =>
      (mkStore deals (history_table db ++ [history_row env user data new_stage deal0]),
       Uncaught ModuleNotFoundError)
  | Raise e =>
      (mkStore (deal_table db)
         (history_table db ++ [history_row env user data new_stage deal0]),
       Uncaught e)
  end.
Proof.
  intros Hstage Hvalid. unfold change_stage_with.
  rewrite Hstage. cbn [default from_option id].
  rewrite (valid_stage_not_empty _ Hvalid), Hvalid. cbn [negb].
  change (deal_table (DealStageHistory_create db env (pk deal0) (stage (own deal0))
                        new_stage user (default EmptyString (data !! "notes"))))
    with (deal_table db).
  fold (staged env data new_stage deal0).
  destruct (Deal_save (deal_table db) env (staged env data new_stage deal0) None)
    as [[deals saved] | e]; reflexivity.
Qed.

(** The requests that never reach the history table. *)
Lemma change_stage_with_refused deal0 db env user data :
  str_in (default EmptyString (data !! "stage")) valid_stages = false ->
  exists msg, change_stage_with deal0 db env user data = (db, Response_400 msg).
Proof.
  unfold change_stage_with. intros H.
  destruct (is_empty _); [eauto |]. rewrite H. cbn. eauto.
Qed.

Lemma staged_frame env data s (d0 : Deal) :
  pk (staged env data s d0) = pk d0
  /\ created_at (staged env data s d0) = created_at d0
  /\ updated_at (staged env data s d0) = updated_at d0
  /\ is_active (staged env data s d0) = is_active d0
  /\ deleted_at (staged env data s d0) = deleted_at d0
  /\ adding (staged env data s d0) = adding d0
  /\ deal_code (own (staged env data s d0)) = deal_code (own d0)
  /\ title (own (staged env data s d0)) = title (own d0)
  /\ amount (own (staged env data s d0)) = amount (own d0)
  /\ currency (own (staged env data s d0)) = currency (own d0)
  /\ expected_close_date (own (staged env data s d0)) = expected_close_date (own d0)
  /\ company (own (staged env data s d0)) = company (own d0)
  /\ forecast_category (own (staged env data s d0)) = forecast_category (own d0)
  /\ contact (own (staged env data s d0)) = contact (own d0)
  /\ tags (own (staged env data s d0)) = tags (own d0)
  /\ created_by (own (staged env data s d0)) = created_by (own d0)
  /\ assigned_to (own (staged env data s d0)) = assigned_to (own d0).
Proof.
  unfold staged.
  destruct (dict_get s stage_default_probability);
    destruct (str_in s _); destruct (String.eqb s "closed_lost"); cbn; repeat split.
Qed.



Lemma staged_valid db env data s (d0 : Deal) :
  Deal_full_clean db env d0 = Ok tt ->
  str_in s valid_stages = true ->
  (str_in s ["closed_won"; "closed_lost"] = true -> close_date_allows env d0) ->
  (s = "closed_lost" -> lost_reason_accepted (default EmptyString (data !! "lost_reason"))) ->
  Deal_full_clean db env (staged env data s d0) = Ok tt.
Proof.
  rewrite !Deal_full_clean_Ok. intros (Hf & Hc & Hu) Hs Hdate Hlost.
  split; [| split].
  - destruct Hf as (H1 & H2 & H3 & H4 & H5 & H6 & H7 & H8 & H9 & H10 & H11 & H12 & H13).
    one_of Hs; subst s; unfold fields_ok; cbn;
      repeat split; try assumption; try reflexivity.
    apply Hlost. reflexivity.
  - rewrite Deal_clean_Ok in *. destruct Hc as [Hb Hd].
    unfold close_date_allows in Hdate.
    one_of Hs; subst s; unfold band_ok, dates_ok in *; cbn in *;
      (split; [lia |]);
      first [ exact Hd
            | specialize (Hdate eq_refl);
              destruct (expected_close_date (own d0)); [lia | exact I] ].
  - unfold code_is_free in *.
    destruct (staged_frame env data s d0) as (-> & _ & _ & _ & _ & -> & -> & _).
    exact Hu.
Qed.


Lemma fields_ok_coded env (c : DealColumns) :
  fields_ok env c -> is_empty (deal_code c) = false.
Proof.
  intros (H & _). destruct (is_empty (deal_code c)); [discriminate H | reflexivity].
Qed.


(** The calls in which the deal was saved: the serializer is reached.
    It raises; an answer of 200 would be the other such outcome. *)
Lemma change_stage_with_never_200 deal0 db env user data body :
  snd (change_stage_with deal0 db env user data) <> Response_200 body.
Proof.
  unfold change_stage_with.
  destruct (is_empty _); [discriminate |].
  destruct (negb _); [discriminate |].
  destruct (Deal_save _ _ _ _) as [[deals saved] | e]; discriminate.
Qed.

Lemma int_raises (s : string) e : int s = Raise e -> e = ValueError.
Proof.
  unfold int. destruct s; [| destruct (all_digits _)]; intros H;
    first [discriminate H | injection H as <-; reflexivity].
Qed.

Lemma Model_save_raises {F : Type} (assign_own : string -> F -> F -> option F)
    (db : list (Entity F)) env (self : Entity F) uf e :
  Model_save assign_own db env self uf = Raise e ->
  e = ValueError \/ e = IntegrityError \/ e = DatabaseError.
Proof.
  unfold Model_save, insert_row.
  destruct uf as [[| c cols] |]; [discriminate | |];
    (destruct (negb _); [intros H; injection H as <-; auto |]);
    destruct (adding self); destruct (get_row db (pk self));
    intros H; first [discriminate H | injection H as <-; auto].
Qed.

(** What a [save] of a deal can raise. *)
Lemma Deal_save_raises db env (self : Deal) uf e :
  Deal_save db env self uf = Raise e ->
  (exists fields, e = ValidationError fields)
  \/ e = ValueError \/ e = IntegrityError \/ e = DatabaseError.
Proof.
  unfold Deal_save, save. destruct (Deal_before_super db env self) as [s1 | e1] eqn:Hb.
  - cbn [mbind Result_bind]. intros H. right. exact (Model_save_raises _ _ _ _ _ _ H).
  - cbn [mbind Result_bind]. intros H. injection H as <-.
    unfold Deal_before_super in Hb.
    destruct (is_empty (deal_code (own self))).
    + unfold auto_deal_code in Hb.
      destruct (aggregate_Max _) as [code |] in Hb.
      * destruct (int (split_dash_last code)) as [n | e2] eqn:Hint.
        -- cbn [mbind Result_bind] in Hb.
           destruct (Deal_full_clean db env _) as [[] | e3] eqn:Hc in Hb;
             cbn [mbind Result_bind] in Hb; [discriminate Hb |].
           injection Hb as <-. left. exact (Deal_full_clean_raises _ _ _ _ Hc).
        -- cbn [mbind Result_bind] in Hb. injection Hb as <-.
           right. left. exact (int_raises _ _ Hint).
      * cbn [mbind Result_bind] in Hb.
        destruct (Deal_full_clean db env _) as [[] | e3] eqn:Hc in Hb;
          cbn [mbind Result_bind] in Hb; [discriminate Hb |].
        injection Hb as <-. left. exact (Deal_full_clean_raises _ _ _ _ Hc).
    + cbn [mbind Result_bind] in Hb.
      destruct (Deal_full_clean db env _) as [[] | e3] eqn:Hc in Hb;
        cbn [mbind Result_bind] in Hb; [discriminate Hb |].
      injection Hb as <-. left. exact (Deal_full_clean_raises _ _ _ _ Hc).
Qed.

Lemma Deal_save_not_import_error db env (self : Deal) uf :
  Deal_save db env self uf <> Raise ModuleNotFoundError.
Proof.
  intros H. apply Deal_save_raises in H.
  destruct H as [[fields H] | [H | [H | H]]]; discriminate H.
Qed.

(** Every call of the steps of [change_stage] ends in one of three ways:
    refused before anything is written; history row written and deal
    saved, after which the serializer raises; history row written and the
    save raised. *)
Lemma change_stage_with_cases deal0 db env user data :
  (exists msg, change_stage_with deal0 db env user data = (db, Response_400 msg))
  \/ (exists s deals saved,
        data !! "stage" = Some s
        /\ str_in s valid_stages = true
        /\ Deal_save (deal_table db) env (staged env data s deal0) None = Ok (deals, saved)
        /\ get_row deals (pk deal0) = Some saved
        /\ own saved = with_deal_code (deal_code (own saved)) (own (staged env data s deal0))
        /\ change_stage_with deal0 db env user data
           = (mkStore deals (history_table db ++ [history_row env user data s deal0]),
              Uncaught ModuleNotFoundError))
  \/ (exists s e,
        data !! "stage" = Some s
        /\ str_in s valid_stages = true
        /\ Deal_save (deal_table db) env (staged env data s deal0) None = Raise e
        /\ e <> ModuleNotFoundError
        /\ change_stage_with deal0 db env user data
           = (mkStore (deal_table db)
                (history_table db ++ [history_row env user data s deal0]),
              Uncaught e)).
Proof.
  destruct (str_in (default EmptyString (data !! "stage")) valid_stages) eqn:Hvalid.
  2:{ left. apply change_stage_with_refused. exact Hvalid. }
  destruct (data !! "stage") as [s |] eqn:Hstage; [| discriminate Hvalid].
  cbn in Hvalid. right.
  rewrite (change_stage_with_valid_eq _ _ _ _ _ _ Hstage Hvalid).
  destruct (Deal_save (deal_table db) env (staged env data s deal0) None)
    as [[deals saved] | e] eqn:Hsave.
  - left. exists s, deals, saved.
    destruct (Deal_save_inv _ _ _ _ _ _ Hsave) as (self1 & Hbefore & Hmodel).
    apply Deal_before_super_inv in Hbefore.
    destruct Hbefore as (_ & Hpk1 & _ & _ & _ & _ & _ & Hown1).
    apply Model_save_full_inv in Hmodel.
    destruct Hmodel as (Hpk & Hown & _ & _ & _ & Hget & _).
    destruct (staged_frame env data s deal0) as (Hpk0 & _).
    repeat split; try reflexivity; try assumption.
    + rewrite <- Hpk0, <- Hpk1. exact Hget.
    + rewrite Hown. destruct (is_empty _) in Hown1.
      * destruct Hown1 as (code & _ & ->). reflexivity.
      * rewrite Hown1. destruct (own (staged env data s deal0)). reflexivity.
  - right. exists s, e. repeat split; try reflexivity; try assumption.
    intros ->. exact (Deal_save_not_import_error _ _ _ _ Hsave).
Qed.

(** ** C1: closed stages are not terminal *)




(** ** C2: the history row is committed before the deal is saved *)



(** ** C6: one history row per stage change that went through *)

Lemma change_stage_with_saved deal0 db env user data db' resp :
  change_stage_with deal0 db env user data = (db', resp) ->
  deal_saved resp ->
  exists s deals saved,
    data !! "stage" = Some s
    /\ str_in s valid_stages = true
    /\ Deal_save (deal_table db) env (staged env data s deal0) None = Ok (deals, saved)
    /\ get_row deals (pk deal0) = Some saved
    /\ own saved = with_deal_code (deal_code (own saved)) (own (staged env data s deal0))
    /\ db' = mkStore deals (history_table db ++ [history_row env user data s deal0])
    /\ resp = Uncaught ModuleNotFoundError.
Proof.
  intros Hcall Hsaved.
  destruct (change_stage_with_cases deal0 db env user data)
    as [[msg H] | [(s & deals & saved & H1 & H2 & H3 & H4 & H5 & H6)
                  | (s & e & _ & _ & _ & Hne & H)]];
    rewrite Hcall in *.
  - injection H as -> ->. destruct Hsaved as [H | [body H]]; discriminate H.
  - injection H6 as -> ->. exists s, deals, saved. repeat split; assumption.
  - injection H as -> ->. destruct Hsaved as [H | [body H]]; [| discriminate H].
    injection H as ->. contradiction Hne. reflexivity.
Qed.



(** ** C7: the probability after a stage change *)





(** ** C4: closing as lost *)




(** ** C5: the probability band of every stored deal *)

Lemma in_band_own (d d' : Deal) : own d' = own d -> in_band d -> in_band d'.
Proof. unfold in_band. intros ->. exact id. Qed.

Lemma Deal_save_full_band db env self deals saved :
  Deal_save db env self None = Ok (deals, saved) ->
  get_row deals (pk self) = Some saved
  /\ in_band saved
  /\ (band_invariant db -> band_invariant deals).
Proof.
  intros Hsave.
  destruct (Deal_save_inv _ _ _ _ _ _ Hsave) as (self1 & Hbefore & Hmodel).
  apply Deal_before_super_inv in Hbefore.
  destruct Hbefore as (Hclean & Hpk1 & _).
  apply Model_save_full_inv in Hmodel.
  destruct Hmodel as (_ & Hown & _ & _ & _ & Hrow & Hdb).
  assert (Hband : in_band saved).
  { apply (in_band_own self1); [exact Hown |].
    apply (Deal_full_clean_band db env). exact Hclean. }
  rewrite Hpk1 in Hrow. split; [exact Hrow |]. split; [exact Hband |].
  intros Hinv. destruct Hdb as [(_ & _ & _ & ->) | [_ ->]].
  - apply Forall_update_row; assumption.
  - apply Forall_app. split; [exact Hinv | constructor; [exact Hband | constructor]].
Qed.

Lemma soft_columns_band (before_flag : bool) (stamp : option Z) db env self deals self' :
  save Deal_assign_own Deal_before_super db env
    (set_deleted_at stamp (set_is_active before_flag self))
    (Some ["is_active"; "deleted_at"]) = Ok (deals, self') ->
  band_invariant db -> band_invariant deals.
Proof.
  unfold save. intros Hsave Hinv.
  apply bind_Ok in Hsave. destruct Hsave as (self1 & Hbefore & Hmodel).
  apply Model_save_soft_columns_inv in Hmodel.
  destruct Hmodel as [(_ & _ & row & Hrow & ->) | (_ & _ & -> & ->)].
  - apply Forall_update_row; [exact Hinv |].
    apply get_row_Some in Hrow. destruct Hrow as [Hin _].
    unfold band_invariant in Hinv. rewrite Forall_forall in Hinv.
    apply (in_band_own row); [reflexivity | apply Hinv, list_elem_of_In; exact Hin].
  - apply Forall_app. split; [exact Hinv |]. constructor; [| constructor].
    apply (in_band_own self1); [reflexivity |].
    apply Deal_before_super_inv in Hbefore. destruct Hbefore as (Hclean & _).
    apply (Deal_full_clean_band db env). exact Hclean.
Qed.

Lemma write_band db db' :
  write db db' -> band_invariant (deal_table db) -> band_invariant (deal_table db').
Proof.
  intros Hw Hinv. destruct Hw as
    [db env self deals saved Hsave
    | db env user key params data
    | deal0 db env user data
    | db env self stage' reason lost_notes' deals saved Hclose
    | db env self deals self' Hsoft
    | db env self deals self' Hrest]; cbn.
  - apply (Deal_save_full_band _ _ _ _ _ Hsave). exact Hinv.
  - exact Hinv.
  - destruct (change_stage_with_cases deal0 db env user data)
      as [[msg ->] | [(s & deals & saved & _ & _ & Hsave & _ & _ & ->)
                     | (s & e & _ & _ & _ & _ & ->)]]; cbn.
    + exact Hinv.
    + apply (Deal_save_full_band _ _ _ _ _ Hsave). exact Hinv.
    + exact Hinv.
  - unfold close_deal in Hclose. destruct (negb _) in Hclose; [discriminate |].
    apply (Deal_save_full_band _ _ _ _ _ Hclose). exact Hinv.
  - apply (soft_columns_band _ _ _ _ _ _ _ Hsoft). exact Hinv.
  - apply (soft_columns_band _ _ _ _ _ _ _ Hrest). exact Hinv.
Qed.

Lemma reachable_band db : reachable db -> band_invariant (deal_table db).
Proof.
  induction 1 as [| db db' _ IH Hw].
  - constructor.
  - apply (write_band db db' Hw IH).
Qed.

(** ** Deal codes: what the pattern guarantees *)

Lemma digit_not_dash (c : ascii) : is_digit c = true -> Ascii.eqb c "-" = false.
Proof.
  intros H. destruct (Ascii.eqb_spec c "-") as [-> | _]; [discriminate H | reflexivity].
Qed.

Lemma last_segment_from_dash acc s :
  last_segment_from acc (String "-" s) = last_segment_from EmptyString s.
Proof. reflexivity. Qed.

Lemma last_segment_from_other acc c s :
  Ascii.eqb c "-" = false ->
  last_segment_from acc (String c s) = last_segment_from (acc +:+ String c EmptyString) s.
Proof. intros H. cbn [last_segment_from]. rewrite H. reflexivity. Qed.

(** A code that matches the pattern is [DEAL-], four digits, a dash and
    three digits. *)
Lemma deal_code_regex_shape (m : string) :
  deal_code_regex m = true ->
  exists y1 y2 y3 y4 n1 n2 n3,
    m = String "D" (String "E" (String "A" (String "L" (String "-"
          (String y1 (String y2 (String y3 (String y4 (String "-"
             (String n1 (String n2 (String n3 EmptyString))))))))))))
    /\ is_digit y1 = true /\ is_digit y2 = true
    /\ is_digit y3 = true /\ is_digit y4 = true
    /\ is_digit n1 = true /\ is_digit n2 = true /\ is_digit n3 = true.
Proof.
  unfold deal_code_regex. intros H.
  apply andb_prop in H. destruct H as [H Hn].
  apply andb_prop in H. destruct H as [H Hdash].
  apply andb_prop in H. destruct H as [H Hy].
  apply andb_prop in H. destruct H as [Hlen Hdeal].
  do 13 (destruct m as [| ? m]; [discriminate Hlen |]).
  destruct m; [| discriminate Hlen].
  cbn [substring all_digits] in Hdeal, Hdash, Hy, Hn.
  apply String.eqb_eq in Hdeal. injection Hdeal as -> -> -> -> ->.
  apply String.eqb_eq in Hdash. injection Hdash as ->.
  repeat (apply andb_prop in Hy; destruct Hy as [? Hy]).
  repeat (apply andb_prop in Hn; destruct Hn as [? Hn]).
  do 7 eexists. split; [reflexivity |]. repeat split; assumption.
Qed.

Lemma deal_code_regex_int (m : string) :
  deal_code_regex m = true ->
  int (split_dash_last m) = Ok (int_from 0 (substring 10 3 m)).
Proof.
  intros H. apply deal_code_regex_shape in H.
  destruct H as (y1 & y2 & y3 & y4 & n1 & n2 & n3 & -> & Hy1 & Hy2 & Hy3 & Hy4
                 & Hn1 & Hn2 & Hn3).
  unfold split_dash_last.
  rewrite 4 last_segment_from_other by reflexivity.
  rewrite last_segment_from_dash.
  rewrite 4 last_segment_from_other by (apply digit_not_dash; assumption).
  rewrite last_segment_from_dash.
  rewrite 3 last_segment_from_other by (apply digit_not_dash; assumption).
  cbn [last_segment_from substring].
  change (((EmptyString +:+ String n1 EmptyString) +:+ String n2 EmptyString)
          +:+ String n3 EmptyString)
    with (String n1 (String n2 (String n3 EmptyString))).
  unfold int. cbn [all_digits]. rewrite Hn1, Hn2, Hn3. reflexivity.
Qed.

Lemma aggregate_Max_from acc (l : list string) (m : string) :
  fold_left (fun acc s =>
               match acc with
               | None => Some s
               | Some m => if String.ltb m s then Some s else Some m
               end) l acc = Some m ->
  In m l \/ acc = Some m.
Proof.
  revert acc. induction l as [| x l IH]; cbn; intros acc H.
  - right. exact H.
  - apply IH in H. destruct H as [H | H]; [left; right; exact H |].
    destruct acc as [a |].
    + destruct (String.ltb a x); injection H as <-; [left; left | right]; reflexivity.
    + injection H as <-. left. left. reflexivity.
Qed.

Lemma aggregate_Max_In (l : list string) (m : string) :
  aggregate_Max l = Some m -> In m l.
Proof.
  intros H. apply aggregate_Max_from in H. destruct H as [H | H]; [exact H | discriminate H].
Qed.

(** The allocation never raises: the text after the last dash of a
    matching code is a number. *)
Lemma auto_deal_code_value db env :
  auto_deal_code db env
  = Ok ("DEAL-" +:+ str (datetime_now_year env) +:+ "-"
        +:+ format_03d (match aggregate_Max (matching_codes db) with
                        | Some code => int_from 0 (substring 10 3 code) + 1
                        | None => 1
                        end)%Z).
Proof.
  unfold auto_deal_code. fold (matching_codes db).
  destruct (aggregate_Max (matching_codes db)) as [code |] eqn:Hmax; [| reflexivity].
  apply aggregate_Max_In in Hmax. unfold matching_codes in Hmax.
  apply filter_In in Hmax. destruct Hmax as [_ Hre].
  rewrite (deal_code_regex_int code Hre). reflexivity.
Qed.

(** ** Which saves are rejected *)

Lemma In_check (x name : string) (b : bool) :
  In x (check name b) -> x = name /\ b = false.
Proof. destruct b; cbn; [tauto |]. intros [<- | []]. split; reflexivity. Qed.

Lemma Deal_full_clean_probability_error db env (d : Deal) fields :
  Deal_full_clean db env d = Raise (ValidationError fields) ->
  In "probability" fields ->
  (0 <=? probability (own d))%Z && (probability (own d) <=? 100)%Z = false
  \/ ~ band_ok (own d).
Proof.
  unfold Deal_full_clean.
  destruct (_ ++ _) as [| f fs] eqn:E; [discriminate |].
  intros Hraise Hin. injection Hraise as <-. rewrite <- E in Hin. clear E.
  rewrite !in_app_iff in Hin. destruct Hin as [[Hin | Hin] | Hin].
  - left. unfold Deal_clean_fields in Hin. rewrite !in_app_iff in Hin.
    repeat (destruct Hin as [Hin | Hin]; [apply In_check in Hin; destruct Hin as [Hname Hb];
                                          first [discriminate Hname | exact Hb] |]).
    apply In_check in Hin. destruct Hin as [Hname _]. discriminate Hname.
  - right. intros Hband.
    destruct (Deal_clean d) as [[] | e] eqn:Hclean; [destruct Hin |].
    unfold Deal_clean, band_ok in *.
    destruct (dict_get _ _) as [[lo hi] |]; cbn in Hclean.
    + destruct (Z.leb_spec lo (probability (own d)));
        destruct (Z.leb_spec (probability (own d)) hi); cbn in Hclean; try lia.
      destruct (actual_close_date (own d)), (expected_close_date (own d));
        try discriminate Hclean.
      destruct (_ <? _)%Z; [| discriminate Hclean].
      injection Hclean as <-. cbn in Hin. destruct Hin as [Hin | []]. discriminate Hin.
    + destruct (actual_close_date (own d)), (expected_close_date (own d));
        try discriminate Hclean.
      destruct (_ <? _)%Z; [| discriminate Hclean].
      injection Hclean as <-. cbn in Hin. destruct Hin as [Hin | []]. discriminate Hin.
  - unfold Deal_validate_unique, validate_unique_pk in Hin.
    rewrite in_app_iff in Hin. destruct Hin as [Hin | Hin].
    + destruct (adding d); [| destruct Hin].
      apply In_check in Hin. destruct Hin as [Hname _]. discriminate Hname.
    + destruct (str_in _ _); [destruct Hin |].
      apply In_check in Hin. destruct Hin as [Hname _]. discriminate Hname.
Qed.

Lemma Deal_save_out_of_band db env (self : Deal) uf :
  ~ in_band self ->
  exists fields, Deal_save db env self uf = Raise (ValidationError fields).
Proof.
  intros Hout. unfold Deal_save, save, Deal_before_super.
  destruct (is_empty (deal_code (own self))).
  - rewrite auto_deal_code_value. cbn [mbind Result_bind].
    match goal with
    | |- context [Deal_full_clean db env ?d] =>
        destruct (out_of_band_rejected db env d) as [fields ->]
    end.
    + intros Hband. apply Hout. exact Hband.
    + exists fields. reflexivity.
  - cbn [mbind Result_bind].
    destruct (out_of_band_rejected db env self Hout) as [fields ->].
    exists fields. reflexivity.
Qed.

(** A stage change is never rejected for its probability: the default of
    every stage lies in the band of that stage. *)
Lemma change_stage_probability_accepted deal0 db env user data db' fields :
  change_stage_with deal0 db env user data = (db', Uncaught (ValidationError fields)) ->
  ~ In "probability" fields.
Proof.
  intros Hcall Hin.
  destruct (change_stage_with_cases deal0 db env user data)
    as [[msg H] | [(s & deals & saved & _ & _ & _ & _ & _ & H)
                  | (s & e & _ & Hs & Hsave & _ & H)]];
    rewrite Hcall in H; try discriminate H.
  injection H as _ <-.
  assert (Hfine : forall code (d : Deal),
             own d = with_deal_code code (own (staged env data s deal0)) ->
             Deal_full_clean (deal_table db) env d = Raise (ValidationError fields) -> False).
  { intros code d Hown Hclean.
    destruct (Deal_full_clean_probability_error _ _ _ _ Hclean Hin) as [Hp | Hb].
    - rewrite Hown in Hp. clear - Hp Hs. one_of Hs; subst s; discriminate Hp.
    - apply Hb. unfold band_ok. rewrite Hown. clear - Hs.
      one_of Hs; subst s; cbn; lia. }
  unfold Deal_save, save, Deal_before_super in Hsave.
  destruct (is_empty _) in Hsave.
  - rewrite auto_deal_code_value in Hsave. cbn [mbind Result_bind] in Hsave.
    match type of Hsave with
    | context [Deal_full_clean _ _ ?d] =>
        destruct (Deal_full_clean (deal_table db) env d) as [[] | e] eqn:Hclean
    end; cbn [mbind Result_bind] in Hsave.
    + apply Model_save_raises in Hsave.
      destruct Hsave as [H | [H | H]]; discriminate H.
    + injection Hsave as ->. eapply Hfine; [| exact Hclean]. reflexivity.
  - cbn [mbind Result_bind] in Hsave.
    destruct (Deal_full_clean (deal_table db) env (staged env data s deal0))
      as [[] | e] eqn:Hclean; cbn [mbind Result_bind] in Hsave.
    + apply Model_save_raises in Hsave.
      destruct Hsave as [H | [H | H]]; discriminate H.
    + injection Hsave as ->.
      eapply (Hfine (deal_code (own (staged env data s deal0)))); [| exact Hclean].
      destruct (own (staged env data s deal0)). reflexivity.
Qed.

(** C5: every deal of every store that the writes of the source can
    produce has its probability within the band of its stage (lead 0-30,
    qualified 30-50, proposal 50-70, negotiation 70-90, closed_won 95-100,
    closed_lost 0-5, on_hold 0-100): each write keeps the bands, the deal
    a successful save stores is within its band, so is the deal stored by
    the steps of [change_stage] whenever they have saved it, and a save
    whose probability is outside the band raises [ValidationError]
    without writing.  A stage change is never rejected for its
    probability, so the history row written ahead of the save is not left
    behind by a band violation. *)
Theorem probability_band_invariant :
  (forall db, reachable db -> band_invariant (deal_table db))
  /\ (forall db db', write db db' ->
        band_invariant (deal_table db) -> band_invariant (deal_table db'))
  /\ (forall db env self deals saved,
        Deal_save db env self None = Ok (deals, saved) ->
        get_row deals (pk self) = Some saved /\ in_band saved)
  /\ (forall deal0 db env user data db' resp,
        change_stage_with deal0 db env user data = (db', resp) ->
        deal_saved resp ->
        exists saved, get_row (deal_table db') (pk deal0) = Some saved /\ in_band saved)
  /\ (forall db env self update_fields,
        ~ in_band self ->
        exists fields, Deal_save db env self update_fields = Raise (ValidationError fields))
  /\ (forall deal0 db env user data db' fields,
        change_stage_with deal0 db env user data
        = (db', Uncaught (ValidationError fields)) ->
        ~ In "probability" fields)
  /\ (forall db env user key params data,
        change_stage db env user key params data = (db, Uncaught AssertionError)).
Proof.
  split; [exact reachable_band |].
  split; [exact write_band |].
  split.
  { intros db env self deals saved Hsave.
    destruct (Deal_save_full_band _ _ _ _ _ Hsave) as (H1 & H2 & _). auto. }
  split.
  { intros deal0 db env user data db' resp Hcall Hsaved.
    destruct (change_stage_with_saved _ _ _ _ _ _ _ Hcall Hsaved)
      as (s & deals & saved & _ & _ & Hsave & Hget & _ & -> & _).
    exists saved. cbn [deal_table]. split; [exact Hget |].
    destruct (Deal_save_full_band _ _ _ _ _ Hsave) as (_ & H2 & _). exact H2. }
  split; [exact Deal_save_out_of_band |].
  split; [exact change_stage_probability_accepted |].
  exact change_stage_as_shipped.
Qed.

Lemma probability_band_invariant_witness :
  band_invariant
    (deal_table
       (fst (change_stage_with renewal_lead (mkStore [renewal_lead] []) sample_env 5
               {[ "stage" := "negotiation" ]}))).
Proof.
  apply (proj1 probability_band_invariant
           (fst (change_stage_with renewal_lead (mkStore [renewal_lead] []) sample_env 5
                   {[ "stage" := "negotiation" ]}))).
  eapply reachable_write; [| apply write_change_stage_with].
  eapply reachable_write; [apply reachable_empty |].
  apply (write_save (mkStore [] []) sample_env (new_lead 11 "Renewal")
           [renewal_lead] renewal_lead).
  vm_compute. reflexivity.
Defined.

(** ** The order of [Max] *)

Lemma ltb_lt (a b : string) :
  String.ltb a b = true <-> OrderedTypeEx.String_as_OT.lt a b.
Proof.
  rewrite <- OrderedTypeEx.String_as_OT.cmp_lt.
  unfold String.ltb, OrderedTypeEx.String_as_OT.cmp.
  destruct (String.compare a b); split; congruence.
Qed.

Lemma ltb_trans (a b c : string) :
  String.ltb a b = true -> String.ltb b c = true -> String.ltb a c = true.
Proof.
  rewrite !ltb_lt. apply OrderedTypeEx.String_as_OT.lt_trans.
Qed.

Lemma ltb_irrefl (a : string) : String.ltb a a = false.
Proof.
  destruct (String.ltb a a) eqn:H; [| reflexivity].
  apply ltb_lt in H. apply OrderedTypeEx.String_as_OT.lt_not_eq in H.
  contradiction H. reflexivity.
Qed.

Lemma ltb_false_cases (a b : string) :
  String.ltb a b = false -> a = b \/ String.ltb b a = true.
Proof.
  unfold String.ltb. rewrite (String.compare_antisym b a).
  destruct (String.compare a b) eqn:H; cbn; intros Hlt.
  - left. apply String.compare_eq_iff. exact H.
  - discriminate Hlt.
  - right. reflexivity.
Qed.

Lemma ltb_le_trans (m x a : string) :
  String.ltb m x = true -> String.ltb a x = false -> String.ltb m a = true.
Proof.
  intros Hmx Hax. destruct (ltb_false_cases _ _ Hax) as [-> | Hxa]; [exact Hmx |].
  exact (ltb_trans _ _ _ Hmx Hxa).
Qed.

Lemma aggregate_Max_from_greatest acc (l : list string) (m : string) :
  fold_left (fun acc s =>
               match acc with
               | None => Some s
               | Some m => if String.ltb m s then Some s else Some m
               end) l acc = Some m ->
  (forall a, acc = Some a -> String.ltb m a = false)
  /\ (forall c, In c l -> String.ltb m c = false).
Proof.
  revert acc. induction l as [| x l IH]; cbn [fold_left]; intros acc H.
  - split; [| intros c []]. intros a Ha. rewrite Ha in H. injection H as ->.
    apply ltb_irrefl.
  - apply IH in H. destruct H as [Hacc Hl].
    assert (Hx : String.ltb m x = false /\ forall a, acc = Some a -> String.ltb m a = false).
    { destruct acc as [a |].
      - destruct (String.ltb a x) eqn:Hax.
        + specialize (Hacc x eq_refl). split; [exact Hacc |].
          intros a' Ha'. injection Ha' as <-.
          destruct (String.ltb m a) eqn:Hma; [| reflexivity].
          rewrite (ltb_trans _ _ _ Hma Hax) in Hacc. discriminate Hacc.
        + specialize (Hacc a eq_refl). split.
          * destruct (String.ltb m x) eqn:Hmx; [| reflexivity].
            rewrite (ltb_le_trans _ _ _ Hmx Hax) in Hacc. discriminate Hacc.
          * intros a' Ha'. injection Ha' as <-. exact Hacc.
      - split; [exact (Hacc x eq_refl) | intros a Ha; discriminate Ha]. }
    destruct Hx as [Hx Ha]. split; [exact Ha |].
    intros c [<- | Hc]; [exact Hx | exact (Hl c Hc)].
Qed.

Lemma aggregate_Max_Some_from (l : list string) (a : string) :
  exists m,
    fold_left (fun acc s =>
                 match acc with
                 | None => Some s
                 | Some m => if String.ltb m s then Some s else Some m
                 end) l (Some a) = Some m.
Proof.
  revert a. induction l as [| x l IH]; cbn [fold_left]; intros a.
  - exists a. reflexivity.
  - destruct (String.ltb a x); apply IH.
Qed.

Lemma aggregate_Max_None (l : list string) : aggregate_Max l = None -> l = [].
Proof.
  destruct l as [| x l]; [reflexivity |]. unfold aggregate_Max. cbn [fold_left].
  destruct (aggregate_Max_Some_from l x) as [m ->]. discriminate.
Qed.

(** [Max] gives the greatest of the codes, and no other code is
    greatest. *)
Lemma aggregate_Max_greatest (db : list Deal) (m : string) :
  aggregate_Max (matching_codes db) = Some m <-> greatest_code db m.
Proof.
  split.
  - intros H. split; [apply aggregate_Max_In; exact H |].
    apply aggregate_Max_from_greatest in H. destruct H as [_ H]. exact H.
  - intros [Hin Hle].
    destruct (aggregate_Max (matching_codes db)) as [m' |] eqn:Hmax.
    + assert (Hin' := aggregate_Max_In _ _ Hmax).
      apply aggregate_Max_from_greatest in Hmax. destruct Hmax as [_ Hle'].
      specialize (Hle m' Hin'). specialize (Hle' m Hin). unfold code_le in Hle.
      destruct (ltb_false_cases _ _ Hle) as [-> | H]; [reflexivity |].
      rewrite H in Hle'. discriminate Hle'.
    + apply aggregate_Max_None in Hmax. rewrite Hmax in Hin. destruct Hin.
Qed.

(** ** C3, C8: allocation of deal codes *)

Lemma Deal_save_uncoded db env (self : Deal) :
  is_empty (deal_code (own self)) = true ->
  Deal_save db env self None
  = (_ ← Deal_full_clean db env (on_own (with_deal_code (continued_code db env)) self);
     Model_save Deal_assign_own db env
       (on_own (with_deal_code (continued_code db env)) self) None).
Proof.
  intros Hempty. unfold Deal_save, save, Deal_before_super.
  rewrite Hempty, auto_deal_code_value. fold (continued_code db env).
  cbn [mbind Result_bind].
  destruct (Deal_full_clean db env _); reflexivity.
Qed.

Lemma Model_save_insert {F : Type} (assign_own : string -> F -> F -> option F)
    (db : list (Entity F)) env (self : Entity F) :
  get_row db (pk self) = None ->
  Model_save assign_own db env self None
  = Ok (db ++ [set_adding false
                 (set_created_at (Some (timezone_now env))
                    (set_updated_at (Some (timezone_now env)) self))],
        set_adding false
          (set_created_at (Some (timezone_now env))
             (set_updated_at (Some (timezone_now env)) self))).
Proof.
  intros Hrow. unfold Model_save, insert_row. cbn. rewrite Hrow.
  destruct (adding self); reflexivity.
Qed.

Lemma Deal_save_insert db env (self : Deal) :
  is_empty (deal_code (own self)) = true ->
  get_row db (pk self) = None ->
  Deal_full_clean db env (on_own (with_deal_code (continued_code db env)) self) = Ok tt ->
  Deal_save db env self None
  = Ok (db ++ [set_adding false
                 (set_created_at (Some (timezone_now env))
                    (set_updated_at (Some (timezone_now env))
                       (on_own (with_deal_code (continued_code db env)) self)))],
        set_adding false
          (set_created_at (Some (timezone_now env))
             (set_updated_at (Some (timezone_now env))
                (on_own (with_deal_code (continued_code db env)) self)))).
Proof.
  intros Hempty Hrow Hclean. rewrite (Deal_save_uncoded _ _ _ Hempty), Hclean.
  cbn [mbind Result_bind]. apply Model_save_insert. exact Hrow.
Qed.

Lemma get_row_free {F : Type} (db : list (Entity F)) (key : Z) :
  existsb (fun r => Z.eqb (pk r) key) db = false -> get_row db key = None.
Proof.
  unfold get_row. induction db as [| x db IH]; [reflexivity |]. cbn.
  destruct (Z.eqb (pk x) key); [discriminate | exact IH].
Qed.

(** A full save that validation let through is carried out. *)
Lemma Model_save_validated db env (self : Deal) :
  Deal_full_clean db env self = Ok tt ->
  exists deals saved,
    Model_save Deal_assign_own db env self None = Ok (deals, saved)
    /\ own saved = own self.
Proof.
  intros Hclean. apply Deal_full_clean_Ok in Hclean.
  destruct Hclean as (_ & _ & Hfree & _).
  destruct (get_row db (pk self)) as [row |] eqn:Hrow.
  - destruct (adding self) eqn:Hadd.
    + rewrite (get_row_free db (pk self) (Hfree eq_refl)) in Hrow. discriminate Hrow.
    + unfold Model_save. cbn. rewrite Hadd, Hrow. eexists _, _. split; reflexivity.
  - rewrite (Model_save_insert _ _ _ _ Hrow). eexists _, _. split; reflexivity.
Qed.

(** C3, as stated, fails: the only stored code is of 2023, none exists
    for 2024, and the deal created in 2024, with its company and users
    set, is saved with suffix 006, not 001. *)
Lemma code_not_reset_in_new_year :
  datetime_now_year sample_env = 2024%Z
  /\ codes_of_year [old_deal] 2024 = []
  /\ exists saved,
       Deal_save [old_deal] sample_env
         (Deal_init 22 "New year" 50000 7 (Some 5%Z) (Some 6%Z)) None
       = Ok ([old_deal; saved], saved)
       /\ deal_code (own saved) = "DEAL-2024-006".
Proof.
  split; [reflexivity |]. split; [reflexivity |].
  eexists. split; [vm_compute; reflexivity | reflexivity].
Qed.

(** C3 (amended): the numbering is not reset per year.  A deal saved
    without a code gets [DEAL-<current year>-<suffix>]; the suffix is 001
    when no stored code of the form [DEAL-dddd-ddd] exists for any year,
    and otherwise one more than the suffix of the greatest stored code of
    that form in string order, whatever its year.  The allocation
    itself never fails, a deal that is saved carries the allocated
    code, and the save is carried out when the deal with the code passes
    validation. *)
Theorem deal_code_continues_across_years db env (self : Deal) :
  is_empty (deal_code (own self)) = true ->
  (matching_codes db = [] ->
   auto_deal_code db env = Ok (code_of (datetime_now_year env) 1))
  /\ (forall m, greatest_code db m ->
        auto_deal_code db env
        = Ok (code_of (datetime_now_year env) (code_suffix m + 1)))
  /\ (matching_codes db = [] \/ exists m, greatest_code db m)
  /\ (forall deals saved,
        Deal_save db env self None = Ok (deals, saved) ->
        auto_deal_code db env = Ok (deal_code (own saved)))
  /\ (forall code,
        auto_deal_code db env = Ok code ->
        Deal_full_clean db env (on_own (with_deal_code code) self) = Ok tt ->
        exists deals saved,
          Deal_save db env self None = Ok (deals, saved)
          /\ deal_code (own saved) = code).
Proof.
  intros Hempty. split.
  { intros Hnone. rewrite auto_deal_code_value, Hnone. reflexivity. }
  split.
  { intros m Hm. apply aggregate_Max_greatest in Hm.
    rewrite auto_deal_code_value, Hm. reflexivity. }
  split.
  { destruct (aggregate_Max (matching_codes db)) as [m |] eqn:Hmax.
    - right. exists m. apply aggregate_Max_greatest. exact Hmax.
    - left. apply aggregate_Max_None. exact Hmax. }
  split.
  { intros deals saved Hsave. rewrite (Deal_save_uncoded _ _ _ Hempty) in Hsave.
    apply bind_Ok in Hsave. destruct Hsave as ([] & _ & Hmodel).
    apply Model_save_full_inv in Hmodel. destruct Hmodel as (_ & -> & _).
    apply auto_deal_code_value. }
  intros code Hcode Hclean. rewrite auto_deal_code_value in Hcode.
  injection Hcode as <-. fold (continued_code db env) in Hclean |- *.
  rewrite (Deal_save_uncoded _ _ _ Hempty), Hclean. cbn [mbind Result_bind].
  destruct (Model_save_validated _ _ _ Hclean) as (deals & saved & -> & Hown).
  exists deals, saved. split; [reflexivity |]. rewrite Hown. reflexivity.
Qed.

Lemma deal_code_continues_across_years_witness :
  (matching_codes [old_deal] = [] ->
   auto_deal_code [old_deal] sample_env = Ok (code_of (datetime_now_year sample_env) 1))
  /\ (forall m, greatest_code [old_deal] m ->
        auto_deal_code [old_deal] sample_env
        = Ok (code_of (datetime_now_year sample_env) (code_suffix m + 1)))
  /\ (matching_codes [old_deal] = [] \/ exists m, greatest_code [old_deal] m)
  /\ (forall deals saved,
        Deal_save [old_deal] sample_env
          (Deal_init 22 "New year" 50000 7 (Some 5%Z) (Some 6%Z)) None
        = Ok (deals, saved) ->
        auto_deal_code [old_deal] sample_env = Ok (deal_code (own saved)))
  /\ (forall code,
        auto_deal_code [old_deal] sample_env = Ok code ->
        Deal_full_clean [old_deal] sample_env
          (on_own (with_deal_code code)
             (Deal_init 22 "New year" 50000 7 (Some 5%Z) (Some 6%Z))) = Ok tt ->
        exists deals saved,
          Deal_save [old_deal] sample_env
            (Deal_init 22 "New year" 50000 7 (Some 5%Z) (Some 6%Z)) None
          = Ok (deals, saved)
          /\ deal_code (own saved) = code).
Proof.
  apply (deal_code_continues_across_years [old_deal] sample_env
           (Deal_init 22 "New year" 50000 7 (Some 5%Z) (Some 6%Z))).
  reflexivity.
Defined.

(** C8: in 2024, on a deal table without deals, the code allocated first
    is [DEAL-2024-001], and once a deal with it is stored the code
    allocated next is [DEAL-2024-002].  Both saves are carried out, with
    these codes, for any two new deals with a title of 1 to 200
    characters, an amount the column can hold, an existing company and
    existing users as [created_by] and [assigned_to]. *)
Theorem first_two_deal_codes env1 env2 k1 k2 t1 t2 a1 a2 c1 c2 cb1 cb2 at1 at2 :
  datetime_now_year env1 = 2024%Z ->
  datetime_now_year env2 = 2024%Z ->
  k1 <> k2 ->
  negb (is_empty t1) && (String.length t1 <=? 200)%nat = true ->
  negb (is_empty t2) && (String.length t2 <=? 200)%nat = true ->
  (0 <=? a1)%Z && (a1 <? 10 ^ 15)%Z = true ->
  (0 <=? a2)%Z && (a2 <? 10 ^ 15)%Z = true ->
  Z_in c1 (company_ids env1) = true ->
  Z_in c2 (company_ids env2) = true ->
  required_key cb1 (user_ids env1) = true ->
  required_key at1 (user_ids env1) = true ->
  required_key cb2 (user_ids env2) = true ->
  required_key at2 (user_ids env2) = true ->
  auto_deal_code [] env1 = Ok "DEAL-2024-001"
  /\ exists d1 d2,
       Deal_save [] env1 (Deal_init k1 t1 a1 c1 cb1 at1) None = Ok ([d1], d1)
       /\ deal_code (own d1) = "DEAL-2024-001"
       /\ auto_deal_code [d1] env2 = Ok "DEAL-2024-002"
       /\ Deal_save [d1] env2 (Deal_init k2 t2 a2 c2 cb2 at2) None = Ok ([d1; d2], d2)
       /\ deal_code (own d2) = "DEAL-2024-002".
Proof.
  intros Hy1 Hy2 Hk Ht1 Ht2 Ha1 Ha2 Hco1 Hco2 Hcb1 Hat1 Hcb2 Hat2.
  assert (Hc1 : continued_code [] env1 = "DEAL-2024-001").
  { unfold continued_code. rewrite Hy1. reflexivity. }
  split; [rewrite auto_deal_code_value; fold (continued_code [] env1); rewrite Hc1;
          reflexivity |].
  eexists _, _. split.
  { rewrite Deal_save_insert; [reflexivity | reflexivity | reflexivity |].
    rewrite Hc1. apply Deal_full_clean_Ok. split; [| split].
    - unfold fields_ok. cbn. rewrite Ht1, Ha1, Hco1, Hcb1, Hat1. repeat split.
    - reflexivity.
    - split; reflexivity. }
  rewrite Hc1. split; [reflexivity |].
  match goal with
  | |- auto_deal_code ?db _ = _ /\ _ =>
      assert (Hc2 : continued_code db env2 = "DEAL-2024-002")
  end.
  { unfold continued_code. rewrite Hy2. reflexivity. }
  split; [rewrite auto_deal_code_value; f_equal; exact Hc2 |].
  split.
  { rewrite Deal_save_insert; [rewrite Hc2; reflexivity | reflexivity | |].
    - cbn. destruct (Z.eqb_spec k1 k2); [contradiction | reflexivity].
    - rewrite Hc2. apply Deal_full_clean_Ok. split; [| split].
      + unfold fields_ok. cbn. rewrite Ht2, Ha2, Hco2, Hcb2, Hat2. repeat split.
      + reflexivity.
      + split.
        * intros _. cbn. destruct (Z.eqb_spec k1 k2); [contradiction | reflexivity].
        * cbn. rewrite ?andb_false_r. reflexivity. }
  reflexivity.
Qed.

Lemma first_two_deal_codes_witness :
  auto_deal_code [] sample_env = Ok "DEAL-2024-001"
  /\ exists d1 d2,
       Deal_save [] sample_env (Deal_init 31 "First" 100000 7 (Some 5%Z) (Some 6%Z)) None
       = Ok ([d1], d1)
       /\ deal_code (own d1) = "DEAL-2024-001"
       /\ auto_deal_code [d1] sample_env = Ok "DEAL-2024-002"
       /\ Deal_save [d1] sample_env
            (Deal_init 32 "Second" 250000 8 (Some 6%Z) (Some 5%Z)) None
          = Ok ([d1; d2], d2)
       /\ deal_code (own d2) = "DEAL-2024-002".
Proof.
  apply (first_two_deal_codes sample_env sample_env 31 32 "First" "Second"
           100000 250000 7 8 (Some 5%Z) (Some 6%Z) (Some 6%Z) (Some 5%Z)).
  - reflexivity.
  - reflexivity.
  - lia.
  - reflexivity.
  - reflexivity.
  - reflexivity.
  - reflexivity.
  - reflexivity.
  - reflexivity.
  - reflexivity.
  - reflexivity.
  - reflexivity.
  - reflexivity.
Defined.

(** ** C9: Company.active_deals *)

(** C9: the literals ['won'] and ['lost'] that [active_deals] excludes are
    no stage of the enumeration.  So for deals whose stage is one of the
    enumeration the property returns, in the order of the table, exactly
    the deals of this company that are active, whatever their stage: a
    deal is in the result if and only if it is a deal of the table with
    this company that is active, and a deal in [closed_won] or
    [closed_lost] is among them. *)
Theorem active_deals_keeps_closed_deals (deals : list Deal) (self_pk : Z) :
  str_in "won" valid_stages = false
  /\ str_in "lost" valid_stages = false
  /\ ((forall d, In d deals -> str_in (stage (own d)) valid_stages = true) ->
      Company_active_deals deals self_pk
      = List.filter (fun d => Z.eqb (company (own d)) self_pk && is_active d) deals
      /\ forall d, In d (Company_active_deals deals self_pk)
                   <-> In d deals /\ company (own d) = self_pk /\ is_active d = true)
  /\ (forall d, In d deals -> company (own d) = self_pk -> is_active d = true ->
        is_closed d = true ->
        In d (Company_active_deals deals self_pk)).
Proof.
  split; [reflexivity |]. split; [reflexivity |]. split.
  - intros Hstages.
    assert (Heq : Company_active_deals deals self_pk
                  = List.filter (fun d => Z.eqb (company (own d)) self_pk && is_active d)
                      deals).
    { unfold Company_active_deals, Company_deals.
      induction deals as [| d deals IH]; [reflexivity |].
      assert (Hd : str_in (stage (own d)) valid_stages = true)
        by (apply Hstages; left; reflexivity).
      assert (IH' := IH (fun x Hx => Hstages x (or_intror Hx))).
      cbn [List.filter]. destruct (Z.eqb (company (own d)) self_pk); [| exact IH'].
      cbn [List.filter andb]. destruct (is_active d); [| exact IH'].
      cbn [List.filter].
      replace (negb _) with true; [f_equal; exact IH' |].
      clear - Hd. one_of Hd; rewrite Hd; reflexivity. }
    split; [exact Heq |]. intros d. rewrite Heq, filter_In, andb_true_iff, Z.eqb_eq.
    tauto.
  - intros d Hin Hcompany Hactive Hclosed.
    unfold Company_active_deals, Company_deals.
    apply filter_In. split.
    + apply filter_In. split; [| exact Hactive].
      apply filter_In. split; [exact Hin | apply Z.eqb_eq; exact Hcompany].
    + unfold is_closed in Hclosed. one_of Hclosed; rewrite Hclosed; reflexivity.
Qed.

Lemma active_deals_keeps_closed_deals_witness :
  In won_deal (Company_active_deals [won_deal; qualified_deal; late_deal] 7).
Proof.
  apply (proj2 (proj2 (proj2 (active_deals_keeps_closed_deals
                                 [won_deal; qualified_deal; late_deal] 7)))).
  - left. reflexivity.
  - reflexivity.
  - reflexivity.
  - reflexivity.
Defined.

(** ** C10: soft delete and restore write two columns *)

Section SoftDeleteFrame.
Context {F : Type}.
Variable assign_own : string -> F -> F -> option F.
Variable before_super : list (Entity F) -> Env -> Entity F -> Result (Entity F).

Lemma get_row_update_row_other (db : list (Entity F)) (row : Entity F) (key : Z) :
key <> pk row -> get_row (update_row db row) key = get_row db key.
Proof.
intros Hne. unfold get_row, update_row.
induction db as [| x db IH]; [reflexivity |]. cbn.
destruct (Z.eqb_spec (pk x) (pk row)) as [Heq | Hneq]; cbn.
- destruct (Z.eqb_spec (pk row) key) as [Hk | _]; [congruence |].
  destruct (Z.eqb_spec (pk x) key) as [Hk | _]; [congruence | exact IH].
- destruct (Z.eqb (pk x) key); [reflexivity | exact IH].
Qed.

Lemma soft_columns_written (flag : bool) (stamp : option Z)
  (db : list (Entity F)) env (self row : Entity F) deals self' :
keeps_mixin_attributes before_super ->
get_row db (pk self) = Some row ->
save assign_own before_super db env (set_deleted_at stamp (set_is_active flag self))
  (Some ["is_active"; "deleted_at"]) = Ok (deals, self') ->
adding self = false
/\ deals = update_row db (set_deleted_at stamp (set_is_active flag row))
/\ get_row deals (pk self) = Some (set_deleted_at stamp (set_is_active flag row))
/\ forall key, key <> pk self -> get_row deals key = get_row db key.
Proof.
intros Hkeep Hrow Hsave. unfold save in Hsave.
apply bind_Ok in Hsave. destruct Hsave as (self1 & Hbefore & Hmodel).
apply Hkeep in Hbefore. cbn in Hbefore. destruct Hbefore as (Hpk & Hact & Hdel & Hadd).
apply Model_save_soft_columns_inv in Hmodel.
rewrite Hpk, Hact, Hdel, Hadd in Hmodel.
destruct Hmodel as [(Hadding & _ & row' & Hrow' & ->) | (_ & Hnone & _)];
  [| rewrite Hnone in Hrow; discriminate Hrow].
rewrite Hrow in Hrow'. injection Hrow' as <-.
destruct (get_row_Some _ _ _ Hrow) as [_ Hkey].
split; [exact Hadding |]. split; [reflexivity |]. split.
- rewrite <- Hkey.
  apply (get_row_update_row db (set_deleted_at stamp (set_is_active flag row)) row).
  cbn. rewrite Hkey. exact Hrow.
- intros key Hne. apply get_row_update_row_other. cbn. congruence.
Qed.

Lemma soft_columns_saved (flag : bool) (stamp : option Z)
    (db : list (Entity F)) env (self self1 row : Entity F) :
  keeps_mixin_attributes before_super ->
  adding self = false ->
  before_super db env (set_deleted_at stamp (set_is_active flag self)) = Ok self1 ->
  get_row db (pk self) = Some row ->
  save assign_own before_super db env (set_deleted_at stamp (set_is_active flag self))
    (Some ["is_active"; "deleted_at"])
  = Ok (update_row db (set_deleted_at stamp (set_is_active flag row)), self1).
Proof.
  intros Hkeep Hadding Hbefore Hrow. unfold save. rewrite Hbefore.
  cbn [mbind Result_bind].
  apply Hkeep in Hbefore. cbn in Hbefore. destruct Hbefore as (Hpk & Hact & Hdel & Hadd).
  rewrite (Model_save_soft_columns assign_own db env self1 row).
  - rewrite Hact, Hdel. reflexivity.
  - rewrite Hadd. exact Hadding.
  - rewrite Hpk. exact Hrow.
Qed.

Lemma soft_columns_inserted (flag : bool) (stamp : option Z)
    (db : list (Entity F)) env (self : Entity F) deals self' :
  keeps_mixin_attributes before_super ->
  get_row db (pk self) = None ->
  save assign_own before_super db env (set_deleted_at stamp (set_is_active flag self))
    (Some ["is_active"; "deleted_at"]) = Ok (deals, self') ->
  adding self = true
  /\ deals = db ++ [self']
  /\ pk self' = pk self /\ is_active self' = flag /\ deleted_at self' = stamp.
Proof.
  intros Hkeep Hnone Hsave. unfold save in Hsave.
  apply bind_Ok in Hsave. destruct Hsave as (self1 & Hbefore & Hmodel).
  apply Hkeep in Hbefore. cbn in Hbefore. destruct Hbefore as (Hpk & Hact & Hdel & Hadd).
  apply Model_save_soft_columns_inv in Hmodel.
  rewrite Hpk, Hadd in Hmodel.
  destruct Hmodel as [(_ & _ & row' & Hrow' & _) | (Hadding & _ & -> & ->)];
    [rewrite Hnone in Hrow'; discriminate Hrow' |].
  split; [exact Hadding |]. split; [reflexivity |]. cbn. auto.
Qed.

(** C10: for every model with the soft-delete mixin and every stored
    entity, a [soft_delete] that is carried out rewrites the stored row
    to the same row with [is_active] false and [deleted_at] the current
    time, and a [restore] to the same row with [is_active] true and
    [deleted_at] empty.  Every other column keeps its stored value,
    whatever the instance holds in memory, and every other row is as
    before.  Both are carried out whenever the instance was read from the
    store and the model's own [save] accepts it.  Only an instance that
    was never saved and has no row is written whole, as a new row with
    these two values. *)
Theorem soft_delete_restore_frame (db : list (Entity F)) env (self : Entity F) :
  keeps_mixin_attributes before_super ->
  (forall row,
     get_row db (pk self) = Some row ->
     (forall deals self',
        soft_delete assign_own before_super db env self = Ok (deals, self') ->
        adding self = false
        /\ deals = update_row db
                     (set_deleted_at (Some (timezone_now env)) (set_is_active false row))
        /\ get_row deals (pk self)
           = Some (set_deleted_at (Some (timezone_now env)) (set_is_active false row))
        /\ forall key, key <> pk self -> get_row deals key = get_row db key)
     /\ (forall deals self',
           restore assign_own before_super db env self = Ok (deals, self') ->
           adding self = false
           /\ deals = update_row db (set_deleted_at None (set_is_active true row))
           /\ get_row deals (pk self)
              = Some (set_deleted_at None (set_is_active true row))
           /\ forall key, key <> pk self -> get_row deals key = get_row db key)
     /\ (forall self1,
           adding self = false ->
           (before_super db env
              (set_deleted_at (Some (timezone_now env)) (set_is_active false self))
            = Ok self1 ->
            exists deals, soft_delete assign_own before_super db env self = Ok (deals, self1))
           /\ (before_super db env (set_deleted_at None (set_is_active true self))
               = Ok self1 ->
               exists deals, restore assign_own before_super db env self = Ok (deals, self1))))
  /\ (get_row db (pk self) = None ->
      (forall deals self',
         soft_delete assign_own before_super db env self = Ok (deals, self') ->
         adding self = true /\ deals = db ++ [self'] /\ pk self' = pk self
         /\ is_active self' = false /\ deleted_at self' = Some (timezone_now env))
      /\ (forall deals self',
            restore assign_own before_super db env self = Ok (deals, self') ->
            adding self = true /\ deals = db ++ [self'] /\ pk self' = pk self
            /\ is_active self' = true /\ deleted_at self' = None)).
Proof.
  intros Hkeep. split.
  - intros row Hrow. split; [| split].
    + intros deals self' Hcall.
      apply (soft_columns_written false (Some (timezone_now env)) db env self row
               deals self' Hkeep Hrow).
      exact Hcall.
    + intros deals self' Hcall.
      apply (soft_columns_written true None db env self row deals self' Hkeep Hrow).
      exact Hcall.
    + intros self1 Hadding. split; intros Hbefore; eexists.
      * apply (soft_columns_saved false (Some (timezone_now env)) db env self self1 row
                 Hkeep Hadding Hbefore Hrow).
      * apply (soft_columns_saved true None db env self self1 row Hkeep Hadding Hbefore Hrow).
  - intros Hnone. split; intros deals self' Hcall.
    + apply (soft_columns_inserted false (Some (timezone_now env)) db env self
               deals self' Hkeep Hnone).
      exact Hcall.
    + apply (soft_columns_inserted true None db env self deals self' Hkeep Hnone).
      exact Hcall.
Qed.
End SoftDeleteFrame.

Lemma Deal_keeps_mixin_attributes : keeps_mixin_attributes Deal_before_super.
Proof.
  intros db env self self' H. apply Deal_before_super_inv in H.
  destruct H as (_ & Hpk & _ & _ & Hact & Hdel & Hadd & _). auto.
Qed.

Lemma soft_delete_restore_frame_witness :
  Deal_soft_delete [won_deal; qualified_deal] sample_env edited_deal
  = Ok (table_after_soft_delete,
        set_deleted_at (Some 1718000000%Z) (set_is_active false edited_deal))
  /\ adding edited_deal = false
  /\ table_after_soft_delete
     = update_row [won_deal; qualified_deal]
         (set_deleted_at (Some (timezone_now sample_env))
            (set_is_active false qualified_deal))
  /\ get_row table_after_soft_delete (pk edited_deal)
     = Some (set_deleted_at (Some (timezone_now sample_env))
               (set_is_active false qualified_deal))
  /\ forall key, key <> pk edited_deal ->
       get_row table_after_soft_delete key = get_row [won_deal; qualified_deal] key.
Proof.
  assert (Hcall :
    Deal_soft_delete [won_deal; qualified_deal] sample_env edited_deal
    = Ok (table_after_soft_delete,
          set_deleted_at (Some 1718000000%Z) (set_is_active false edited_deal))).
  { vm_compute. reflexivity. }
  split; [exact Hcall |].
  apply (proj1 (proj1 (soft_delete_restore_frame Deal_assign_own Deal_before_super
                         [won_deal; qualified_deal] sample_env edited_deal
                         Deal_keeps_mixin_attributes)
                  qualified_deal eq_refl)
           table_after_soft_delete
           (set_deleted_at (Some 1718000000%Z) (set_is_active false edited_deal))).
  exact Hcall.
Defined.

(** * Further properties *)

(** ** Closing a deal through the model *)

Lemma Deal_save_full_own db env (self : Deal) deals saved :
  Deal_save db env self None = Ok (deals, saved) ->
  own saved = with_deal_code (deal_code (own saved)) (own self)
  /\ pk saved = pk self
  /\ is_active saved = is_active self
  /\ deleted_at saved = deleted_at self.
Proof.
  intros Hsave.
  destruct (Deal_save_inv _ _ _ _ _ _ Hsave) as (self1 & Hbefore & Hmodel).
  apply Deal_before_super_inv in Hbefore.
  destruct Hbefore as (_ & Hpk1 & _ & _ & Hact1 & Hdel1 & _ & Hown1).
  apply Model_save_full_inv in Hmodel.
  destruct Hmodel as (Hpk & Hown & Hact & Hdel & _).
  repeat split; try congruence.
  rewrite Hown. destruct (is_empty _) in Hown1.
  - destruct Hown1 as (code & _ & ->). reflexivity.
  - rewrite Hown1. destruct (own self). reflexivity.
Qed.

Lemma closing_stage_valid (s : string) :
  str_in s ["closed_won"; "closed_lost"] = true -> str_in s valid_stages = true.
Proof. intros H. one_of H; rewrite H; reflexivity. Qed.

(** [close_deal] saves the very deal [change_stage] would save. *)
Lemma close_deal_staged db env (d0 : Deal) s data :
  str_in s ["closed_won"; "closed_lost"] = true ->
  close_deal db env d0 s (default EmptyString (data !! "lost_reason"))
    (default EmptyString (data !! "lost_notes"))
  = Deal_save db env (staged env data s d0) None.
Proof.
  intros H. unfold close_deal. rewrite H. cbn [negb].
  one_of H; subst s; reflexivity.
Qed.

Lemma closing_data_lookup s reason n :
  closing_data s reason n !! "stage" = Some s
  /\ closing_data s reason n !! "lost_reason" = Some reason
  /\ closing_data s reason n !! "lost_notes" = Some n.
Proof.
  unfold closing_data. split; [| split].
  - apply lookup_insert_eq.
  - rewrite lookup_insert_ne by discriminate. apply lookup_insert_eq.
  - rewrite !lookup_insert_ne by discriminate. apply lookup_singleton_eq.
Qed.


(** X1: [close_deal] refuses every stage that is not [closed_won] or
    [closed_lost] with a [ValidationError].  When it returns, the deal
    stored under the instance's key is closed with the requested stage,
    [actual_close_date] today and probability 100 (won) or 0 (lost),
    within its band.  It returns whenever the instance passes
    [full_clean] beforehand (company and both users set and existing
    among the rest), its expected close date is not after today and, for
    [closed_lost], the reason is empty or one of the choices; a deal
    whose [created_by] is empty is refused. *)
Theorem close_deal_outcome db env (self : Deal) st reason lost_notes' :
  (str_in st ["closed_won"; "closed_lost"] = false ->
   close_deal db env self st reason lost_notes' = Raise (ValidationError ["__all__"]))
  /\ (forall deals saved,
        close_deal db env self st reason lost_notes' = Ok (deals, saved) ->
        get_row deals (pk self) = Some saved
        /\ is_closed saved = true
        /\ stage (own saved) = st
        /\ actual_close_date (own saved) = Some (timezone_today env)
        /\ probability (own saved) = (if String.eqb st "closed_won" then 100 else 0)%Z
        /\ in_band saved
        /\ required_key (created_by (own saved)) (user_ids env) = true
        /\ required_key (assigned_to (own saved)) (user_ids env) = true)
  /\ (Deal_full_clean db env self = Ok tt ->
      str_in st ["closed_won"; "closed_lost"] = true ->
      close_date_allows env self ->
      (st = "closed_lost" -> lost_reason_accepted reason) ->
      exists deals saved, close_deal db env self st reason lost_notes' = Ok (deals, saved))
  /\ (created_by (own self) = None \/ assigned_to (own self) = None ->
      exists fields,
        close_deal db env self st reason lost_notes' = Raise (ValidationError fields)).
Proof.
  split; [| split; [| split]].
  - intros H. unfold close_deal. rewrite H. reflexivity.
  - intros deals saved Hclose. unfold close_deal in Hclose.
    destruct (str_in st _) eqn:Hst; cbn [negb] in Hclose; [| discriminate Hclose].
    destruct (Deal_save_full_band _ _ _ _ _ Hclose) as (Hrow & Hband & _).
    destruct (Deal_save_full_own _ _ _ _ _ Hclose) as (Hown & _).
    assert (Husers : required_key (created_by (own saved)) (user_ids env) = true
                     /\ required_key (assigned_to (own saved)) (user_ids env) = true).
    { destruct (Deal_save_inv _ _ _ _ _ _ Hclose) as (self1 & Hbefore & Hmodel).
      apply Deal_before_super_inv in Hbefore. destruct Hbefore as (Hclean & _).
      apply Model_save_full_inv in Hmodel. destruct Hmodel as (_ & -> & _).
      apply Deal_full_clean_Ok in Hclean. destruct Hclean as (Hf & _).
      unfold fields_ok in Hf. tauto. }
    match type of Hrow with
    | get_row _ (pk ?x) = _ =>
        replace (pk x) with (pk self) in Hrow
          by (destruct (String.eqb st "closed_lost"); reflexivity)
    end.
    split; [exact Hrow |].
    split; [| split; [| split; [| split; [| split; [exact Hband | exact Husers]]]]].
    + unfold is_closed. rewrite Hown. one_of Hst; subst st; reflexivity.
    + rewrite Hown. one_of Hst; subst st; reflexivity.
    + rewrite Hown. one_of Hst; subst st; reflexivity.
    + rewrite Hown. one_of Hst; subst st; reflexivity.
  - intros Hvalid Hst Hdate Hlost.
    destruct (closing_data_lookup st reason lost_notes') as (_ & Hr & Hn).
    pose proof (close_deal_staged db env self st (closing_data st reason lost_notes') Hst)
      as Heq.
    rewrite Hr, Hn in Heq. cbn [default from_option id] in Heq. rewrite Heq.
    assert (Hclean : Deal_full_clean db env
                       (staged env (closing_data st reason lost_notes') st self) = Ok tt).
    { apply staged_valid; [exact Hvalid | apply closing_stage_valid; exact Hst | |].
      - intros _. exact Hdate.
      - intros E. rewrite Hr. apply Hlost. exact E. }
    unfold Deal_save, save. rewrite Deal_before_super_coded; [| | exact Hclean].
    + cbn [mbind Result_bind].
      destruct (Model_save_validated _ _ _ Hclean) as (deals & saved & -> & _).
      exists deals, saved. reflexivity.
    + destruct (staged_frame env (closing_data st reason lost_notes') st self)
        as (_ & _ & _ & _ & _ & _ & -> & _).
      apply Deal_full_clean_Ok in Hvalid. destruct Hvalid as (Hf & _).
      apply fields_ok_coded in Hf. exact Hf.
  - intros Hnone. unfold close_deal.
    destruct (str_in st _) eqn:Hst; cbn [negb]; [| eexists; reflexivity].
    match goal with
    | |- context [Deal_save db env ?d None] =>
        destruct (Deal_save db env d None) as [[deals saved] | e] eqn:Hsave
    end.
    + exfalso.
      destruct (Deal_save_full_own _ _ _ _ _ Hsave) as (Hown & _).
      destruct (Deal_save_inv _ _ _ _ _ _ Hsave) as (self1 & Hbefore & Hmodel).
      apply Deal_before_super_inv in Hbefore. destruct Hbefore as (Hclean & _).
      apply Model_save_full_inv in Hmodel. destruct Hmodel as (_ & Hown1 & _).
      apply Deal_full_clean_Ok in Hclean. destruct Hclean as (Hf & _).
      unfold fields_ok in Hf. rewrite <- Hown1, Hown in Hf.
      destruct Hf as (_ & _ & _ & _ & _ & _ & _ & _ & _ & _ & Hcb & Hat & _).
      assert (Hc : created_by (own self) <> None /\ assigned_to (own self) <> None).
      { clear - Hcb Hat Hst.
        destruct (String.eqb st "closed_lost"); cbn in Hcb, Hat;
          destruct (created_by (own self)), (assigned_to (own self));
          try discriminate Hcb; try discriminate Hat; split; discriminate. }
      destruct Hc as [Hc1 Hc2]. destruct Hnone; contradiction.
    + unfold Deal_save, save in Hsave.
      match type of Hsave with
      | context [Deal_before_super db env ?d] =>
          destruct (Deal_before_super db env d) as [self1 |e1] eqn:Hbefore
      end; cbn [mbind Result_bind] in Hsave.
      * exfalso. pose proof Hbefore as Hb.
        apply Deal_before_super_inv in Hb. destruct Hb as (Hclean & _).
        destruct (Model_save_validated _ _ _ Hclean) as (deals & saved & Hm & _).
        rewrite Hm in Hsave. discriminate Hsave.
      * injection Hsave as <-. unfold Deal_before_super in Hbefore.
        destruct (is_empty _) in Hbefore.
        -- rewrite auto_deal_code_value in Hbefore. cbn [mbind Result_bind] in Hbefore.
           match type of Hbefore with
           | context [Deal_full_clean db env ?d] =>
               destruct (Deal_full_clean db env d) as [[] | e2] eqn:Hclean
           end; cbn [mbind Result_bind] in Hbefore; [discriminate Hbefore |].
           injection Hbefore as <-. apply Deal_full_clean_raises in Hclean.
           destruct Hclean as [fields ->]. exists fields. reflexivity.
        -- cbn [mbind Result_bind] in Hbefore.
           match type of Hbefore with
           | context [Deal_full_clean db env ?d] =>
               destruct (Deal_full_clean db env d) as [[] | e2] eqn:Hclean
           end; cbn [mbind Result_bind] in Hbefore; [discriminate Hbefore |].
           injection Hbefore as <-. apply Deal_full_clean_raises in Hclean.
           destruct Hclean as [fields ->]. exists fields. reflexivity.
Qed.

Lemma close_deal_outcome_witness :
  exists deals saved,
    close_deal (deal_table sample_store) sample_env qualified_deal "closed_lost"
      "price" "too expensive" = Ok (deals, saved).
Proof.
  apply (proj1 (proj2 (proj2 (close_deal_outcome (deal_table sample_store) sample_env
                                qualified_deal "closed_lost" "price" "too expensive")))).
  - reflexivity.
  - reflexivity.
  - exact I.
  - intros _. reflexivity.
Defined.




(** ** Soft-deleted deals *)

Section FlaggedRows.
Context {F : Type}.
Implicit Types (db : list (Entity F)) (row : Entity F).

Lemma update_row_twice db (a b : Entity F) :
  pk a = pk b -> update_row (update_row db a) b = update_row db b.
Proof.
  intros Hpk. unfold update_row. rewrite List.map_map. apply List.map_ext.
  intros x. rewrite Hpk. destruct (Z.eqb (pk x) (pk b)) eqn:E.
  - rewrite <- Hpk at 1. rewrite Z.eqb_refl. reflexivity.
  - rewrite E. reflexivity.
Qed.

Lemma update_row_same db row :
  (forall r, In r db -> pk r = pk row -> r = row) -> update_row db row = db.
Proof.
  intros Huniq. unfold update_row. induction db as [| x db IH]; [reflexivity |].
  cbn [List.map]. rewrite IH by (intros r Hr; apply Huniq; right; exact Hr).
  destruct (Z.eqb_spec (pk x) (pk row)) as [E | _]; [| reflexivity].
  rewrite (Huniq x (or_introl eq_refl) E). reflexivity.
Qed.

Lemma NoDup_pk_unique db row :
  NoDup (List.map pk db) -> In row db ->
  forall r, In r db -> pk r = pk row -> r = row.
Proof.
  induction db as [| x db IH]; [intros _ []|].
  cbn [List.map]. intros Hnd Hrow r Hr Hpk.
  apply NoDup_cons in Hnd. destruct Hnd as [Hx Hnd].
  destruct Hrow as [-> | Hrow], Hr as [-> | Hr]; try reflexivity.
  - exfalso. apply Hx, list_elem_of_In. rewrite <- Hpk. apply in_map. exact Hr.
  - exfalso. apply Hx, list_elem_of_In. rewrite Hpk. apply in_map. exact Hrow.
  - apply IH; assumption.
Qed.
End FlaggedRows.


(** ** Soft delete, then restore *)

Section RoundTrip.
Context {F : Type}.
Variable assign_own : string -> F -> F -> option F.
Variable before_super : list (Entity F) -> Env -> Entity F -> Result (Entity F).

(** X4: [restore] undoes [soft_delete].  When an active row that was
    never deleted is soft-deleted and an instance of the same key is then
    restored, the row stored under the key is the original row again,
    whatever the two instances held in memory, and every other key reads
    as before; with unique primary keys the whole table is the original
    one. *)
Theorem soft_delete_then_restore (db db1 db2 : list (Entity F)) env env'
    (self self' s1 s2 row : Entity F) :
  keeps_mixin_attributes before_super ->
  get_row db (pk self) = Some row ->
  is_active row = true ->
  deleted_at row = None ->
  pk self' = pk self ->
  soft_delete assign_own before_super db env self = Ok (db1, s1) ->
  restore assign_own before_super db1 env' self' = Ok (db2, s2) ->
  get_row db2 (pk self) = Some row
  /\ (forall key, key <> pk self -> get_row db2 key = get_row db key)
  /\ (NoDup (List.map pk db) -> db2 = db).
Proof.
  intros Hkeep Hrow Hact Hdel Hpk1 Hsoft Hrest.
  unfold soft_delete in Hsoft. unfold restore in Hrest.
  apply (soft_columns_written assign_own before_super _ _ _ _ _ row _ _ Hkeep Hrow)
    in Hsoft.
  destruct Hsoft as (_ & Hdb1 & Hget1 & Hother1).
  rewrite <- Hpk1 in Hget1.
  apply (soft_columns_written assign_own before_super _ _ _ _ _ _ _ _ Hkeep Hget1)
    in Hrest.
  destruct Hrest as (_ & Hdb2 & Hget2 & Hother2).
  rewrite Hpk1 in Hget2, Hother2.
  assert (Hsame : set_deleted_at None
                    (set_is_active true
                       (set_deleted_at (Some (timezone_now env))
                          (set_is_active false row)))
                  = row).
  { destruct row. cbn in Hact, Hdel. subst. reflexivity. }
  rewrite Hsame in Hdb2, Hget2.
  split; [exact Hget2 |]. split.
  - intros key Hne. rewrite Hother2, Hother1 by exact Hne. reflexivity.
  - intros Hnd. rewrite Hdb2, Hdb1.
    rewrite update_row_twice by reflexivity.
    apply update_row_same.
    destruct (get_row_Some _ _ _ Hrow) as [Hin _].
    apply NoDup_pk_unique; assumption.
Qed.
End RoundTrip.


Lemma soft_delete_then_restore_witness :
  get_row (update_row table_after_soft_delete qualified_deal) (pk edited_deal)
  = Some qualified_deal
  /\ (forall key, key <> pk edited_deal ->
        get_row (update_row table_after_soft_delete qualified_deal) key
        = get_row [won_deal; qualified_deal] key)
  /\ (NoDup (List.map pk [won_deal; qualified_deal]) ->
      update_row table_after_soft_delete qualified_deal = [won_deal; qualified_deal]).
Proof.
  apply (soft_delete_then_restore Deal_assign_own Deal_before_super
           [won_deal; qualified_deal] table_after_soft_delete
           (update_row table_after_soft_delete qualified_deal)
           sample_env sample_env edited_deal qualified_deal
           (set_deleted_at (Some 1718000000%Z) (set_is_active false edited_deal))
           (set_deleted_at None (set_is_active true qualified_deal))
           qualified_deal Deal_keeps_mixin_attributes).
  - reflexivity.
  - reflexivity.
  - reflexivity.
  - reflexivity.
  - vm_compute. reflexivity.
  - vm_compute. reflexivity.
Defined.

(** ** Derived values of a deal *)

(** X5: for a deal that passes validation the weighted amount lies
    between 0 and the amount; it is at least 95 percent of the amount for
    a won deal and at most 5 percent for a lost one. *)
Theorem weighted_amount_bounds db env (d : Deal) :
  Deal_full_clean db env d = Ok tt ->
  (0 <= weighted_amount d <= 100 * amount (own d))%Z
  /\ (stage (own d) = "closed_won" -> (95 * amount (own d) <= weighted_amount d)%Z)
  /\ (stage (own d) = "closed_lost" -> (weighted_amount d <= 5 * amount (own d))%Z).
Proof.
  intros Hclean. pose proof (Deal_full_clean_band db env d Hclean) as Hband.
  apply Deal_full_clean_Ok in Hclean.
  destruct Hclean as ((_ & _ & Ha & _ & _ & Hp & _) & _).
  apply andb_prop in Ha. destruct Ha as [Ha _]. apply Z.leb_le in Ha.
  apply andb_prop in Hp. destruct Hp as [Hp0 Hp1]. apply Z.leb_le in Hp0, Hp1.
  unfold weighted_amount. split; [nia |]. split; intros Hst.
  - unfold in_band, spec_probability_band in Hband. rewrite Hst in Hband.
    repeat (destruct Hband as [[E Hr] | Hband]; [try discriminate E; nia |]).
    destruct Hband as [E _]. discriminate E.
  - unfold in_band, spec_probability_band in Hband. rewrite Hst in Hband.
    repeat (destruct Hband as [[E Hr] | Hband]; [try discriminate E; nia |]).
    destruct Hband as [E _]. discriminate E.
Qed.

Lemma weighted_amount_bounds_witness :
  (0 <= weighted_amount won_deal <= 100 * amount (own won_deal))%Z
  /\ (stage (own won_deal) = "closed_won" ->
      (95 * amount (own won_deal) <= weighted_amount won_deal)%Z)
  /\ (stage (own won_deal) = "closed_lost" ->
      (weighted_amount won_deal <= 5 * amount (own won_deal))%Z).
Proof.
  apply (weighted_amount_bounds (deal_table sample_store) sample_env won_deal).
  reflexivity.
Defined.

(** ** Phone numbers and web sites *)

Lemma re_repeat_spec (p : ascii -> bool) (rest : string -> bool) (lo hi : nat) (s : string) :
  re_repeat p rest lo hi s = true <->
  exists pre post,
    s = pre +:+ post /\ all_chars p pre = true
    /\ (lo <= String.length pre <= hi)%nat /\ rest post = true.
Proof.
  revert lo s. induction hi as [| hi IH]; intros lo s; cbn [re_repeat].
  - split.
    + intros H. apply andb_prop in H. destruct H as [Hlo Hrest].
      apply Nat.eqb_eq in Hlo. exists EmptyString, s. cbn. repeat split; try lia; assumption.
    + intros (pre & post & -> & _ & Hlen & Hrest).
      destruct pre; cbn in Hlen; [| lia].
      change (EmptyString +:+ post) with post.
      replace lo with 0%nat by lia. exact Hrest.
  - split.
    + intros H. apply orb_prop in H. destruct H as [H | H].
      * apply andb_prop in H. destruct H as [Hlo Hrest]. apply Nat.eqb_eq in Hlo.
        exists EmptyString, s. cbn. repeat split; try lia; assumption.
      * destruct s as [| c s']; [discriminate H |].
        apply andb_prop in H. destruct H as [Hc H]. apply IH in H.
        destruct H as (pre & post & -> & Hall & Hlen & Hrest).
        exists (String c pre), post. cbn. rewrite Hc, Hall.
        repeat split; try lia; assumption.
    + intros (pre & post & -> & Hall & Hlen & Hrest).
      destruct pre as [| c pre]; cbn in Hall, Hlen.
      * change (EmptyString +:+ post) with post.
        replace lo with 0%nat by lia. cbn. rewrite Hrest. reflexivity.
      * change (String c pre +:+ post) with (String c (pre +:+ post)).
        apply andb_prop in Hall. destruct Hall as [Hc Hall]. rewrite Hc.
        apply orb_true_intro. right. cbn. apply IH.
        exists pre, post. repeat split; try lia; assumption.
Qed.

Lemma at_most_one_char (c : ascii) (s : string) :
  all_chars (Ascii.eqb c) s = true /\ (String.length s <= 1)%nat
  <-> s = EmptyString \/ s = String c EmptyString.
Proof.
  split.
  - intros [Hall Hlen]. destruct s as [| x s]; [left; reflexivity |].
    destruct s; [| cbn in Hlen; lia]. cbn in Hall.
    apply andb_prop in Hall. destruct Hall as [Hx _]. apply Ascii.eqb_eq in Hx.
    subst x. right. reflexivity.
  - intros [-> | ->]; cbn; [split; [reflexivity | lia] |].
    rewrite Ascii.eqb_refl. split; [reflexivity | lia].
Qed.

Lemma re_end_spec (s : string) :
  re_end s = true <-> s = EmptyString \/ s = String "010" EmptyString.
Proof.
  destruct s as [| c [| c' s]]; cbn.
  - split; [left; reflexivity | reflexivity].
  - split.
    + intros H. apply Ascii.eqb_eq in H. subst c. right. reflexivity.
    + intros [H | H]; [discriminate H |]. injection H as ->. reflexivity.
  - split; [discriminate | intros [H | H]; discriminate H].
Qed.

Lemma all_chars_is_digit (s : string) : all_chars is_digit s = all_digits s.
Proof. induction s as [| c s IH]; [reflexivity |]. cbn. rewrite IH. reflexivity. Qed.

Lemma phone_pattern_match_shape (s : string) :
  phone_pattern_match s = true <-> phone_shape s.
Proof.
  unfold phone_pattern_match, phone_shape. rewrite re_repeat_spec. split.
  - intros (plus & r1 & -> & Hplus & Hlen1 & H).
    apply re_repeat_spec in H. destruct H as (one & r2 & -> & Hone & Hlen2 & H).
    apply re_repeat_spec in H. destruct H as (digits & tail & -> & Hd & Hlen3 & H).
    exists plus, one, digits, tail. split; [reflexivity |].
    split; [apply at_most_one_char; split; [exact Hplus | lia] |].
    split; [apply at_most_one_char; split; [exact Hone | lia] |].
    split; [exact Hd |]. split; [exact Hlen3 |]. apply re_end_spec. exact H.
  - intros (plus & one & digits & tail & -> & Hplus & Hone & Hd & Hlen & Htail).
    apply at_most_one_char in Hplus, Hone.
    exists plus, (one +:+ digits +:+ tail). split; [reflexivity |].
    split; [apply Hplus |]. split; [lia |].
    apply re_repeat_spec. exists one, (digits +:+ tail). split; [reflexivity |].
    split; [apply Hone |]. split; [lia |].
    apply re_repeat_spec. exists digits, tail. split; [reflexivity |].
    split; [exact Hd |]. split; [exact Hlen |]. apply re_end_spec. exact Htail.
Qed.

Lemma length_append (a b : string) :
  String.length (a +:+ b) = (String.length a + String.length b)%nat.
Proof.
  induction a as [| c a IH]; [reflexivity |].
  change (String c a +:+ b) with (String c (a +:+ b)).
  cbn [String.length]. rewrite IH. reflexivity.
Qed.

(** X8: the phone rule of [Company.clean] and [Contact.clean].  The
    pattern admits exactly an optional plus sign, an optional 1 and nine
    to fifteen digits, with a final newline let through; such a text has
    9 to 18 characters.  [Company.clean] succeeds exactly when the phone
    is blank or has that shape once spaces and dashes are removed, and
    [Contact.clean] exactly when this holds of both [phone] and
    [mobile]. *)
Theorem phone_rule :
  (forall s, phone_pattern_match s = true <-> phone_shape s)
  /\ (forall s, phone_shape s -> (9 <= String.length s <= 18)%nat)
  /\ (forall self,
        (exists self', Company_clean self = Ok self') <-> phone_field_ok (phone self))
  /\ (forall contact_phone mobile,
        Contact_clean contact_phone mobile = Ok tt
        <-> phone_field_ok contact_phone /\ phone_field_ok mobile).
Proof.
  split; [exact phone_pattern_match_shape |]. split; [| split].
  - intros s (plus & one & digits & tail & -> & Hplus & Hone & _ & Hlen & Htail).
    rewrite !length_append.
    destruct Hplus as [-> | ->], Hone as [-> | ->], Htail as [-> | ->]; cbn; lia.
  - intros self. unfold Company_clean, phone_field_ok.
    rewrite <- phone_pattern_match_shape.
    generalize (phone_pattern_match (remove_char "-" (remove_char " " (phone self)))).
    generalize (has_text (phone self)).
    intros given matched. destruct given, matched; cbn [negb mbind Result_bind].
    + split; [intros _ _; reflexivity | intros _; destruct (_ && _); eauto].
    + split; [intros [self' H]; discriminate H | intros H; discriminate (H eq_refl)].
    + split; [intros _ H; discriminate H | intros _; destruct (_ && _); eauto].
    + split; [intros _ H; discriminate H | intros _; destruct (_ && _); eauto].
  - intros contact_phone mobile. unfold Contact_clean, phone_field_ok.
    rewrite <- !phone_pattern_match_shape.
    generalize (phone_pattern_match (remove_char "-" (remove_char " " contact_phone))).
    generalize (has_text contact_phone).
    generalize (phone_pattern_match (remove_char "-" (remove_char " " mobile))).
    generalize (has_text mobile).
    intros given2 matched2 given1 matched1.
    destruct given1, matched1, given2, matched2; cbn [negb mbind Result_bind];
      (split;
       [ intros H; try discriminate H; split; intros E; first [reflexivity | discriminate E]
       | intros [H1 H2]; try reflexivity;
         first [discriminate (H1 eq_refl) | discriminate (H2 eq_refl)] ]).
Qed.

Lemma phone_rule_witness :
  (9 <= String.length "+12025550123" <= 18)%nat.
Proof.
  apply (proj1 (proj2 phone_rule) "+12025550123").
  apply (proj1 (proj1 phone_rule "+12025550123")).
  reflexivity.
Defined.

Lemma prefix_append (a b : string) : String.prefix a (a +:+ b) = true.
Proof.
  induction a as [| c a IH]; [destruct b; reflexivity |].
  change (String c a +:+ b) with (String c (a +:+ b)).
  cbn [String.prefix]. destruct (ascii_dec c c) as [_ | Hne]; [exact IH | contradiction].
Qed.

(** X9: what [Company.clean] does to the web site.  After a successful
    call the web site is empty or begins with [http://] or [https://];
    name and phone are untouched; and cleaning the result again changes
    nothing. *)
Theorem Company_clean_website (self self' : CompanyColumns) :
  Company_clean self = Ok self' ->
  (website self' = EmptyString
   \/ startswith "http://" (website self') = true
   \/ startswith "https://" (website self') = true)
  /\ name self' = name self
  /\ phone self' = phone self
  /\ (website self' = website self \/ website self' = "https://" +:+ website self)
  /\ Company_clean self' = Ok self'.
Proof.
  unfold Company_clean.
  destruct (if has_text (phone self) then _ else _) as [[] | e] eqn:Hphone;
    cbn [mbind Result_bind]; [| discriminate].
  destruct (is_empty (website self)) eqn:Hempty; cbn [negb andb].
  - intros H. injection H as <-. rewrite Hphone, Hempty. cbn.
    split; [left; destruct (website self); [reflexivity | discriminate Hempty] |].
    repeat split. left. reflexivity.
  - destruct (startswith "http://" (website self) || startswith "https://" (website self))
      eqn:Hpre; cbn [negb].
    + intros H. injection H as <-. rewrite Hphone, Hempty, Hpre. cbn.
      split; [right; apply orb_prop in Hpre; exact Hpre |].
      repeat split. left. reflexivity.
    + intros H. injection H as <-. cbn [name phone website].
      rewrite Hphone. cbn [mbind Result_bind].
      assert (Hnew : startswith "https://" ("https://" +:+ website self) = true)
        by apply prefix_append.
      rewrite Hnew, orb_true_r. cbn.
      split; [right; right; reflexivity |]. repeat split. right. reflexivity.
Qed.

Lemma Company_clean_website_witness :
  (website (mkCompanyColumns "Acme" "+1 202-555-0123" "https://acme.example")
   = EmptyString
   \/ startswith "http://"
        (website (mkCompanyColumns "Acme" "+1 202-555-0123" "https://acme.example")) = true
   \/ startswith "https://"
        (website (mkCompanyColumns "Acme" "+1 202-555-0123" "https://acme.example")) = true)
  /\ name (mkCompanyColumns "Acme" "+1 202-555-0123" "https://acme.example") = "Acme"
  /\ phone (mkCompanyColumns "Acme" "+1 202-555-0123" "https://acme.example")
     = "+1 202-555-0123"
  /\ (website (mkCompanyColumns "Acme" "+1 202-555-0123" "https://acme.example")
      = "acme.example"
      \/ website (mkCompanyColumns "Acme" "+1 202-555-0123" "https://acme.example")
         = "https://" +:+ "acme.example")
  /\ Company_clean (mkCompanyColumns "Acme" "+1 202-555-0123" "https://acme.example")
     = Ok (mkCompanyColumns "Acme" "+1 202-555-0123" "https://acme.example").
Proof.
  apply (Company_clean_website (mkCompanyColumns "Acme" "+1 202-555-0123" "acme.example")
           (mkCompanyColumns "Acme" "+1 202-555-0123" "https://acme.example")).
  reflexivity.
Defined.

(** ** The age of a contact *)

(** X10: [Contact.age] is empty exactly without a date of birth; for a
    date of birth not after today it is not negative; and it never
    decreases as today advances. *)
Theorem Contact_age_grows (today later born : date) :
  (forall t, Contact_age t None = None)
  /\ (date_le born today ->
      exists a, Contact_age today (Some born) = Some a /\ (0 <= a)%Z)
  /\ (date_le today later ->
      exists a b, Contact_age today (Some born) = Some a
                  /\ Contact_age later (Some born) = Some b /\ (a <= b)%Z).
Proof.
  split; [reflexivity |]. split.
  - intros Hle. eexists. split; [reflexivity |].
    unfold date_le in Hle. unfold pair_lt.
    destruct (Z.ltb_spec (month today) (month born));
      destruct (Z.eqb_spec (month today) (month born));
      destruct (Z.ltb_spec (day today) (day born)); cbn; lia.
  - intros Hle. eexists _, _. split; [reflexivity |]. split; [reflexivity |].
    unfold date_le in Hle. unfold pair_lt.
    destruct (Z.ltb_spec (month today) (month born));
      destruct (Z.eqb_spec (month today) (month born));
      destruct (Z.ltb_spec (day today) (day born));
      destruct (Z.ltb_spec (month later) (month born));
      destruct (Z.eqb_spec (month later) (month born));
      destruct (Z.ltb_spec (day later) (day born)); cbn; lia.
Qed.

Lemma Contact_age_grows_witness :
  exists a, Contact_age (mkDate 2024 6 10) (Some (mkDate 1990 6 11)) = Some a /\ (0 <= a)%Z.
Proof.
  apply (proj1 (proj2 (Contact_age_grows (mkDate 2024 6 10) (mkDate 2024 6 10)
                         (mkDate 1990 6 11)))).
  left. simpl. lia.
Defined.

(** ** Tasks: validation and saving *)

(** The three tests of [Task.clean], as conditions on the task. *)
Lemma Task_clean_Ok env (t : Task) :
  Task_clean env t = Ok tt <->
  (forall due, due_date (own t) = Some due -> (due < timezone_now env)%Z ->
               status (own t) = "completed")
  /\ (forall v, estimated_hours (own t) = Some v -> (0 <= v)%Z)
  /\ (forall v, actual_hours (own t) = Some v -> (0 <= v)%Z).
Proof.
  unfold Task_clean, decimal_truthy.
  destruct (due_date (own t)) as [due |];
    [destruct (Z.ltb_spec due (timezone_now env));
     [destruct (String.eqb_spec (status (own t)) "completed") |] |];
    cbn [negb mbind Result_bind];
    destruct (estimated_hours (own t)) as [est |];
    try (destruct (Z.eqb_spec est 0); destruct (Z.leb_spec est 0));
    cbn [negb andb mbind Result_bind];
    destruct (actual_hours (own t)) as [act |];
    try (destruct (Z.eqb_spec act 0); destruct (Z.ltb_spec act 0));
    cbn [negb andb mbind Result_bind];
    (split;
     [ intros Hclean; try discriminate Hclean;
       repeat split; intros x Hx; try discriminate Hx; try injection Hx as <-;
       intros; first [assumption | lia]
     | intros (Hd & He & Ha); try reflexivity; exfalso;
       first [ specialize (Hd _ eq_refl); lia
             | specialize (He _ eq_refl); lia
             | specialize (Ha _ eq_refl); lia
             | match goal with
               | Hne : status (own t) <> "completed" |- _ =>
                   apply Hne; apply (Hd _ eq_refl); assumption
               end ] ]).
Qed.

Lemma Task_clean_cases env (t : Task) :
  Task_clean env t = Ok tt \/ exists f, Task_clean env t = Raise (ValidationError [f]).
Proof.
  unfold Task_clean.
  destruct (due_date (own t)) as [due |];
    [destruct (due <? timezone_now env)%Z; [destruct (negb _) |] |];
    cbn [mbind Result_bind]; eauto;
    destruct (decimal_truthy (estimated_hours (own t)) && _);
    cbn [mbind Result_bind]; eauto;
    destruct (decimal_truthy (actual_hours (own t)) && _); eauto.
Qed.

Lemma Task_full_clean_Ok db env (t : Task) :
  Task_full_clean db env t = Ok tt
  <-> Task_clean_fields db env t = [] /\ Task_clean env t = Ok tt
      /\ (adding t = true -> existsb (fun r => Z.eqb (pk r) (pk t)) db = false).
Proof.
  unfold Task_full_clean. rewrite <- validate_unique_pk_nil.
  destruct (Task_clean_fields db env t) as [| f fs].
  - destruct (Task_clean_cases env t) as [-> | [f ->]]; cbn.
    + destruct (validate_unique_pk db t).
      * split; auto.
      * split; [discriminate | intros (_ & _ & H); discriminate H].
    + split; [discriminate | intros (_ & H & _); discriminate H].
  - cbn. split; [discriminate | intros [H _]; discriminate H].
Qed.

Lemma Task_full_clean_In db env (t : Task) (f : string) :
  In f (Task_clean_fields db env t ++ errors_of (Task_clean env t)) ->
  exists fields, Task_full_clean db env t = Raise (ValidationError fields) /\ In f fields.
Proof.
  intros Hin. unfold Task_full_clean.
  destruct ((Task_clean_fields db env t ++ errors_of (Task_clean env t))
            ++ validate_unique_pk db t) as [| x xs] eqn:E.
  - apply app_eq_nil in E. destruct E as [E _]. rewrite E in Hin. destruct Hin.
  - exists (x :: xs). split; [reflexivity |]. rewrite <- E.
    apply in_or_app. left. exact Hin.
Qed.

Lemma Task_save_full_inv db env (self : Task) db' saved :
  Task_save db env self None = Ok (db', saved) ->
  exists self1,
    Task_before_super db env self = Ok self1
    /\ own saved = own self1
    /\ get_row db' (pk self1) = Some saved.
Proof.
  unfold Task_save, save. intros H. apply bind_Ok in H.
  destruct H as (self1 & Hbefore & Hmodel). exists self1.
  apply Model_save_full_inv in Hmodel.
  destruct Hmodel as (_ & Hown & _ & _ & _ & Hrow & _).
  auto.
Qed.

Lemma Task_before_super_inv db env (self self1 : Task) :
  Task_before_super db env self = Ok self1 ->
  Task_full_clean db env self1 = Ok tt
  /\ pk self1 = pk self /\ is_active self1 = is_active self
  /\ deleted_at self1 = deleted_at self
  /\ adding self1 = adding self
  /\ own self1
     = with_completed_date
         (if String.eqb (status (own self)) "completed"
          then match completed_date (own self) with
               | Some t => Some t
               | None => Some (timezone_now env)
               end
          else None) (own self).
Proof.
  unfold Task_before_super. intros H. apply bind_Ok in H.
  destruct H as ([] & Hclean & H). injection H as <-.
  split; [exact Hclean |].
  destruct (String.eqb (status (own self)) "completed");
    destruct (completed_date (own self)) eqn:Hc; cbn;
    repeat split; destruct self as [? ? ? ? ? [] ?]; cbn in *; subst; reflexivity.
Qed.

(** X11: a task is stored with a completion date exactly when it is
    stored as completed.  A successful [save] stores, under the key of the
    instance, a task that has a [completed_date] if and only if its status
    is [completed]: the date already set is kept, a missing one becomes
    the current time, and the date of a task that is not completed is
    cleared. *)
Theorem Task_save_completed_date db env (self : Task) db' saved :
  Task_save db env self None = Ok (db', saved) ->
  get_row db' (pk self) = Some saved
  /\ status (own saved) = status (own self)
  /\ (status (own saved) = "completed" <-> completed_date (own saved) <> None)
  /\ (status (own self) = "completed" ->
      completed_date (own saved)
      = match completed_date (own self) with
        | Some t => Some t
        | None => Some (timezone_now env)
        end).
Proof.
  intros Hsave. apply Task_save_full_inv in Hsave.
  destruct Hsave as (self1 & Hbefore & Hown & Hrow).
  apply Task_before_super_inv in Hbefore.
  destruct Hbefore as (_ & Hpk & _ & _ & _ & Hown1).
  rewrite Hpk in Hrow. rewrite Hown, Hown1. cbn.
  split; [exact Hrow |]. split; [reflexivity |].
  destruct (String.eqb_spec (status (own self)) "completed") as [E | E].
  - split; [| intros _; reflexivity].
    split; [intros _ | intros _; exact E].
    destruct (completed_date (own self)); discriminate.
  - split; [| intros E'; contradiction].
    split; [intros E'; contradiction | intros H; contradiction H; reflexivity].
Qed.

Lemma Task_save_completed_date_witness :
  get_row
    [set_updated_at (Some 1718000000%Z)
       (on_task (with_completed_date (Some 1718000000%Z))
          (on_task (with_status "completed") stale_task))] (pk stale_task)
  = Some (set_updated_at (Some 1718000000%Z)
            (on_task (with_completed_date (Some 1718000000%Z))
               (on_task (with_status "completed") stale_task)))
  /\ status (own (set_updated_at (Some 1718000000%Z)
                    (on_task (with_completed_date (Some 1718000000%Z))
                       (on_task (with_status "completed") stale_task))))
     = status (own (on_task (with_status "completed") stale_task))
  /\ (status (own (set_updated_at (Some 1718000000%Z)
                     (on_task (with_completed_date (Some 1718000000%Z))
                        (on_task (with_status "completed") stale_task))))
      = "completed"
      <-> completed_date
            (own (set_updated_at (Some 1718000000%Z)
                    (on_task (with_completed_date (Some 1718000000%Z))
                       (on_task (with_status "completed") stale_task)))) <> None)
  /\ (status (own (on_task (with_status "completed") stale_task)) = "completed" ->
      completed_date
        (own (set_updated_at (Some 1718000000%Z)
                (on_task (with_completed_date (Some 1718000000%Z))
                   (on_task (with_status "completed") stale_task))))
      = match completed_date (own (on_task (with_status "completed") stale_task)) with
        | Some t => Some t
        | None => Some (timezone_now sample_env)
        end).
Proof.
  apply (Task_save_completed_date [stale_task] sample_env
           (on_task (with_status "completed") stale_task)).
  vm_compute. reflexivity.
Defined.

Lemma Task_before_super_stale db env (self : Task) due :
  due_date (own self) = Some due ->
  (due < timezone_now env)%Z ->
  status (own self) <> "completed" ->
  exists fields,
    Task_before_super db env self = Raise (ValidationError fields)
    /\ In "due_date" fields.
Proof.
  intros Hdue Hlt Hst. unfold Task_before_super.
  destruct (String.eqb_spec (status (own self)) "completed") as [E | _]; [contradiction |].
  cbn [andb negb].
  assert (Hraise : forall t : Task,
            due_date (own t) = Some due -> status (own t) = status (own self) ->
            exists fields, Task_full_clean db env t = Raise (ValidationError fields)
                           /\ In "due_date" fields).
  { intros t Hd Hs. apply Task_full_clean_In.
    assert (Hclean : Task_clean env t = Raise (ValidationError ["due_date"])).
    { unfold Task_clean. rewrite Hd, Hs.
      destruct (Z.ltb_spec due (timezone_now env)); [| lia].
      destruct (String.eqb_spec (status (own self)) "completed"); [contradiction |].
      reflexivity. }
    rewrite Hclean. cbn [errors_of]. apply in_or_app. right. left. reflexivity. }
  destruct (is_Some_date (completed_date (own self))).
  - destruct (Hraise (on_task (with_completed_date None) self) Hdue eq_refl)
      as (fields & -> & Hin).
    exists fields. split; [reflexivity | exact Hin].
  - destruct (Hraise self Hdue eq_refl) as (fields & -> & Hin).
    exists fields. split; [reflexivity | exact Hin].
Qed.



(** X13: what [Task.clean] accepts.  It succeeds exactly when the due
    date has not passed or the task is completed, and the estimated and
    the actual hours, where set, are not negative.  An estimate of zero
    hours passes: zero is a false value, so the test for "greater than 0"
    is never reached for it. *)
Theorem Task_clean_accepts env (t : Task) :
  (Task_clean env t = Ok tt <->
   (forall due, due_date (own t) = Some due -> (due < timezone_now env)%Z ->
                status (own t) = "completed")
   /\ (forall v, estimated_hours (own t) = Some v -> (0 <= v)%Z)
   /\ (forall v, actual_hours (own t) = Some v -> (0 <= v)%Z))
  /\ (due_date (own t) = None -> actual_hours (own t) = None ->
      estimated_hours (own t) = Some 0%Z -> Task_clean env t = Ok tt).
Proof.
  split; [apply Task_clean_Ok |].
  intros Hd Ha He. apply Task_clean_Ok. rewrite Hd, Ha, He.
  repeat split; intros x Hx; try discriminate Hx. injection Hx as <-. lia.
Qed.

Lemma Task_clean_accepts_witness :
  Task_clean sample_env
    (mkEntity 43 None None true None
       (mkTaskColumns "Plan" EmptyString "other" "pending" "medium" None None
          (Some 0%Z) None None None None None (Some 5%Z) EmptyString None EmptyString)
       true) = Ok tt.
Proof.
  apply (proj2 (Task_clean_accepts sample_env
                  (mkEntity 43 None None true None
                     (mkTaskColumns "Plan" EmptyString "other" "pending" "medium"
                        None None (Some 0%Z) None None None None None (Some 5%Z)
                        EmptyString None EmptyString)
                     true))).
  - reflexivity.
  - reflexivity.
  - reflexivity.
Defined.

(** ** Completing a task *)

Lemma substring_all (s : string) : substring 0 (String.length s) s = s.
Proof. induction s as [| c s IH]; [reflexivity |]. cbn. rewrite IH. reflexivity. Qed.

Lemma substring_skip (a b : string) (n : nat) :
  substring (String.length a) n (a +:+ b) = substring 0 n b.
Proof.
  induction a as [| c a IH]; [reflexivity |].
  change (String c a +:+ b) with (String c (a +:+ b)). cbn. exact IH.
Qed.

Lemma endswith_append (s suffix : string) : endswith suffix (s +:+ suffix) = true.
Proof.
  unfold endswith. rewrite length_append.
  replace (String.length s + String.length suffix - String.length suffix)%nat
    with (String.length s) by lia.
  rewrite substring_skip, substring_all, String.eqb_refl.
  rewrite andb_true_r. apply Nat.leb_le. lia.
Qed.

Lemma complete_task_inv db env (self : Task) hours notes' db' saved :
  complete_task db env self hours notes' = Ok (db', saved) ->
  get_row db' (pk self) = Some saved
  /\ status (own saved) = "completed"
  /\ completed_date (own saved) = Some (timezone_now env)
  /\ actual_hours (own saved)
     = match hours with Some h => Some h | None => actual_hours (own self) end
  /\ due_date (own saved) = due_date (own self)
  /\ description (own saved)
     = if negb (is_empty notes')
          && negb (endswith (completion_notes notes') (description (own self)))
       then description (own self) +:+ completion_notes notes'
       else description (own self).
Proof.
  unfold complete_task. intros Hsave. apply Task_save_full_inv in Hsave.
  destruct Hsave as (self1 & Hbefore & Hown & Hrow).
  apply Task_before_super_inv in Hbefore.
  destruct Hbefore as (_ & Hpk & _ & _ & _ & Hown1).
  rewrite Hpk in Hrow. rewrite Hown, Hown1. clear Hown Hown1 Hpk.
  destruct hours as [h |];
    destruct (negb (is_empty notes') && _) eqn:Hcond; cbn in Hrow |- *;
    rewrite ?Hcond; repeat split; exact Hrow.
Qed.

Lemma created_by_required db env (t : Task) :
  task_created_by (own t) = None -> In "created_by" (Task_clean_fields db env t).
Proof.
  intros H. unfold Task_clean_fields. rewrite H. cbn [required_key check].
  do 10 (apply in_or_app; right). apply in_or_app. left. left. reflexivity.
Qed.

Lemma Task_before_super_unowned db env (self : Task) :
  task_created_by (own self) = None ->
  exists fields, Task_before_super db env self = Raise (ValidationError fields)
                 /\ In "created_by" fields.
Proof.
  intros Hnone. unfold Task_before_super.
  match goal with
  | |- context [Task_full_clean db env ?t] =>
      destruct (Task_full_clean_In db env t "created_by") as (fields & -> & Hin)
  end.
  - apply in_or_app. left. apply created_by_required.
    destruct (_ && _); [exact Hnone |]. destruct (_ && _); exact Hnone.
  - exists fields. split; [reflexivity | exact Hin].
Qed.

(** X14: [complete_task] closes a task for good.  When it returns, the
    task stored under the key is completed with the current time as
    completion date and is overdue at no time; the actual hours are the
    ones passed, or the earlier ones when none are passed; with notes, the
    description ends with the completion notes, and completing the stored
    task again with the same notes leaves the description as it is.  It
    returns, whatever the due date, for a task that passes
    [clean_fields] (its creator set and existing among the rest), that is
    stored or has a fresh key, and whose hours are not negative; a task
    without a creator is refused with a [ValidationError] for
    [created_by]. *)
Theorem complete_task_result db env (self : Task) hours notes' :
  (forall db' saved,
     complete_task db env self hours notes' = Ok (db', saved) ->
     get_row db' (pk self) = Some saved
     /\ status (own saved) = "completed"
     /\ completed_date (own saved) = Some (timezone_now env)
     /\ (forall env', is_overdue env' saved = false)
     /\ actual_hours (own saved)
        = match hours with Some h => Some h | None => actual_hours (own self) end
     /\ (is_empty notes' = false ->
         endswith (completion_notes notes') (description (own saved)) = true)
     /\ (forall env2 hours2 db2 saved2,
           complete_task db' env2 saved hours2 notes' = Ok (db2, saved2) ->
           description (own saved2) = description (own saved)))
  /\ (Task_clean_fields db env self = [] ->
      (adding self = true -> existsb (fun r => Z.eqb (pk r) (pk self)) db = false) ->
      (forall v, estimated_hours (own self) = Some v -> (0 <= v)%Z) ->
      match hours with
      | Some h => (0 <= h < 100000)%Z
      | None => forall v, actual_hours (own self) = Some v -> (0 <= v)%Z
      end ->
      exists db' saved, complete_task db env self hours notes' = Ok (db', saved))
  /\ (task_created_by (own self) = None ->
      exists fields,
        complete_task db env self hours notes' = Raise (ValidationError fields)
        /\ In "created_by" fields).
Proof.
  split; [| split].
  - intros db' saved Hcall. apply complete_task_inv in Hcall.
    destruct Hcall as (Hrow & Hst & Hdate & Hact & Hdue & Hdesc).
    assert (Hends : is_empty notes' = false ->
                    endswith (completion_notes notes') (description (own saved)) = true).
    { intros Hn. rewrite Hdesc, Hn. cbn [negb andb].
      destruct (endswith (completion_notes notes') (description (own self))) eqn:E;
        cbn [negb]; [exact E | apply endswith_append]. }
    repeat split; try assumption.
    + intros env'. unfold is_overdue. rewrite Hst.
      destruct (due_date (own saved)); reflexivity.
    + intros env2 hours2 db2 saved2 Hcall2. apply complete_task_inv in Hcall2.
      destruct Hcall2 as (_ & _ & _ & _ & _ & ->).
      destruct (is_empty notes') eqn:Hn; [reflexivity |].
      rewrite (Hends eq_refl). reflexivity.
  - intros Hfields Hfresh Hest Hact. unfold complete_task, Task_save, save.
    match goal with
    | |- exists db' saved, (Task_before_super db env ?x ≫= _) = _ =>
        assert (Hbefore : Task_before_super db env x = Ok x
                          /\ pk x = pk self /\ adding x = adding self)
    end.
    { unfold Task_before_super.
      assert (Hclean : forall t : Task,
                status (own t) = "completed" ->
                pk t = pk self -> adding t = adding self ->
                task_title (own t) = task_title (own self) ->
                task_type (own t) = task_type (own self) ->
                priority (own t) = priority (own self) ->
                estimated_hours (own t) = estimated_hours (own self) ->
                actual_hours (own t)
                = match hours with Some h => Some h | None => actual_hours (own self) end ->
                task_contact (own t) = task_contact (own self) ->
                task_deal (own t) = task_deal (own self) ->
                task_company (own t) = task_company (own self) ->
                task_assigned_to (own t) = task_assigned_to (own self) ->
                task_created_by (own t) = task_created_by (own self) ->
                recurrence_pattern (own t) = recurrence_pattern (own self) ->
                parent_task (own t) = parent_task (own self) ->
                task_tags (own t) = task_tags (own self) ->
                Task_full_clean db env t = Ok tt).
      { intros t Hs Hpk Hadd Ht Hty Hpr He Ha H7 H8 H9 H10 H11 H12 H13 H14.
        apply Task_full_clean_Ok. split; [| split].
        - unfold Task_clean_fields in *.
          rewrite Hs, Ht, Hty, Hpr, He, Ha, H7, H8, H9, H10, H11, H12, H13, H14.
          rewrite !check_app_nil, check_nil in Hfields.
          destruct Hfields as (F1 & F2 & _ & F4 & F5 & F6 & F7 & F8 & F9 & F10 & F11
                               & F12 & F13 & F14).
          rewrite F1, F2, F4, F5, F7, F8, F9, F10, F11, F12, F13, F14. cbn.
          destruct hours as [h |]; [| rewrite F6; reflexivity].
          unfold hours_fit. destruct (Z.ltb_spec (Z.abs h) 100000); [reflexivity | lia].
        - apply Task_clean_Ok. rewrite Hs, He, Ha. repeat split.
          + exact Hest.
          + destruct hours as [h |]; [| exact Hact].
            intros v Hv. injection Hv as <-. lia.
        - rewrite Hpk, Hadd. exact Hfresh. }
      destruct hours as [h |];
        destruct (negb (is_empty notes') && _); cbn;
        rewrite Hclean by reflexivity; repeat split; reflexivity. }
    destruct Hbefore as (Hbefore & Hpk & Hadd).
    rewrite Hbefore. cbn [mbind Result_bind].
    rewrite <- Hpk, <- Hadd in Hfresh. clear Hbefore Hpk Hadd.
    match goal with
    | |- exists db' saved, Model_save _ db env ?x None = _ =>
        destruct (get_row db (pk x)) as [row |] eqn:Hrow;
        [destruct (adding x) eqn:Hadding |]
    end.
    + rewrite (get_row_free db _ (Hfresh eq_refl)) in Hrow. discriminate Hrow.
    + unfold Model_save. cbn [default from_option forallb negb id].
      rewrite Hadding, Hrow. eexists _, _. reflexivity.
    + rewrite (Model_save_insert _ _ _ _ Hrow). eexists _, _. reflexivity.
  - intros Hnone. unfold complete_task, Task_save, save.
    match goal with
    | |- context [Task_before_super db env ?x] =>
        destruct (Task_before_super_unowned db env x) as (fields & -> & Hin)
    end.
    + destruct hours; destruct (negb (is_empty notes') && _); exact Hnone.
    + exists fields. split; [reflexivity | exact Hin].
Qed.

Lemma complete_task_result_witness :
  exists db' saved,
    complete_task [stale_task] sample_env stale_task (Some 200%Z) "Reached them"
    = Ok (db', saved).
Proof.
  apply (proj1 (proj2 (complete_task_result [stale_task] sample_env stale_task
                         (Some 200%Z) "Reached them"))).
  - reflexivity.
  - discriminate.
  - intros v Hv. injection Hv as <-. lia.
  - lia.
Defined.

(** ** The overdue list *)

Lemma In_insert_by_due (t x : Task) (l : list Task) :
  In x (insert_by_due t l) <-> x = t \/ In x l.
Proof.
  induction l as [| y l IH]; cbn.
  - split; [intros [<- | []]; left; reflexivity | intros [-> | []]; left; reflexivity].
  - destruct (due_date (own t)), (due_date (own y));
      try destruct (_ <? _)%Z; cbn; rewrite ?IH; intuition congruence.
Qed.

Lemma In_order_by_due_date (x : Task) (l : list Task) :
  In x (order_by_due_date l) <-> In x l.
Proof.
  unfold order_by_due_date. rewrite (in_rev l x).
  induction (rev l) as [| y r IH]; [reflexivity |].
  cbn [fold_right]. rewrite In_insert_by_due, IH. cbn. intuition congruence.
Qed.

(** X15: the overdue list and [Task.is_overdue] differ on deferred
    tasks.  Every task the view lists is active and overdue by the model's
    own test, and among the active tasks with a status of the enumeration
    that the model calls overdue, the view lists all but the deferred
    ones. *)
Theorem overdue_list_skips_deferred (tasks : list Task) env (t : Task) :
  (In t (TaskViewSet_overdue tasks env) ->
   In t tasks /\ is_active t = true /\ is_overdue env t = true)
  /\ (In t tasks -> is_active t = true -> is_overdue env t = true ->
      str_in (status (own t)) (choice_values STATUS_CHOICES) = true ->
      (In t (TaskViewSet_overdue tasks env) <-> status (own t) <> "deferred")).
Proof.
  unfold TaskViewSet_overdue, overdue_selected. rewrite In_order_by_due_date.
  rewrite filter_In. unfold is_overdue. split.
  - intros [Hin H]. apply andb_prop in H. destruct H as [H Hst].
    apply andb_prop in H. destruct H as [Hact Hdue].
    split; [exact Hin |]. split; [exact Hact |].
    destruct (due_date (own t)); [| discriminate Hdue].
    one_of Hst; rewrite Hst; exact Hdue.
  - intros Hin Hact Hover Hvalid. rewrite Hact.
    destruct (due_date (own t)) as [due |]; [| discriminate Hover].
    one_of Hvalid; rewrite Hvalid in Hover |- *; cbn in Hover |- *;
      try discriminate Hover; rewrite Hover; cbn [andb];
      (split;
       [ first [ intros [_ H]; discriminate H | intros _; discriminate ]
       | intros Hne;
         first [ exfalso; apply Hne; reflexivity | split; [exact Hin | reflexivity] ] ]).
Qed.

Lemma overdue_list_skips_deferred_witness :
  In stale_task (TaskViewSet_overdue [stale_task; deferred_task] sample_env)
  <-> status (own stale_task) <> "deferred".
Proof.
  apply (proj2 (overdue_list_skips_deferred [stale_task; deferred_task] sample_env
                  stale_task)).
  - left. reflexivity.
  - reflexivity.
  - reflexivity.
  - reflexivity.
Defined.

(** ** Serializer validation against model validation *)

Lemma DealSerializer_validate_inv instance env (data data' : DealData) :
  DealSerializer_validate instance env data = Ok data' ->
  match dict_get
          (default (match instance with Some i => stage (own i) | None => "lead" end)
             (data_stage data)) stage_probability_map with
  | Some (lo, hi) =>
      (lo <= default (match instance with Some i => probability (own i) | None => 0 end)
               (data_probability data) <= hi)%Z
  | None => True
  end
  /\ data' = (if match data_stage data, instance with
                 | Some s, Some i => negb (String.eqb s (stage (own i)))
                 | Some _, None => true
                 | None, _ => false
                 end
              then mkDealData (data_title data) (data_amount data) (data_company data)
                     (data_stage data) (data_probability data)
                     (data_expected_close_date data) (data_actual_close_date data)
                     (Some (timezone_today env))
              else data).
Proof.
  unfold DealSerializer_validate. intros Hval. split.
  - destruct (dict_get _ stage_probability_map) as [[lo hi] |]; [| exact I].
    destruct (Z.leb_spec lo
                (default (match instance with Some i => probability (own i) | None => 0%Z end)
                   (data_probability data)));
      destruct (Z.leb_spec
                  (default (match instance with Some i => probability (own i) | None => 0%Z end)
                     (data_probability data)) hi);
      cbn [negb andb mbind Result_bind] in Hval; try discriminate Hval. lia.
  - destruct (dict_get _ stage_probability_map) as [[lo hi] |] in Hval;
      [destruct (negb _) in Hval |]; cbn [mbind Result_bind] in Hval;
      try discriminate Hval;
      (destruct (get_nullable (data_actual_close_date data)) as [a |] in Hval;
       [destruct (get_nullable (data_expected_close_date data)) as [e |] in Hval;
        [destruct (a <? e)%Z in Hval |] |]);
      cbn [mbind Result_bind] in Hval; try discriminate Hval;
      destruct (data_stage data) as [s |]; try destruct instance as [i |];
      try destruct (negb (String.eqb s (stage (own i))));
      injection Hval as <-; reflexivity.
Qed.

(** X16: on creation [DealSerializer.validate] and [Deal.clean] accept
    the same deals: the serializer passes the data exactly when the deal
    built from them passes [Deal.clean].  On update, data that pass the
    serializer leave the updated deal within the band test of
    [Deal.clean].  In both cases the data come back unchanged except for
    [last_contact_date], stamped with today when a stage is given that
    differs from the instance's. *)
Theorem DealSerializer_validate_agrees env (data : DealData) :
  (forall key,
     (exists data', DealSerializer_validate None env data = Ok data')
     <-> Deal_clean (Deal_from_data key data) = Ok tt)
  /\ (forall instance data',
        DealSerializer_validate (Some instance) env data = Ok data' ->
        band_ok (own (Deal_apply_data data' instance)))
  /\ (forall instance data',
        DealSerializer_validate instance env data = Ok data' ->
        data_title data' = data_title data
        /\ data_amount data' = data_amount data
        /\ data_company data' = data_company data
        /\ data_stage data' = data_stage data
        /\ data_probability data' = data_probability data
        /\ data_expected_close_date data' = data_expected_close_date data
        /\ data_actual_close_date data' = data_actual_close_date data
        /\ (data_last_contact_date data' = data_last_contact_date data
            \/ data_last_contact_date data' = Some (timezone_today env)
               /\ exists s, data_stage data = Some s
                            /\ forall i, instance = Some i -> s <> stage (own i))).
Proof.
  split; [| split].
  - intros key. unfold DealSerializer_validate, Deal_clean, Deal_from_data.
    cbn [own stage probability expected_close_date actual_close_date].
    destruct (dict_get _ stage_probability_map) as [[lo hi] |];
      [destruct (negb _) |]; cbn [mbind Result_bind];
      try (split; [intros [d H]; discriminate H | discriminate]);
      destruct (get_nullable (data_actual_close_date data)) as [a |];
      destruct (get_nullable (data_expected_close_date data)) as [e |];
      try destruct (a <? e)%Z; cbn [mbind Result_bind];
      try (split; [intros [d H]; discriminate H | discriminate]);
      (split; [reflexivity | intros _; destruct (data_stage data); eauto]).
  - intros instance data' Hval.
    apply DealSerializer_validate_inv in Hval. destruct Hval as [Hband ->].
    unfold band_ok, Deal_apply_data.
    replace (stage (own (on_own _ instance)))
      with (default (stage (own instance)) (data_stage data))
      by (destruct (data_stage data) eqn:Hs; [destruct (negb _) |]; cbn; rewrite ?Hs; reflexivity).
    replace (probability (own (on_own _ instance)))
      with (default (probability (own instance)) (data_probability data))
      by (destruct (data_stage data) eqn:Hs; [destruct (negb _) |]; cbn; rewrite ?Hs; reflexivity).
    exact Hband.
  - intros instance data' Hval.
    apply DealSerializer_validate_inv in Hval. destruct Hval as [_ ->].
    destruct (data_stage data) as [s |] eqn:Hs;
      [destruct instance as [i |];
       [destruct (String.eqb_spec s (stage (own i))) as [E | E]; cbn [negb] |] |];
      cbn [data_title data_amount data_company data_stage data_probability
             data_expected_close_date data_actual_close_date data_last_contact_date];
      (split; [reflexivity |]); (split; [reflexivity |]); (split; [reflexivity |]);
      (split; [first [reflexivity | exact Hs] |]);
      (split; [reflexivity |]); (split; [reflexivity |]); (split; [reflexivity |]).
    + left; reflexivity.
    + right. split; [reflexivity |]. exists s. split; [reflexivity |].
      intros i' Hi. injection Hi as <-. exact E.
    + right. split; [reflexivity |]. exists s. split; [reflexivity |].
      intros i' Hi. discriminate Hi.
    + left; reflexivity.
Qed.

Lemma DealSerializer_validate_agrees_witness :
  band_ok
    (own (Deal_apply_data
            (mkDealData "Support plan" 480000 7 (Some "proposal") (Some 55%Z) None None
               (Some 19884%Z))
            qualified_deal)).
Proof.
  apply (proj1 (proj2 (DealSerializer_validate_agrees sample_env
                         (mkDealData "Support plan" 480000 7 (Some "proposal") (Some 55%Z)
                            None None None)))
           qualified_deal).
  reflexivity.
Defined.

(** X17: [TaskSerializer.validate] is stricter than [Task.clean] by the
    zero estimate alone.  On creation, data that pass the serializer give
    a task that passes [Task.clean]; and a task built from data that
    passes [Task.clean] passed the serializer unless its estimated hours
    are exactly zero, which the serializer rejects and the model
    accepts. *)
Theorem TaskSerializer_validate_stricter env (data : TaskData) (key : Z) :
  (TaskSerializer_validate None env data = Ok data ->
   Task_clean env (Task_from_data key data) = Ok tt)
  /\ (Task_clean env (Task_from_data key data) = Ok tt ->
      get_nullable (data_estimated_hours data) <> Some 0%Z ->
      TaskSerializer_validate None env data = Ok data)
  /\ (get_nullable (data_estimated_hours data) = Some 0%Z ->
      exists fields, TaskSerializer_validate None env data = Raise (ValidationError fields)).
Proof.
  rewrite Task_clean_Ok. unfold TaskSerializer_validate, Task_from_data.
  cbn [own due_date status estimated_hours actual_hours].
  split; [| split].
  - intros Hval.
    destruct (get_nullable (data_due_date data)) as [due |];
      [destruct (Z.ltb_spec due (timezone_now env));
       destruct (String.eqb_spec (default "pending" (data_status data)) "completed") |];
      cbn [negb andb mbind Result_bind] in Hval; try discriminate Hval;
      destruct (get_nullable (data_estimated_hours data)) as [est |];
      try destruct (Z.leb_spec est 0); cbn [mbind Result_bind] in Hval;
      try discriminate Hval;
      destruct (get_nullable (data_actual_hours data)) as [act |];
      try destruct (Z.ltb_spec act 0); try discriminate Hval;
      repeat split; intros x Hx; try discriminate Hx; try injection Hx as <-;
      intros; first [assumption | lia].
  - intros (Hd & He & Ha) Hne.
    destruct (get_nullable (data_due_date data)) as [due |];
      [destruct (Z.ltb_spec due (timezone_now env));
       destruct (String.eqb_spec (default "pending" (data_status data)) "completed") |];
      cbn [negb andb mbind Result_bind];
      try (exfalso; match goal with
                    | Hn : _ <> "completed" |- _ => apply Hn; apply (Hd _ eq_refl); assumption
                    end);
      destruct (get_nullable (data_estimated_hours data)) as [est |];
      try (destruct (Z.leb_spec est 0);
           [exfalso; specialize (He _ eq_refl);
            apply Hne; f_equal; lia |]);
      cbn [mbind Result_bind];
      destruct (get_nullable (data_actual_hours data)) as [act |];
      try (destruct (Z.ltb_spec act 0); [exfalso; specialize (Ha _ eq_refl); lia |]);
      reflexivity.
  - intros Hzero. rewrite Hzero.
    destruct (get_nullable (data_due_date data)) as [due |];
      [destruct (_ && _) |]; cbn [mbind Result_bind]; eauto.
Qed.

Lemma TaskSerializer_validate_stricter_witness :
  exists fields,
    TaskSerializer_validate None sample_env
      (mkTaskData "Plan" EmptyString None None None None (Some (Some 0%Z)) None)
    = Raise (ValidationError fields).
Proof.
  apply (proj2 (proj2 (TaskSerializer_validate_stricter sample_env
                         (mkTaskData "Plan" EmptyString None None None None
                            (Some (Some 0%Z)) None) 44))).
  reflexivity.
Defined.

(** ** Bulk deletion *)

Section OrderedRows.
Context {F : Type}.
Variable Meta_ordering : Entity F -> Entity F -> bool.
Implicit Types (db : list (Entity F)) (row item : Entity F).

Lemma In_insert_ordered (x y : Entity F) (l : list (Entity F)) :
  In y (insert_ordered Meta_ordering x l) <-> y = x \/ In y l.
Proof.
  induction l as [| z l IH]; cbn [insert_ordered].
  - cbn. intuition congruence.
  - destruct (Meta_ordering x z); cbn [In]; [intuition congruence |].
    rewrite IH. intuition congruence.
Qed.

Lemma In_ordered (y : Entity F) (l : list (Entity F)) :
  In y (ordered Meta_ordering l) <-> In y l.
Proof.
  unfold ordered. rewrite (in_rev l y).
  induction (rev l) as [| x l' IH]; cbn [fold_right In]; [reflexivity |].
  rewrite In_insert_ordered, IH. intuition congruence.
Qed.

Lemma length_insert_ordered (x : Entity F) (l : list (Entity F)) :
  List.length (insert_ordered Meta_ordering x l) = S (List.length l).
Proof.
  induction l as [| z l IH]; cbn [insert_ordered]; [reflexivity |].
  destruct (Meta_ordering x z); cbn [List.length]; [reflexivity |].
  rewrite IH. reflexivity.
Qed.

Lemma length_ordered (l : list (Entity F)) :
  List.length (ordered Meta_ordering l) = List.length l.
Proof.
  unfold ordered. rewrite <- (length_rev l).
  induction (rev l) as [| x l' IH]; cbn [fold_right List.length]; [reflexivity |].
  rewrite length_insert_ordered, IH. reflexivity.
Qed.

(** The query set holds the stored rows of the given keys, each once per
    stored row, as instances that are not being added. *)
Lemma filter_id_in_spec db keys item :
  In item (filter_id_in Meta_ordering db keys)
  <-> exists r, In r db /\ existsb (Z.eqb (pk r)) keys = true
                /\ item = set_adding false r.
Proof.
  unfold filter_id_in. rewrite in_map_iff. split.
  - intros (r & <- & Hr). apply In_ordered, filter_In in Hr. destruct Hr as [Hr Hsel].
    exists r. split; [exact Hr |]. split; [exact Hsel | reflexivity].
  - intros (r & Hr & Hsel & ->). exists r. split; [reflexivity |].
    apply In_ordered, filter_In. split; [exact Hr | exact Hsel].
Qed.

Lemma length_filter_id_in db keys :
  List.length (filter_id_in Meta_ordering db keys)
  = List.length (List.filter (fun r => existsb (Z.eqb (pk r)) keys) db).
Proof. unfold filter_id_in. rewrite length_map. apply length_ordered. Qed.

Lemma filter_id_in_stored db keys item :
  In item (filter_id_in Meta_ordering db keys) ->
  In (pk item) (List.map pk db) /\ adding item = false.
Proof.
  intros H. apply filter_id_in_spec in H. destruct H as (r & Hr & _ & ->).
  split; [apply (in_map pk _ _ Hr) | reflexivity].
Qed.
End OrderedRows.

Section BulkDeleteFacts.
Context {F : Type}.
Variable assign_own : string -> F -> F -> option F.
Variable before_super : list (Entity F) -> Env -> Entity F -> Result (Entity F).
Variable Meta_ordering : Entity F -> Entity F -> bool.
Implicit Types (db : list (Entity F)) (row item : Entity F).

Lemma flag_selected_nil env db : flag_selected env [] db = db.
Proof.
  unfold flag_selected. cbn [existsb]. apply List.map_id.
Qed.

Lemma map_pk_flag_selected env keys db :
  List.map pk (flag_selected env keys db) = List.map pk db.
Proof.
  unfold flag_selected. rewrite List.map_map. apply List.map_ext.
  intros r. destruct (existsb _ keys); reflexivity.
Qed.

Lemma flag_selected_app env keys1 keys2 db :
  flag_selected env keys2 (flag_selected env keys1 db)
  = flag_selected env (keys1 ++ keys2) db.
Proof.
  unfold flag_selected. rewrite List.map_map. apply List.map_ext.
  intros r. rewrite existsb_app.
  destruct (existsb (Z.eqb (pk r)) keys1) eqn:E1; cbn [orb]; [| reflexivity].
  change (pk (flagged env r)) with (pk r).
  destruct (existsb (Z.eqb (pk r)) keys2); [| reflexivity].
  destruct r. reflexivity.
Qed.

Lemma flag_selected_In env keys db :
  (forall r, In r db -> In (pk r) keys -> In (flagged env r) (flag_selected env keys db))
  /\ (forall r, In r db -> ~ In (pk r) keys -> In r (flag_selected env keys db)).
Proof.
  unfold flag_selected. split.
  - intros x Hx Hsel. apply in_map_iff. exists x. split; [| exact Hx].
    replace (existsb (Z.eqb (pk x)) keys) with true; [reflexivity |].
    symmetry. apply existsb_exists. exists (pk x). split; [exact Hsel | apply Z.eqb_refl].
  - intros x Hx Hsel. apply in_map_iff. exists x. split; [| exact Hx].
    destruct (existsb (Z.eqb (pk x)) keys) eqn:E; [| reflexivity].
    exfalso. apply Hsel. apply existsb_exists in E. destruct E as (k & Hk & Heq).
    apply Z.eqb_eq in Heq. rewrite Heq. exact Hk.
Qed.

Lemma update_row_flagged env db row :
  NoDup (List.map pk db) -> In row db ->
  update_row db (flagged env row) = flag_selected env [pk row] db.
Proof.
  intros Hnd Hrow. unfold update_row, flag_selected. apply List.map_ext_in.
  intros r Hr. change (pk (flagged env row)) with (pk row).
  cbn [existsb]. rewrite orb_false_r.
  destruct (Z.eqb_spec (pk r) (pk row)) as [E | _]; [| reflexivity].
  rewrite (NoDup_pk_unique db row Hnd Hrow r Hr E). reflexivity.
Qed.

Lemma get_row_In_pk db key :
  In key (List.map pk db) -> exists row, get_row db key = Some row.
Proof.
  unfold get_row. induction db as [| x db IH]; [intros [] |].
  cbn [List.map List.find]. intros [Hx | Hin].
  - rewrite Hx, Z.eqb_refl. eauto.
  - destruct (Z.eqb (pk x) key); [eauto | exact (IH Hin)].
Qed.

Lemma flag_selected_filter env keys db :
  flag_selected env (List.map pk (filter_id_in Meta_ordering db keys)) db
  = flag_selected env keys db.
Proof.
  unfold flag_selected. apply List.map_ext_in. intros r Hr.
  replace (existsb (Z.eqb (pk r)) (List.map pk (filter_id_in Meta_ordering db keys)))
    with (existsb (Z.eqb (pk r)) keys); [reflexivity |].
  destruct (existsb (Z.eqb (pk r)) keys) eqn:E1; symmetry.
  - apply existsb_exists. exists (pk r). split; [| apply Z.eqb_refl].
    apply in_map_iff. exists (set_adding false r). split; [reflexivity |].
    apply filter_id_in_spec. exists r. auto.
  - destruct (existsb _ (List.map pk _)) eqn:E2; [| reflexivity].
    apply existsb_exists in E2. destruct E2 as (x & Hx & Heq).
    apply Z.eqb_eq in Heq. apply in_map_iff in Hx. destruct Hx as (r' & Hpk & Hr').
    apply filter_id_in_spec in Hr'. destruct Hr' as (r0 & _ & Hsel & ->).
    cbn in Hpk. rewrite Hpk, <- Heq, E1 in Hsel. discriminate Hsel.
Qed.

Lemma soft_delete_each_inv env (queryset : list (Entity F)) :
  keeps_mixin_attributes before_super ->
  forall db n db' r,
    NoDup (List.map pk db) ->
    (forall item, In item queryset ->
                  In (pk item) (List.map pk db) /\ adding item = false) ->
    soft_delete_each assign_own before_super db env queryset n = (db', r) ->
    exists pre post,
      queryset = pre ++ post
      /\ db' = flag_selected env (List.map pk pre) db
      /\ Forall (fun item =>
                   exists d s,
                     before_super d env
                       (set_deleted_at (Some (timezone_now env)) (set_is_active false item))
                     = Ok s) pre
      /\ ((post = [] /\ r = Ok (n + List.length pre)%nat)
          \/ exists item post' e,
               post = item :: post' /\ r = Raise e
               /\ before_super db' env
                    (set_deleted_at (Some (timezone_now env)) (set_is_active false item))
                  = Raise e).
Proof.
  intros Hkeep. induction queryset as [| item rest IH]; intros db n db' r Hnd Hin Hrun.
  - cbn in Hrun. injection Hrun as <- <-. exists [], [].
    split; [reflexivity |]. split; [symmetry; apply flag_selected_nil |].
    split; [constructor |]. left. split; [reflexivity |]. f_equal. cbn. lia.
  - cbn [soft_delete_each] in Hrun.
    destruct (before_super db env
                (set_deleted_at (Some (timezone_now env)) (set_is_active false item)))
      as [self1 | e] eqn:Hbefore.
    + destruct (Hin item (or_introl eq_refl)) as [Hkeyin Hadding].
      destruct (get_row_In_pk db (pk item) Hkeyin) as [row Hrow].
      assert (Hsd : soft_delete assign_own before_super db env item
                    = Ok (update_row db (flagged env row), self1))
        by exact (soft_columns_saved assign_own before_super false
                    (Some (timezone_now env)) db env item self1 row Hkeep Hadding
                    Hbefore Hrow).
      rewrite Hsd in Hrun. destruct (get_row_Some _ _ _ Hrow) as [Hrowin Hkey].
      rewrite (update_row_flagged env db row Hnd Hrowin) in Hrun.
      apply IH in Hrun;
        [| rewrite map_pk_flag_selected; exact Hnd
         | intros it Hit; rewrite map_pk_flag_selected; apply Hin; right; exact Hit].
      destruct Hrun as (pre & post & Hq & Hdb & Hall & Hend).
      exists (item :: pre), post. split; [cbn; rewrite Hq; reflexivity |].
      split; [rewrite Hdb, flag_selected_app; cbn [List.map app]; rewrite Hkey; reflexivity |].
      split; [constructor; [exists db, self1; exact Hbefore | exact Hall] |].
      destruct Hend as [[-> ->] | (it & post' & e & -> & -> & Hraise)].
      * left. split; [reflexivity |]. f_equal. cbn. lia.
      * right. exists it, post', e. split; [reflexivity |]. split; [reflexivity |].
        exact Hraise.
    + assert (Hsd : soft_delete assign_own before_super db env item = Raise e).
      { unfold soft_delete, save. cbv zeta. rewrite Hbefore. reflexivity. }
      rewrite Hsd in Hrun. injection Hrun as <- <-.
      exists [], (item :: rest). split; [reflexivity |].
      split; [symmetry; apply flag_selected_nil |]. split; [constructor |].
      right. exists item, rest, e. split; [reflexivity |]. split; [reflexivity |].
      exact Hbefore.
Qed.

Lemma BulkDeleteView_post_inv db env model_type ids db' resp :
  BulkDeleteView_post assign_own before_super Meta_ordering db env model_type ids
  = (db', resp) ->
  (forall n, resp <> Bulk_200 n) /\ (forall e, resp <> Bulk_Uncaught e) /\ db' = db
  \/ exists uuid_ids r,
       uuid_ids_of ids = Some uuid_ids
       /\ soft_delete_each assign_own before_super db env
            (filter_id_in Meta_ordering db uuid_ids) 0
          = (db', r)
       /\ resp = match r with Ok n => Bulk_200 n | Raise e => Bulk_Uncaught e end.
Proof.
  unfold BulkDeleteView_post. intros H.
  assert (Hrefused : forall msg, (db, Bulk_400 msg) = (db', resp) ->
            (forall n, resp <> Bulk_200 n) /\ (forall e, resp <> Bulk_Uncaught e)
            /\ db' = db).
  { intros msg Hm. injection Hm as <- <-. repeat split; discriminate. }
  destruct model_type as [m |]; [| destruct ids; left; exact (Hrefused _ H)].
  destruct ids as [| i ids']; [left; exact (Hrefused _ H) |].
  destruct (is_empty m); [left; exact (Hrefused _ H) |].
  destruct (negb _); [left; exact (Hrefused _ H) |].
  destruct (uuid_ids_of (i :: ids')) as [uuid_ids |]; [| left; exact (Hrefused _ H)].
  right. exists uuid_ids.
  destruct (soft_delete_each _ _ _ _ _ _) as [d [k | e]];
    injection H as <- <-; eexists; repeat split.
Qed.

(** X19: what a successful bulk delete has done.  With unique primary
    keys, an answer of 200 means that every id was read as a UUID, that
    [deleted_count] is the number of stored rows with one of these keys,
    and that the table is the old one with exactly these rows
    soft-deleted at the current time.  The selection does not look at
    [is_active]: rows that were soft-deleted before are counted and
    stamped again. *)
Theorem bulk_delete_flags_selection db env model_type ids db' n :
  keeps_mixin_attributes before_super ->
  NoDup (List.map pk db) ->
  BulkDeleteView_post assign_own before_super Meta_ordering db env model_type ids
  = (db', Bulk_200 n) ->
  exists uuid_ids,
    uuid_ids_of ids = Some uuid_ids
    /\ n = List.length (List.filter (fun r => existsb (Z.eqb (pk r)) uuid_ids) db)
    /\ db' = flag_selected env uuid_ids db
    /\ (forall r, In r db -> In (pk r) uuid_ids -> In (flagged env r) db')
    /\ (forall r, In r db -> ~ In (pk r) uuid_ids -> In r db').
Proof.
  intros Hkeep Hnd Hpost. apply BulkDeleteView_post_inv in Hpost.
  destruct Hpost as [(Hn & _) | (uuid_ids & r & Hids & Hrun & Hresp)];
    [exfalso; exact (Hn n eq_refl) |].
  exists uuid_ids. split; [exact Hids |].
  apply (soft_delete_each_inv env _ Hkeep) in Hrun;
    [| exact Hnd | apply filter_id_in_stored].
  destruct Hrun as (pre & post & Hq & Hdb & _ & [[-> ->] | (it & post' & e & _ & -> & _)]);
    [| discriminate Hresp].
  injection Hresp as ->. rewrite app_nil_r in Hq. subst pre.
  rewrite flag_selected_filter in Hdb.
  split; [cbn; apply length_filter_id_in |]. split; [exact Hdb |].
  rewrite Hdb. split; apply flag_selected_In.
Qed.

(** X20: a bulk delete is not all-or-nothing.  When a [soft_delete]
    raises inside the loop, the request ends with that exception, raised
    by the model's [save] for the first row it rejects in the order of the
    model's [Meta.ordering]; the selected rows that this ordering puts
    ahead of that row stay soft-deleted, and every other row, the rejected
    one and those behind it included, is as before. *)
Theorem bulk_delete_keeps_earlier_deletions db env model_type ids db' e :
  keeps_mixin_attributes before_super ->
  NoDup (List.map pk db) ->
  BulkDeleteView_post assign_own before_super Meta_ordering db env model_type ids
  = (db', Bulk_Uncaught e) ->
  exists uuid_ids pre item post,
    uuid_ids_of ids = Some uuid_ids
    /\ filter_id_in Meta_ordering db uuid_ids = pre ++ item :: post
    /\ db' = flag_selected env (List.map pk pre) db
    /\ (forall r, In r db -> In (pk r) (List.map pk pre) -> In (flagged env r) db')
    /\ (forall r, In r db -> ~ In (pk r) (List.map pk pre) -> In r db')
    /\ before_super db' env
         (set_deleted_at (Some (timezone_now env)) (set_is_active false item))
       = Raise e.
Proof.
  intros Hkeep Hnd Hpost. apply BulkDeleteView_post_inv in Hpost.
  destruct Hpost as [(_ & He & _) | (uuid_ids & r & Hids & Hrun & Hresp)];
    [exfalso; exact (He e eq_refl) |].
  apply (soft_delete_each_inv env _ Hkeep) in Hrun;
    [| exact Hnd | apply filter_id_in_stored].
  destruct Hrun as (pre & post & Hq & Hdb & _ & [[-> ->] | (it & post' & e' & -> & -> & Hr)]);
    [discriminate Hresp |].
  injection Hresp as ->.
  exists uuid_ids, pre, it, post'.
  split; [exact Hids |]. split; [exact Hq |]. split; [exact Hdb |].
  split; [| split; [| exact Hr]]; rewrite Hdb; apply flag_selected_In.
Qed.
End BulkDeleteFacts.

Lemma Task_keeps_mixin_attributes : keeps_mixin_attributes Task_before_super.
Proof.
  intros db env self self' H. unfold Task_before_super in H. cbv zeta in H.
  match type of H with
  | context [Task_full_clean db env ?x] =>
      destruct (Task_full_clean db env x) as [[] | e]; cbn [mbind Result_bind] in H;
        [| discriminate H]
  end.
  injection H as <-.
  destruct (_ && _); [| destruct (_ && _)]; repeat split; reflexivity.
Qed.

Lemma Task_before_super_raises db env (self : Task) e :
  Task_before_super db env self = Raise e -> exists fields, e = ValidationError fields.
Proof.
  intros H. unfold Task_before_super in H. cbv zeta in H.
  match type of H with
  | context [Task_full_clean db env ?x] =>
      destruct (Task_full_clean db env x) as [[] | e'] eqn:Hfc;
        cbn [mbind Result_bind] in H; [discriminate H |]
  end.
  injection H as <-. unfold Task_full_clean in Hfc.
  destruct (_ ++ _) in Hfc; [discriminate Hfc |]. injection Hfc as <-. eauto.
Qed.

Lemma bulk_delete_flags_selection_witness :
  exists uuid_ids,
    uuid_ids_of [Some 1%Z; Some 3%Z] = Some uuid_ids
    /\ 2%nat = List.length (List.filter (fun r => existsb (Z.eqb (pk r)) uuid_ids)
                              [won_deal; qualified_deal; late_deal])
    /\ fst (BulkDeleteView_post Deal_assign_own Deal_before_super (Deal_Meta_ordering true)
              [won_deal; qualified_deal; late_deal] sample_env (Some "deal")
              [Some 1%Z; Some 3%Z])
       = flag_selected sample_env uuid_ids [won_deal; qualified_deal; late_deal]
    /\ (forall r, In r [won_deal; qualified_deal; late_deal] -> In (pk r) uuid_ids ->
          In (flagged sample_env r)
            (fst (BulkDeleteView_post Deal_assign_own Deal_before_super
                    (Deal_Meta_ordering true)
                    [won_deal; qualified_deal; late_deal] sample_env (Some "deal")
                    [Some 1%Z; Some 3%Z])))
    /\ (forall r, In r [won_deal; qualified_deal; late_deal] -> ~ In (pk r) uuid_ids ->
          In r
            (fst (BulkDeleteView_post Deal_assign_own Deal_before_super
                    (Deal_Meta_ordering true)
                    [won_deal; qualified_deal; late_deal] sample_env (Some "deal")
                    [Some 1%Z; Some 3%Z]))).
Proof.
  apply (bulk_delete_flags_selection Deal_assign_own Deal_before_super
           (Deal_Meta_ordering true)
           [won_deal; qualified_deal; late_deal] sample_env (Some "deal")
           [Some 1%Z; Some 3%Z]).
  - exact Deal_keeps_mixin_attributes.
  - refine (bool_decide_unpack _ _). vm_compute. exact I.
  - vm_compute. reflexivity.
Defined.

Lemma bulk_delete_keeps_earlier_deletions_witness :
  filter_id_in (Task_Meta_ordering true) [lapsed_task; planned_task] [44; 40]%Z
  = [planned_task; lapsed_task]
  /\ fst (BulkDeleteView_post Task_assign_own Task_before_super (Task_Meta_ordering true)
            [lapsed_task; planned_task] sample_env (Some "task") [Some 44%Z; Some 40%Z])
     = [lapsed_task; flagged sample_env planned_task]
  /\ exists uuid_ids pre item post,
       uuid_ids_of [Some 44%Z; Some 40%Z] = Some uuid_ids
       /\ filter_id_in (Task_Meta_ordering true) [lapsed_task; planned_task] uuid_ids
          = pre ++ item :: post
       /\ fst (BulkDeleteView_post Task_assign_own Task_before_super
                 (Task_Meta_ordering true)
                 [lapsed_task; planned_task] sample_env (Some "task")
                 [Some 44%Z; Some 40%Z])
          = flag_selected sample_env (List.map pk pre) [lapsed_task; planned_task]
       /\ (forall r, In r [lapsed_task; planned_task] -> In (pk r) (List.map pk pre) ->
             In (flagged sample_env r)
               (fst (BulkDeleteView_post Task_assign_own Task_before_super
                       (Task_Meta_ordering true)
                       [lapsed_task; planned_task] sample_env (Some "task")
                       [Some 44%Z; Some 40%Z])))
       /\ (forall r, In r [lapsed_task; planned_task] -> ~ In (pk r) (List.map pk pre) ->
             In r
               (fst (BulkDeleteView_post Task_assign_own Task_before_super
                       (Task_Meta_ordering true)
                       [lapsed_task; planned_task] sample_env (Some "task")
                       [Some 44%Z; Some 40%Z])))
       /\ Task_before_super
            (fst (BulkDeleteView_post Task_assign_own Task_before_super
                    (Task_Meta_ordering true)
                    [lapsed_task; planned_task] sample_env (Some "task")
                    [Some 44%Z; Some 40%Z]))
            sample_env
            (set_deleted_at (Some (timezone_now sample_env)) (set_is_active false item))
          = Raise (ValidationError ["due_date"]).
Proof.
  split; [vm_compute; reflexivity |]. split; [vm_compute; reflexivity |].
  apply (bulk_delete_keeps_earlier_deletions Task_assign_own Task_before_super
           (Task_Meta_ordering true)
           [lapsed_task; planned_task] sample_env (Some "task") [Some 44%Z; Some 40%Z]).
  - exact Task_keeps_mixin_attributes.
  - refine (bool_decide_unpack _ _). vm_compute. exact I.
  - vm_compute. reflexivity.
Defined.

(** X21: one overdue task blocks a bulk delete of tasks.  When the ids
    name a stored task that is past its due date and not completed, the
    request ends with an uncaught [ValidationError], whatever else was
    selected. *)
Theorem bulk_delete_tasks_blocked (tasks : list Task) env nulls_smallest ids uuid_ids
    (t : Task) due :
  NoDup (List.map pk tasks) ->
  uuid_ids_of ids = Some uuid_ids ->
  In t tasks -> In (pk t) uuid_ids ->
  due_date (own t) = Some due -> (due < timezone_now env)%Z ->
  status (own t) <> "completed" ->
  exists fields,
    snd (BulkDeleteView_post Task_assign_own Task_before_super
           (Task_Meta_ordering nulls_smallest) tasks env (Some "task") ids)
    = Bulk_Uncaught (ValidationError fields).
Proof.
  intros Hnd Hids Hin Hsel Hdue Hlt Hst.
  destruct ids as [| i ids']; [cbn in Hids; injection Hids as <-; destruct Hsel |].
  unfold BulkDeleteView_post.
  change (is_empty "task") with false.
  change (negb (str_in "task" model_map_keys)) with false.
  cbv beta iota. rewrite Hids.
  destruct (soft_delete_each _ _ _ _ _ _) as [d r] eqn:Hrun.
  apply (soft_delete_each_inv Task_assign_own Task_before_super env _
           Task_keeps_mixin_attributes) in Hrun;
    [| exact Hnd | apply filter_id_in_stored].
  destruct Hrun as (pre & post & Hq & _ & Hall
                    & [[-> ->] | (it & post' & e & _ & -> & Hraise)]).
  - exfalso. rewrite app_nil_r in Hq. subst pre.
    rewrite Forall_forall in Hall.
    destruct (Hall (set_adding false t)) as (d' & s & Hok).
    { apply list_elem_of_In. apply filter_id_in_spec. exists t.
      split; [exact Hin |]. split; [| reflexivity].
      apply existsb_exists. exists (pk t). split; [exact Hsel | apply Z.eqb_refl]. }
    destruct (Task_before_super_stale d' env
                (set_deleted_at (Some (timezone_now env))
                   (set_is_active false (set_adding false t)))
                due Hdue Hlt Hst) as (fields & Hstale & _).
    rewrite Hstale in Hok. discriminate Hok.
  - apply Task_before_super_raises in Hraise. destruct Hraise as [fields ->].
    exists fields. reflexivity.
Qed.

Lemma bulk_delete_tasks_blocked_witness :
  exists fields,
    snd (BulkDeleteView_post Task_assign_own Task_before_super (Task_Meta_ordering true)
           [planned_task; stale_task] sample_env (Some "task") [Some 40%Z; Some 41%Z])
    = Bulk_Uncaught (ValidationError fields).
Proof.
  apply (bulk_delete_tasks_blocked [planned_task; stale_task] sample_env true
           [Some 40%Z; Some 41%Z] [40%Z; 41%Z] stale_task 1717900000).
  - refine (bool_decide_unpack _ _). vm_compute. exact I.
  - reflexivity.
  - right. left. reflexivity.
  - right. left. reflexivity.
  - reflexivity.
  - simpl. lia.
  - discriminate.
Defined.

(** ** Upcoming tasks *)

(** X22: the upcoming list and the overdue list never share a task, no
    task of the upcoming list is overdue by the model's test, and an
    active task that is pending or in progress and due within seven days
    from now, or earlier, is in one of the two lists. *)
Theorem upcoming_and_overdue (tasks : list Task) env (t : Task) :
  (In t (TaskViewSet_upcoming tasks env) ->
   ~ In t (TaskViewSet_overdue tasks env)
   /\ In t tasks /\ is_active t = true /\ is_overdue env t = false)
  /\ (In t tasks -> is_active t = true ->
      str_in (status (own t)) ["pending"; "in_progress"] = true ->
      forall due, due_date (own t) = Some due ->
                  (due <= timezone_now env + seven_days)%Z ->
                  In t (TaskViewSet_overdue tasks env)
                  \/ In t (TaskViewSet_upcoming tasks env)).
Proof.
  unfold TaskViewSet_upcoming, TaskViewSet_overdue, upcoming_selected, overdue_selected.
  split.
  - rewrite !In_order_by_due_date, !filter_In. unfold is_overdue.
    intros [Hin H]. apply andb_prop in H. destruct H as [H Hst].
    apply andb_prop in H. destruct H as [Hact Hdue].
    destruct (due_date (own t)) as [due |]; [| discriminate Hdue].
    apply andb_prop in Hdue. destruct Hdue as [Hlo _]. apply Z.leb_le in Hlo.
    assert (Hnot : (due <? timezone_now env)%Z = false) by (apply Z.ltb_ge; exact Hlo).
    rewrite Hnot, Hact. split.
    + intros [_ H]. cbn [andb] in H. discriminate H.
    + split; [exact Hin |]. split; [reflexivity |].
      destruct (negb _); reflexivity.
  - intros Hin Hact Hst due Hdue Hle.
    rewrite !In_order_by_due_date, !filter_In. rewrite Hdue, Hact, Hst. cbn [andb].
    destruct (Z.ltb_spec due (timezone_now env)) as [Hlt | Hge].
    + left. split; [exact Hin | reflexivity].
    + right. split; [exact Hin |].
      rewrite (proj2 (Z.leb_le _ _) Hge), (proj2 (Z.leb_le _ _) Hle). reflexivity.
Qed.

Lemma upcoming_and_overdue_witness :
  In planned_task (TaskViewSet_overdue [planned_task; stale_task] sample_env)
  \/ In planned_task (TaskViewSet_upcoming [planned_task; stale_task] sample_env).
Proof.
  apply (proj2 (upcoming_and_overdue [planned_task; stale_task] sample_env planned_task))
    with (due := 1718300000%Z).
  - left. reflexivity.
  - reflexivity.
  - reflexivity.
  - reflexivity.
  - vm_compute. discriminate.
Defined.

